(** * Google Tasks MCP server: a shallow embedding of google_tasks_mcp.py

    The development follows the layout of the Python module:
    - [Py]: the fragment of Python's [str], [dict], [json] and [datetime]
      that the module relies on;
    - [Auth]: [GoogleTasksAuth.get_credentials];
    - [Gateway]: the remote service, the call log and [GoogleTasksClient];
    - [Formatter]: [ResponseFormatter];
    - [Tools]: the tool functions ([update_task], [quick_add_task],
      [bulk_create_tasks], [search_tasks], [get_task_summary]);
    - [Spec]: the notions the specification states its properties in;
    - [Demo]: sample data and a sample service to run the tools against;
    - the theorems, one group per function. *)

From Stdlib Require Import String Ascii.
From Stdlib Require Import List ZArith NArith Lia Bool.
Import ListNotations.

Set Implicit Arguments.
Set Warnings "-register-all".

(* ================================================================== *)
(** * Python values *)
(* ================================================================== *)

Module Py.

(** ** str: a sequence of Unicode code points

    [len] counts code points, so a Python string is a list of code
    points, not of bytes. *)

Definition str := list N.

Fixpoint lit (s : string) : str :=
  match s with
  | EmptyString => []
  | String a r => N_of_ascii a :: lit r
  end.

Definition len (s : str) : Z := Z.of_nat (length s).

Definition nl : str := [10%N].

Fixpoint str_eqb (a b : str) : bool :=
  match a, b with
  | [], [] => true
  | x :: a', y :: b' => N.eqb x y && str_eqb a' b'
  | _, _ => false
  end.

(** [s.startswith(p)] *)
Fixpoint startswith (p s : str) : bool :=
  match p, s with
  | [], _ => true
  | x :: p', y :: s' => N.eqb x y && startswith p' s'
  | _ :: _, [] => false
  end.

(** [sub in s] *)
Fixpoint contains (sub s : str) : bool :=
  startswith sub s ||
  match s with
  | [] => false
  | _ :: r => contains sub r
  end.

(** [s.replace(old, new)]: every non-overlapping occurrence, leftmost
    first.  [skip] counts the characters of an occurrence still to be
    dropped. *)
Fixpoint replace_from (old new : str) (skip : nat) (s : str) : str :=
  match s with
  | [] => []
  | c :: r =>
      match skip with
      | S k => replace_from old new k r
      | O =>
          if startswith old s
          then new ++ replace_from old new (length old - 1) r
          else c :: replace_from old new 0 r
      end
  end.

Definition replace (old new s : str) : str :=
  match old with
  | [] => new ++ flat_map (fun c => c :: new) s
  | _ :: _ => replace_from old new 0 s
  end.

(** [str.isspace] on one code point (the Unicode White_Space and
    bidirectional-separator code points CPython treats as whitespace). *)
Definition is_space (c : N) : bool :=
  ((9 <=? c) && (c <=? 13) || (28 <=? c) && (c <=? 32)
   || (c =? 133) || (c =? 160) || (c =? 5760)
   || (8192 <=? c) && (c <=? 8202)
   || (c =? 8232) || (c =? 8233) || (c =? 8239) || (c =? 8287)
   || (c =? 12288))%N.

Fixpoint lstrip (s : str) : str :=
  match s with
  | [] => []
  | c :: r => if is_space c then lstrip r else s
  end.

Definition rstrip (s : str) : str := rev (lstrip (rev s)).

(** [s.strip()] *)
Definition strip (s : str) : str := rstrip (lstrip s).

Definition is_ascii (c : N) : bool := (c <? 128)%N.

Definition ascii_lower (c : N) : N :=
  if ((65 <=? c) && (c <=? 90))%N then (c + 32)%N else c.

(** [s.lower()].  CPython lowers an ASCII-only string byte by byte and
    sends every other string through the case tables of the Unicode
    database; those tables are outside the repository and enter as
    [ucd_lower]. *)
Definition lower (ucd_lower : str -> str) (s : str) : str :=
  if forallb is_ascii s then map ascii_lower s else ucd_lower s.

(** Truthiness of a string: [if s:]. *)
Definition truthy_str (s : str) : bool :=
  match s with [] => false | _ :: _ => true end.

(** ** Decimal rendering of integers: [str(n)], ["%02d" % n] *)

Fixpoint digits_of_uint (u : Decimal.uint) : str :=
  match u with
  | Decimal.Nil => []
  | Decimal.D0 r => 48%N :: digits_of_uint r
  | Decimal.D1 r => 49%N :: digits_of_uint r
  | Decimal.D2 r => 50%N :: digits_of_uint r
  | Decimal.D3 r => 51%N :: digits_of_uint r
  | Decimal.D4 r => 52%N :: digits_of_uint r
  | Decimal.D5 r => 53%N :: digits_of_uint r
  | Decimal.D6 r => 54%N :: digits_of_uint r
  | Decimal.D7 r => 55%N :: digits_of_uint r
  | Decimal.D8 r => 56%N :: digits_of_uint r
  | Decimal.D9 r => 57%N :: digits_of_uint r
  end.

Definition str_of_N (n : N) : str := digits_of_uint (N.to_uint n).

Definition str_of_Z (z : Z) : str :=
  if (z <? 0)%Z then 45%N :: str_of_N (Z.to_N (- z)) else str_of_N (Z.to_N z).

(** ["%0wd" % z] for [0 <= z]. *)
Definition zero_pad (w : nat) (z : Z) : str :=
  let d := str_of_Z z in
  repeat 48%N (w - length d) ++ d.

Fixpoint join (sep : str) (l : list str) : str :=
  match l with
  | [] => []
  | [x] => x
  | x :: r => x ++ sep ++ join sep r
  end.

(** ** dict: insertion-ordered, keyed by strings *)

Definition dict (V : Type) := list (str * V).

(** [d.get(k)] *)
Fixpoint dict_get {V} (d : dict V) (k : str) : option V :=
  match d with
  | [] => None
  | (k', v) :: r => if str_eqb k' k then Some v else dict_get r k
  end.

(** [k in d] *)
Definition dict_mem {V} (d : dict V) (k : str) : bool :=
  match dict_get d k with Some _ => true | None => false end.

(** [d[k] = v]: an existing key keeps its place, a new one goes last. *)
Fixpoint dict_set {V} (d : dict V) (k : str) (v : V) : dict V :=
  match d with
  | [] => [(k, v)]
  | (k', v') :: r =>
      if str_eqb k' k then (k', v) :: r else (k', v') :: dict_set r k v
  end.

(** [d.pop(k, None)], the popped value dropped. *)
Definition dict_pop {V} (d : dict V) (k : str) : dict V :=
  filter (fun kv => negb (str_eqb (fst kv) k)) d.

(** ** Values decoded from JSON

    The records of the Tasks API hold strings, booleans, integers, lists
    and objects; no field is a float. *)

Inductive json : Type :=
| JNull
| JBool (b : bool)
| JInt (z : Z)
| JStr (s : str)
| JList (l : list json)
| JDict (d : list (str * json)).

(** [bool(v)] *)
Definition truthy (v : json) : bool :=
  match v with
  | JNull => false
  | JBool b => b
  | JInt z => negb (z =? 0)%Z
  | JStr s => truthy_str s
  | JList l => match l with [] => false | _ => true end
  | JDict d => match d with [] => false | _ => true end
  end.

(** [v == s] for a string constant [s]. *)
Definition eq_str (v : json) (s : str) : bool :=
  match v with
  | JStr t => str_eqb t s
  | _ => false
  end.

(** [str(v)], as an f-string renders a value.  The [repr] of a list or a
    dict is left to [container_repr]. *)
Definition py_str (container_repr : json -> str) (v : json) : str :=
  match v with
  | JNull => lit "None"
  | JBool true => lit "True"
  | JBool false => lit "False"
  | JInt z => str_of_Z z
  | JStr s => s
  | JList _ | JDict _ => container_repr v
  end.

(** ** json.dumps(v, indent=2) *)

Definition hex_digit (n : N) : N :=
  (if n <? 10 then 48 + n else 87 + n)%N.

(** ['\\u{0:04x}'.format(c)] *)
Definition u_escape (c : N) : str :=
  [92; 117]%N ++
  [hex_digit ((c / 4096) mod 16); hex_digit ((c / 256) mod 16);
   hex_digit ((c / 16) mod 16); hex_digit (c mod 16)]%N.

Definition escape_char (c : N) : str :=
  (if c =? 92 then [92; 92]
   else if c =? 34 then [92; 34]
   else if c =? 8 then [92; 98]
   else if c =? 12 then [92; 102]
   else if c =? 10 then [92; 110]
   else if c =? 13 then [92; 114]
   else if c =? 9 then [92; 116]
   else if (32 <=? c) && (c <=? 126) then [c]
   else if c <? 65536 then u_escape c
   else
     let n := c - 65536 in
     u_escape (N.lor 55296 (N.land (N.shiftr n 10) 1023)) ++
     u_escape (N.lor 56320 (N.land n 1023)))%N.

(** [py_encode_basestring_ascii] *)
Definition encode_string (s : str) : str :=
  [34%N] ++ flat_map escape_char s ++ [34%N].

Definition indent_of (level : nat) : str := repeat 32%N (2 * level).

Fixpoint dumps_at (level : nat) (v : json) : str :=
  match v with
  | JNull => lit "null"
  | JBool true => lit "true"
  | JBool false => lit "false"
  | JInt z => str_of_Z z
  | JStr s => encode_string s
  | JList l =>
      match l with
      | [] => lit "[]"
      | _ :: _ =>
          let newline_indent := nl ++ indent_of (S level) in
          lit "[" ++ newline_indent
          ++ join (lit "," ++ newline_indent) (map (dumps_at (S level)) l)
          ++ nl ++ indent_of level ++ lit "]"
      end
  | JDict d =>
      match d with
      | [] => lit "{}"
      | _ :: _ =>
          let newline_indent := nl ++ indent_of (S level) in
          lit "{" ++ newline_indent
          ++ join (lit "," ++ newline_indent)
               (map (fun kv =>
                       match kv with
                       | (k, x) => encode_string k ++ lit ": " ++ dumps_at (S level) x
                       end) d)
          ++ nl ++ indent_of level ++ lit "}"
      end
  end.

Definition json_dumps (v : json) : str := dumps_at 0 v.

(** ** datetime: the proleptic Gregorian calendar of the [datetime] module *)

Local Open Scope Z_scope.

Definition MINYEAR : Z := 1.
Definition MAXYEAR : Z := 9999.
Definition MAXORDINAL : Z := 3652059.

Definition DAYS_IN_MONTH : list Z :=
  [-1; 31; 28; 31; 30; 31; 30; 31; 31; 30; 31; 30; 31].

Definition DAYS_BEFORE_MONTH : list Z :=
  [-1; 0; 31; 59; 90; 120; 151; 181; 212; 243; 273; 304; 334].

Definition is_leap (year : Z) : bool :=
  (year mod 4 =? 0) && (negb (year mod 100 =? 0) || (year mod 400 =? 0)).

Definition days_before_year (year : Z) : Z :=
  let y := year - 1 in
  y * 365 + y / 4 - y / 100 + y / 400.

Definition days_in_month (year month : Z) : Z :=
  if (month =? 2) && is_leap year then 29
  else nth (Z.to_nat month) DAYS_IN_MONTH (-1).

Definition days_before_month (year month : Z) : Z :=
  nth (Z.to_nat month) DAYS_BEFORE_MONTH (-1)
  + (if (2 <? month) && is_leap year then 1 else 0).

Record date : Type := mk_date { year : Z; month : Z; day : Z }.

Definition ymd2ord (y m d : Z) : Z :=
  days_before_year y + days_before_month y m + d.

Definition DI400Y : Z := 146097.
Definition DI100Y : Z := 36524.
Definition DI4Y : Z := 1461.

Definition ord2ymd (n : Z) : date :=
  let n := n - 1 in
  let n400 := n / DI400Y in
  let n := n mod DI400Y in
  let y := n400 * 400 + 1 in
  let n100 := n / DI100Y in
  let n := n mod DI100Y in
  let n4 := n / DI4Y in
  let n := n mod DI4Y in
  let n1 := n / 365 in
  let n := n mod 365 in
  let y := y + (n100 * 100 + n4 * 4 + n1) in
  if (n1 =? 4) || (n100 =? 4) then mk_date (y - 1) 12 31
  else
    let leapyear := (n1 =? 3) && (negb (n4 =? 24) || (n100 =? 3)) in
    let m := Z.shiftr (n + 50) 5 in
    let preceding :=
      nth (Z.to_nat m) DAYS_BEFORE_MONTH (-1)
      + (if (2 <? m) && leapyear then 1 else 0) in
    if n <? preceding
    then
      let m := m - 1 in
      let preceding :=
        preceding - (nth (Z.to_nat m) DAYS_IN_MONTH (-1)
                     + (if (m =? 2) && leapyear then 1 else 0)) in
      mk_date y m (n - preceding + 1)
    else mk_date y m (n - preceding + 1).

Definition toordinal (d : date) : Z := ymd2ord (year d) (month d) (day d).

(** [d + timedelta(days=n)]; [None] is the OverflowError. *)
Definition date_add_days (d : date) (n : Z) : option date :=
  let o := toordinal d + n in
  if (0 <? o) && (o <=? MAXORDINAL) then Some (ord2ymd o) else None.

(** The checks of [_check_date_fields]. *)
Definition check_date_fields (y m d : Z) : bool :=
  (MINYEAR <=? y) && (y <=? MAXYEAR) && (1 <=? m) && (m <=? 12)
  && (1 <=? d) && (d <=? days_in_month y m).

(** ["%04d-%02d-%02d" % (y, m, d)] *)
Definition format_ymd (y m d : Z) : str :=
  zero_pad 4 y ++ lit "-" ++ zero_pad 2 m ++ lit "-" ++ zero_pad 2 d.

(** [d.isoformat()] *)
Definition isoformat (d : date) : str := format_ymd (year d) (month d) (day d).

(** *** datetime.fromisoformat

    The grammar documented for [datetime.fromisoformat] in Python 3.8 to
    3.10, the versions the setup script asks for at least:
    [YYYY-MM-DD[*HH[:MM[:SS[.fff[fff]]]][+HH:MM[:SS[.ffffff]]]]].
    Numbers are runs of ASCII digits. *)

Record datetime : Type := mk_datetime {
  dt_year : Z; dt_month : Z; dt_day : Z;
  dt_hour : Z; dt_minute : Z; dt_second : Z; dt_microsecond : Z;
  dt_utcoffset : option Z  (* microseconds east of UTC *)
}.

Definition is_digit (c : N) : bool := ((48 <=? c) && (c <=? 57))%N.

Fixpoint digits_value (acc : Z) (s : str) : option Z :=
  match s with
  | [] => Some acc
  | c :: r =>
      if is_digit c then digits_value (acc * 10 + Z.of_N (c - 48)) r else None
  end.

Definition parse_int (s : str) : option Z :=
  match s with
  | [] => None
  | _ :: _ => digits_value 0 s
  end.

(** [s[i:j]] for [0 <= i <= j]. *)
Definition slice (s : str) (i j : nat) : str := firstn (j - i) (skipn i s).

(** [s.find(c)] for a one-character [c]; [None] stands for -1. *)
Fixpoint find_char (c : N) (s : str) : option nat :=
  match s with
  | [] => None
  | x :: r => if N.eqb x c then Some O else option_map S (find_char c r)
  end.

Definition parse_isoformat_date (dstr : str) : option (Z * Z * Z) :=
  if negb (Nat.eqb (length dstr) 10) then None else
  match parse_int (slice dstr 0 4), parse_int (slice dstr 5 7),
        parse_int (slice dstr 8 10) with
  | Some y, Some m, Some d =>
      if str_eqb (slice dstr 4 5) (lit "-") && str_eqb (slice dstr 7 8) (lit "-")
      then Some (y, m, d) else None
  | _, _, _ => None
  end.

Definition two_digits (s : str) : option (Z * str) :=
  match s with
  | a :: b :: r =>
      match parse_int [a; b] with
      | Some v => Some (v, r)
      | None => None
      end
  | _ => None
  end.

Definition parse_fraction (s : str) : option Z :=
  match s with
  | [] => Some 0
  | c :: f =>
      if N.eqb c 46 then
        match length f with
        | 3%nat => option_map (fun v => v * 1000) (parse_int f)
        | 6%nat => parse_int f
        | _ => None
        end
      else None
  end.

(** [HH[:MM[:SS[.fff[fff]]]]] *)
Definition parse_hh_mm_ss_ff (t : str) : option (Z * Z * Z * Z) :=
  match two_digits t with
  | None => None
  | Some (hh, []) => Some (hh, 0, 0, 0)
  | Some (hh, c1 :: r1) =>
      if negb (N.eqb c1 58) then None else
      match two_digits r1 with
      | None => None
      | Some (mm, []) => Some (hh, mm, 0, 0)
      | Some (mm, c2 :: r2) =>
          if negb (N.eqb c2 58) then None else
          match two_digits r2 with
          | None => None
          | Some (ss, r3) =>
              match parse_fraction r3 with
              | Some us => Some (hh, mm, ss, us)
              | None => None
              end
          end
      end
  end.

Definition DAY_US : Z := 86400000000.

(** The time part with its optional UTC offset. *)
Definition parse_isoformat_time (tstr : str)
  : option (Z * Z * Z * Z * option Z) :=
  if (length tstr <? 2)%nat then None else
  let tz_pos :=
    match find_char 45 tstr with
    | Some i => Some i
    | None => find_char 43 tstr
    end in
  match tz_pos with
  | None =>
      match parse_hh_mm_ss_ff tstr with
      | Some (hh, mm, ss, us) => Some (hh, mm, ss, us, None)
      | None => None
      end
  | Some i =>
      let tzstr := skipn (S i) tstr in
      match parse_hh_mm_ss_ff (firstn i tstr) with
      | None => None
      | Some (hh, mm, ss, us) =>
          if negb (Nat.eqb (length tzstr) 5 || Nat.eqb (length tzstr) 8
                   || Nat.eqb (length tzstr) 15) then None else
          match parse_hh_mm_ss_ff tzstr with
          | None => None
          | Some (th, tm, ts, tu) =>
              let sign := if N.eqb (nth i tstr 0%N) 45 then -1 else 1 in
              let off := sign * (((th * 60 + tm) * 60 + ts) * 1000000 + tu) in
              if (- DAY_US <? off) && (off <? DAY_US)
              then Some (hh, mm, ss, us, Some off) else None
          end
      end
  end.

(** The checks of [_check_time_fields]. *)
Definition check_time_fields (hh mm ss us : Z) : bool :=
  (0 <=? hh) && (hh <=? 23) && (0 <=? mm) && (mm <=? 59)
  && (0 <=? ss) && (ss <=? 59) && (0 <=? us) && (us <=? 999999).

(** [datetime.fromisoformat(s)]; [None] is the ValueError. *)
Definition fromisoformat (s : str) : option datetime :=
  match parse_isoformat_date (slice s 0 10) with
  | None => None
  | Some (y, m, d) =>
      let tstr := skipn 11 s in
      let time :=
        match tstr with
        | [] => Some (0, 0, 0, 0, None)
        | _ :: _ => parse_isoformat_time tstr
        end in
      match time with
      | None => None
      | Some (hh, mm, ss, us, tz) =>
          if check_date_fields y m d && check_time_fields hh mm ss us
          then Some (mk_datetime y m d hh mm ss us tz) else None
      end
  end.

(** [dt.strftime('%Y-%m-%d')].  The conversions are those of the C
    library: [%m] and [%d] are padded to two digits, while [%Y] is the
    year as a plain decimal number, which the C library of Linux does not
    pad, so that the year 999 is written [999].  From the year 1000 on
    this is the four-digit year on every platform. *)
Definition strftime_ymd (dt : datetime) : str :=
  str_of_Z (dt_year dt) ++ lit "-" ++ zero_pad 2 (dt_month dt)
  ++ lit "-" ++ zero_pad 2 (dt_day dt).

Local Close Scope Z_scope.

(** ** Exceptions and dynamic typing *)

Record exn : Type := mk_exn { exn_class : str; exn_str : str }.

Definition type_name (v : json) : str :=
  match v with
  | JNull => lit "NoneType"
  | JBool _ => lit "bool"
  | JInt _ => lit "int"
  | JStr _ => lit "str"
  | JList _ => lit "list"
  | JDict _ => lit "dict"
  end.

Definition AttributeError (v : json) (attr : str) : exn :=
  mk_exn (lit "AttributeError")
    (lit "'" ++ type_name v ++ lit "' object has no attribute '" ++ attr ++ lit "'").

(** [v.get]: only a dict has the method. *)
Definition as_dict (v : json) : exn + dict json :=
  match v with
  | JDict d => inr d
  | _ => inl (AttributeError v (lit "get"))
  end.

(** [v.lower]: only a str has the method. *)
Definition as_str (v : json) : exn + str :=
  match v with
  | JStr s => inr s
  | _ => inl (AttributeError v (lit "lower"))
  end.

(** [for x in v]: a list gives its items, a dict its keys, a str its
    characters; nothing else is iterable. *)
Definition py_iter (v : json) : exn + list json :=
  match v with
  | JList l => inr l
  | JDict d => inr (map (fun kv => JStr (fst kv)) d)
  | JStr s => inr (map (fun c => JStr [c]) s)
  | _ => inl (mk_exn (lit "TypeError")
                (lit "'" ++ type_name v ++ lit "' object is not iterable"))
  end.

(** [v[k]] for a string key [k]. *)
Definition getitem (v : json) (k : str) : exn + json :=
  match v with
  | JDict d =>
      match dict_get d k with
      | Some x => inr x
      | None => inl (mk_exn (lit "KeyError") (lit "'" ++ k ++ lit "'"))
      end
  | JStr _ =>
      inl (mk_exn (lit "TypeError") (lit "string indices must be integers"))
  | JList _ =>
      inl (mk_exn (lit "TypeError")
             (lit "list indices must be integers or slices, not str"))
  | _ =>
      inl (mk_exn (lit "TypeError")
             (lit "'" ++ type_name v ++ lit "' object is not subscriptable"))
  end.

(** [d.get(k, default)] *)
Definition get_default (d : dict json) (k : str) (default : json) : json :=
  match dict_get d k with
  | Some v => v
  | None => default
  end.

End Py.

(* ================================================================== *)
(** * Configuration and input models *)
(* ================================================================== *)

Module Config.
Import Py.

Definition CHARACTER_LIMIT : Z := 25000.
Definition MAX_TASKS_PER_RESPONSE : Z := 100.
Definition MAX_LISTS_PER_RESPONSE : Z := 50.

Inductive ResponseFormat : Type := JSON | MARKDOWN | CONCISE | DETAILED.

Inductive TaskStatus : Type := NEEDS_ACTION | COMPLETED.

(** [status.value] *)
Definition TaskStatus_value (s : TaskStatus) : str :=
  match s with
  | NEEDS_ACTION => lit "needsAction"
  | COMPLETED => lit "completed"
  end.

Record UpdateTaskInput : Type := {
  ut_task_id : str;
  ut_tasklist_id : str;
  ut_title : option str;
  ut_notes : option str;
  ut_status : option TaskStatus;
  ut_due_date : option str
}.

Record QuickAddTaskInput : Type := {
  qa_text : str;
  qa_tasklist_id : str
}.

Record BulkCreateTasksInput : Type := {
  bc_tasks : list str;
  bc_tasklist_id : str;
  bc_due_date : option str
}.

Record SearchTasksInput : Type := {
  st_query : str;
  st_include_completed : bool;
  st_max_results : Z;
  st_response_format : ResponseFormat
}.

Inductive TimeRange : Type := Today | Tomorrow | Week | Overdue | All.

Record GetTaskSummaryInput : Type := {
  ts_time_range : TimeRange;
  ts_include_completed : bool;
  ts_response_format : ResponseFormat
}.

(** The [Field] constraints pydantic checks before a tool body runs. *)

Definition opt_all {A} (p : A -> bool) (o : option A) : bool :=
  match o with Some a => p a | None => true end.

Definition valid_UpdateTaskInput (i : UpdateTaskInput) : bool :=
  opt_all (fun t => (1 <=? len t)%Z && (len t <=? 500)%Z) (ut_title i)
  && opt_all (fun n => (len n <=? 8192)%Z) (ut_notes i).

Definition valid_BulkCreateTasksInput (i : BulkCreateTasksInput) : bool :=
  (1 <=? length (bc_tasks i))%nat && (length (bc_tasks i) <=? 50)%nat.

Definition valid_SearchTasksInput (i : SearchTasksInput) : bool :=
  (1 <=? len (st_query i))%Z
  && (1 <=? st_max_results i)%Z && (st_max_results i <=? 50)%Z.

End Config.

(* ================================================================== *)
(** * Authentication helper *)
(* ================================================================== *)

Module Auth.
Import Py.

(** The attributes of [google.oauth2.credentials.Credentials] that
    [get_credentials] reads.  [expired] is the property as observed
    during the call; [valid] is the library's
    [token is not None and not expired]. *)
Record Credentials : Type := {
  token : option str;
  refresh_token : option str;
  expired : bool
}.

Definition valid (c : Credentials) : bool :=
  match token c with
  | Some _ => negb (expired c)
  | None => false
  end.

Definition has_refresh_token (c : Credentials) : bool :=
  match refresh_token c with
  | Some t => truthy_str t
  | None => false
  end.

(** What the call finds outside the process. *)
Record Env : Type := {
  (** [None]: no file at TOKEN_PATH; [Some (inl e)]: the file does not
      parse; [Some (inr c)]: the persisted credential. *)
  token_file : option (exn + Credentials);
  (** the outcome of [creds.refresh(Request())] *)
  refresh : Credentials -> exn + Credentials;
  (** [CREDENTIALS_PATH], the user's home directory expanded, and
      [os.path.exists(CREDENTIALS_PATH)] *)
  CREDENTIALS_PATH : str;
  client_secrets_exist : bool;
  (** the outcome of the interactive grant *)
  run_local_server : exn + Credentials;
  (** the outcome of writing TOKEN_PATH; [None] is success *)
  write_token : Credentials -> option exn
}.

Inductive event : Type :=
| Makedirs
| LoadToken
| Refresh (c : Credentials)
| RunFlow
| WriteToken (c : Credentials).

Definition FileNotFoundError (path : str) : exn :=
  mk_exn (lit "FileNotFoundError")
    (lit "Credentials file not found at " ++ path ++ lit ". "
     ++ lit "Please download OAuth 2.0 credentials from Google Cloud Console "
     ++ lit "and save them to this location.").

(** The [if os.path.exists(TOKEN_PATH)] block. *)
Definition load_token (e : Env) : list event * option Credentials :=
  match token_file e with
  | None => ([], None)
  | Some (inl _) => ([LoadToken], None)
  | Some (inr c) => ([LoadToken], Some c)
  end.

(** The [if creds and creds.expired and creds.refresh_token] block. *)
Definition try_refresh (e : Env) (creds : option Credentials)
  : list event * option Credentials :=
  match creds with
  | Some c =>
      if expired c && has_refresh_token c then
        match refresh e c with
        | inr c' => ([Refresh c], Some c')
        | inl _ => ([Refresh c], None)
        end
      else ([], Some c)
  | None => ([], None)
  end.

(** The [if not creds] block. *)
Definition run_flow (e : Env) (creds : option Credentials)
  : list event * (exn + Credentials) :=
  match creds with
  | Some c => ([], inr c)
  | None =>
      if negb (client_secrets_exist e)
      then ([], inl (FileNotFoundError (CREDENTIALS_PATH e)))
      else ([RunFlow], run_local_server e)
  end.

(** The [with open(TOKEN_PATH, 'w')] block. *)
Definition save_token (e : Env) (c : Credentials)
  : list event * (exn + Credentials) :=
  match write_token e c with
  | None => ([WriteToken c], inr c)
  | Some x => ([WriteToken c], inl x)
  end.

(** [not creds or not creds.valid] *)
Definition needs_renewal (creds : option Credentials) : bool :=
  match creds with
  | None => true
  | Some c => negb (valid c)
  end.

(** The body of [if not creds or not creds.valid]. *)
Definition renew (e : Env) (creds : option Credentials)
  : list event * (exn + Credentials) :=
  let '(ev2, creds) := try_refresh e creds in
  match run_flow e creds with
  | (ev3, inl x) => (ev2 ++ ev3, inl x)
  | (ev3, inr c) =>
      let '(ev4, r) := save_token e c in
      (ev2 ++ ev3 ++ ev4, r)
  end.

(** The trace of effects and the value returned ([inl]: the exception
    that leaves the function). *)
Definition get_credentials (e : Env)
  : list event * (exn + option Credentials) :=
  let '(ev1, creds) := load_token e in
  if needs_renewal creds then
    match renew e creds with
    | (ev, inl x) => (Makedirs :: ev1 ++ ev, inl x)
    | (ev, inr c) => (Makedirs :: ev1 ++ ev, inr (Some c))
    end
  else (Makedirs :: ev1, inr creds).

End Auth.

(* ================================================================== *)
(** * The remote service and GoogleTasksClient *)
(* ================================================================== *)

Module Gateway.
Import Py.

(** The query parameters of [tasks().list]. *)
Record list_params : Type := {
  lp_tasklist : json;
  lp_maxResults : Z;
  lp_showCompleted : bool;
  lp_showDeleted : bool;
  lp_showHidden : bool;
  lp_dueMin : option str;
  lp_dueMax : option str;
  lp_completedMin : option str;
  lp_completedMax : option str;
  lp_updatedMin : option str;
  lp_pageToken : option str
}.

(** The requests the client sends. *)
Inductive call : Type :=
| TasklistsList (maxResults : Z) (pageToken : option str)
| TasksInsert (tasklist : str) (body : dict json) (parent previous : option str)
| TasksList (params : list_params)
| TasksGet (tasklist task : str)
| TasksUpdate (tasklist task : str) (body : dict json).

(** The keyword arguments of [GoogleTasksClient.list_tasks]; [None] is
    a keyword left out. *)
Record list_kwargs : Type := {
  max_results : option Z;
  show_completed : option bool;
  show_deleted : option bool;
  show_hidden : option bool;
  due_min : option str;
  due_max : option str;
  completed_min : option str;
  completed_max : option str;
  updated_min : option str;
  page_token : option str
}.

Definition no_kwargs : list_kwargs :=
  Build_list_kwargs None None None None None None None None None None.

(** [x if x else None] on an optional string: what [if x:] lets pass. *)
Definition nonempty (o : option str) : option str :=
  match o with
  | Some (c :: r) => Some (c :: r)
  | _ => None
  end.

Definition default {A} (o : option A) (d : A) : A :=
  match o with Some a => a | None => d end.

(** The "# Apply updates" block of [GoogleTasksClient.update_task]. *)
Definition apply_updates (task : dict json) (updates : dict str) : dict json :=
  let task :=
    match nonempty (dict_get updates (lit "title")) with
    | Some t => dict_set task (lit "title") (JStr t)
    | None => task
    end in
  let task :=
    match nonempty (dict_get updates (lit "notes")) with
    | Some n => dict_set task (lit "notes") (JStr n)
    | None => task
    end in
  let task :=
    match nonempty (dict_get updates (lit "status")) with
    | Some st => dict_set task (lit "status") (JStr st)
    | None => task
    end in
  match dict_get updates (lit "due_date") with
  | Some d =>
      if str_eqb d (lit "clear") then dict_pop task (lit "due")
      else if truthy_str d
           then dict_set task (lit "due") (JStr (d ++ lit "T00:00:00.000Z"))
           else task
  | None => task
  end.

(** The request body [create_task] builds. *)
Definition create_body (title : str) (notes due : option str) : dict json :=
  let body := [(lit "title", JStr title)] in
  let body :=
    match nonempty notes with
    | Some n => dict_set body (lit "notes") (JStr n)
    | None => body
    end in
  match nonempty due with
  | Some d => dict_set body (lit "due") (JStr (d ++ lit "T00:00:00.000Z"))
  | None => body
  end.

(** The query parameters [list_tasks] builds. *)
Definition build_params (tasklist_id : json) (kw : list_kwargs) : list_params :=
  {| lp_tasklist := tasklist_id;
     lp_maxResults := default (max_results kw) 30%Z;
     lp_showCompleted := default (show_completed kw) false;
     lp_showDeleted := default (show_deleted kw) false;
     lp_showHidden := default (show_hidden kw) false;
     lp_dueMin :=
       option_map (fun d => d ++ lit "T00:00:00.000Z") (nonempty (due_min kw));
     lp_dueMax :=
       option_map (fun d => d ++ lit "T23:59:59.999Z") (nonempty (due_max kw));
     lp_completedMin :=
       option_map (fun d => d ++ lit "T00:00:00.000Z") (nonempty (completed_min kw));
     lp_completedMax :=
       option_map (fun d => d ++ lit "T23:59:59.999Z") (nonempty (completed_max kw));
     lp_updatedMin :=
       option_map (fun d => d ++ lit "T00:00:00.000Z") (nonempty (updated_min kw));
     lp_pageToken := nonempty (page_token kw) |}.

Section Remote.

(** The service behind the client: it answers each request, or raises,
    and moves to a new state. *)
Variable St : Type.
Variable respond : St -> call -> St * (exn + dict json).

(** The state of the service together with the log of requests sent. *)
Definition world : Type := (St * list call)%type.

(** Computations that talk to the service and may raise. *)
Definition M (A : Type) : Type := world -> world * (exn + A).

Definition ret {A} (a : A) : M A := fun w => (w, inr a).

Definition raise {A} (e : exn) : M A := fun w => (w, inl e).

Definition lift {A} (r : exn + A) : M A := fun w => (w, r).

Definition bind {A B} (m : M A) (k : A -> M B) : M B :=
  fun w =>
    match m w with
    | (w', inr a) => k a w'
    | (w', inl e) => (w', inl e)
    end.

(** [try: m  except Exception as e: h e] *)
Definition try_except {A} (m : M A) (h : exn -> M A) : M A :=
  fun w =>
    match m w with
    | (w', inr a) => (w', inr a)
    | (w', inl e) => h e w'
    end.

(** [request.execute()] *)
Definition execute (c : call) : M (dict json) :=
  fun w =>
    let '(st, log) := w in
    let '(st', r) := respond st c in
    ((st', log ++ [c]), r).

Notation "x <- m ;; k" := (bind m (fun x => k))
  (at level 61, m at next level, right associativity).

(** The methods of [GoogleTasksClient].  Their [except HttpError] clauses
    log and re-raise, which leaves the computation as it is. *)

Definition list_tasklists (max_results : Z) (page_token : option str)
  : M (dict json) :=
  execute (TasklistsList max_results page_token).

Definition create_task (title tasklist_id : str)
    (notes due parent previous : option str) : M (dict json) :=
  execute (TasksInsert tasklist_id (create_body title notes due) parent previous).

Definition list_tasks (tasklist_id : json) (kw : list_kwargs) : M (dict json) :=
  execute (TasksList (build_params tasklist_id kw)).

Definition update_task (task_id tasklist_id : str) (updates : dict str)
  : M (dict json) :=
  task <- execute (TasksGet tasklist_id task_id) ;;
  execute (TasksUpdate tasklist_id task_id (apply_updates task updates)).

End Remote.

End Gateway.

(* ================================================================== *)
(** * ResponseFormatter *)
(* ================================================================== *)

Module Formatter.
Import Py Config.

Definition CHECK_MARK : str := [9989%N].
Definition HOURGLASS : str := [9203%N].
Definition CALENDAR : str := [128197%N].
Definition CROSS_MARK : str := [10060%N].

Definition TRUNCATION_MARKER : str :=
  nl ++ nl ++ lit "... (truncated due to length)".

(** The "# Parse due date if present" block of [format_task]: the text
    shown for the stored [due] value. *)
Definition due_display (due : json) : json :=
  if truthy due then
    match due with
    | JStr s =>
        match fromisoformat (replace (lit "Z") (lit "+00:00") s) with
        | Some dt => JStr (strftime_ymd dt)
        | None => due
        end
    | _ => due
    end
  else JStr [].

Section Render.

Variable container_repr : json -> str.

Let show : json -> str := py_str container_repr.

Definition format_task (task : dict json) (format_type : ResponseFormat) : str :=
  match format_type with
  | JSON => json_dumps (JDict task)
  | _ =>
      let title := get_default task (lit "title") (JStr (lit "Untitled")) in
      let notes := get_default task (lit "notes") (JStr []) in
      let status := get_default task (lit "status") (JStr (lit "needsAction")) in
      let due := get_default task (lit "due") (JStr []) in
      let due_str := due_display due in
      let status_emoji :=
        if eq_str status (lit "completed") then CHECK_MARK else HOURGLASS in
      match format_type with
      | CONCISE =>
          let due_part :=
            if truthy due_str then lit " " ++ CALENDAR ++ lit " " ++ show due_str
            else [] in
          status_emoji ++ lit " " ++ show title ++ due_part
      | DETAILED =>
          let result := lit "### " ++ status_emoji ++ lit " " ++ show title ++ nl in
          let result :=
            if truthy notes then result ++ lit "**Notes:** " ++ show notes ++ nl
            else result in
          let result :=
            if truthy due_str then result ++ lit "**Due:** " ++ show due_str ++ nl
            else result in
          let result := result ++ lit "**Status:** " ++ show status ++ nl in
          result ++ lit "**ID:** "
            ++ show (get_default task (lit "id") (JStr (lit "N/A"))) ++ nl
      | _ =>
          let result := lit "### " ++ status_emoji ++ lit " " ++ show title ++ nl in
          let result :=
            if truthy notes then result ++ lit "> " ++ show notes ++ nl
            else result in
          if truthy due_str
          then result ++ CALENDAR ++ lit " **Due:** " ++ show due_str ++ nl
          else result
      end
  end.

(** The CONCISE loop of [format_multiple_tasks]. *)
Fixpoint concise_lines (tasks : list (dict json)) (result : str) : str :=
  match tasks with
  | [] => result
  | task :: rest => concise_lines rest (result ++ format_task task CONCISE ++ nl)
  end.

(** The [enumerate(tasks, 1)] loop of [format_multiple_tasks]. *)
Fixpoint separated_blocks (format_type : ResponseFormat) (i : nat)
    (tasks : list (dict json)) (result : str) : str :=
  match tasks with
  | [] => result
  | task :: rest =>
      let result :=
        if (1 <? i)%nat then result ++ nl ++ lit "---" ++ nl ++ nl else result in
      separated_blocks format_type (S i) rest (result ++ format_task task format_type)
  end.

(** The text [format_multiple_tasks] builds before the length check. *)
Definition joined_rendering (tasks : list (dict json))
    (format_type : ResponseFormat) (title : str) : str :=
  let result := lit "# " ++ title ++ nl ++ nl in
  match format_type with
  | CONCISE => concise_lines tasks result
  | _ => separated_blocks format_type 1 tasks result
  end.

(** [result[:CHARACTER_LIMIT - 100] + marker] when [result] is too long. *)
Definition truncate (result : str) : str :=
  if (CHARACTER_LIMIT <? len result)%Z
  then firstn (Z.to_nat (CHARACTER_LIMIT - 100)) result ++ TRUNCATION_MARKER
  else result.

Definition format_multiple_tasks (tasks : list (dict json))
    (format_type : ResponseFormat) (title : str) : str :=
  match tasks with
  | [] => lit "No tasks found."
  | _ :: _ =>
      match format_type with
      | JSON => json_dumps (JList (map JDict tasks))
      | _ => truncate (joined_rendering tasks format_type title)
      end
  end.

End Render.

End Formatter.

(* ================================================================== *)
(** * The tools *)
(* ================================================================== *)

Module Tools.
Import Py Config Gateway Formatter.

(** The [updates] dict the [update_task] tool builds from its input. *)
Definition build_updates (input : UpdateTaskInput) : dict str :=
  let updates : dict str := [] in
  let updates :=
    match nonempty (ut_title input) with
    | Some t => dict_set updates (lit "title") t
    | None => updates
    end in
  let updates :=
    match ut_notes input with
    | Some n => dict_set updates (lit "notes") n
    | None => updates
    end in
  let updates :=
    match ut_status input with
    | Some st => dict_set updates (lit "status") (TaskStatus_value st)
    | None => updates
    end in
  match nonempty (ut_due_date input) with
  | Some d => dict_set updates (lit "due_date") d
  | None => updates
  end.

Definition OverflowError : exn :=
  mk_exn (lit "OverflowError") (lit "date value out of range").

(** [today + timedelta(days=n)] with its exception. *)
Definition plus_days (today : date) (n : Z) : exn + date :=
  match date_add_days today n with
  | Some d => inr d
  | None => inl OverflowError
  end.

(** The "# Bulk Task Creation Results" report of [bulk_create_tasks]. *)
Definition bulk_report (created_tasks failed_tasks : list str) : str :=
  let output := lit "# Bulk Task Creation Results" ++ nl ++ nl in
  let output :=
    output ++ CHECK_MARK ++ lit " **Successfully created:** "
    ++ str_of_Z (Z.of_nat (length created_tasks)) ++ lit " tasks" ++ nl in
  let output :=
    match created_tasks with
    | [] => output
    | _ :: _ =>
        let output := output ++ nl ++ lit "**Created tasks:**" ++ nl in
        let output :=
          fold_left (fun out task => out ++ lit "- " ++ task ++ nl)
            (firstn 10 created_tasks) output in
        if (10 <? length created_tasks)%nat
        then output ++ lit "... and "
             ++ str_of_Z (Z.of_nat (length created_tasks) - 10) ++ lit " more" ++ nl
        else output
    end in
  match failed_tasks with
  | [] => output
  | _ :: _ =>
      let output :=
        output ++ nl ++ CROSS_MARK ++ lit " **Failed:** "
        ++ str_of_Z (Z.of_nat (length failed_tasks)) ++ lit " tasks" ++ nl in
      fold_left (fun out failure => out ++ lit "- " ++ failure ++ nl)
        (firstn 5 failed_tasks) output
  end.

(** The date filters and the title [get_task_summary] picks. *)
Definition summary_filters (time_range : TimeRange) (today : date)
  : exn + (list_kwargs * str) :=
  match time_range with
  | Today =>
      inr ({| max_results := None; show_completed := None;
              show_deleted := None; show_hidden := None;
              due_min := Some (isoformat today);
              due_max := Some (isoformat today);
              completed_min := None; completed_max := None;
              updated_min := None; page_token := None |},
           lit "Today's Tasks")
  | Tomorrow =>
      match plus_days today 1 with
      | inl e => inl e
      | inr tomorrow =>
          inr ({| max_results := None; show_completed := None;
                  show_deleted := None; show_hidden := None;
                  due_min := Some (isoformat tomorrow);
                  due_max := Some (isoformat tomorrow);
                  completed_min := None; completed_max := None;
                  updated_min := None; page_token := None |},
               lit "Tomorrow's Tasks")
      end
  | Week =>
      match plus_days today 7 with
      | inl e => inl e
      | inr week_end =>
          inr ({| max_results := None; show_completed := None;
                  show_deleted := None; show_hidden := None;
                  due_min := Some (isoformat today);
                  due_max := Some (isoformat week_end);
                  completed_min := None; completed_max := None;
                  updated_min := None; page_token := None |},
               lit "This Week's Tasks")
      end
  | Overdue =>
      match plus_days today (-1) with
      | inl e => inl e
      | inr yesterday =>
          inr ({| max_results := None; show_completed := None;
                  show_deleted := None; show_hidden := None;
                  due_min := None;
                  due_max := Some (isoformat yesterday);
                  completed_min := None; completed_max := None;
                  updated_min := None; page_token := None |},
               lit "Overdue Tasks")
      end
  | All => inr (no_kwargs, lit "All Tasks")
  end.

(** [t.get('status') == 'completed'] *)
Definition is_completed (t : dict json) : bool :=
  match dict_get t (lit "status") with
  | Some v => eq_str v (lit "completed")
  | None => false
  end.

(** [[x.get for x in v]]: every item must be a dict. *)
Fixpoint all_dicts (l : list json) : exn + list (dict json) :=
  match l with
  | [] => inr []
  | v :: r =>
      match as_dict v with
      | inl e => inl e
      | inr d =>
          match all_dicts r with
          | inl e => inl e
          | inr ds => inr (d :: ds)
          end
      end
  end.

Section Platform.

(** The case tables of the Unicode database and the [repr] of
    containers: parts of the interpreter the tools are run by. *)
Variable ucd_lower : str -> str.
Variable container_repr : json -> str.

(** The remote service. *)
Variable St : Type.
Variable respond : St -> call -> St * (exn + dict json).

Notation "x <- m ;; k" := (bind m (fun x => k))
  (at level 61, m at next level, right associativity).

(** A tool body under its [try: ... except Exception as e: return ...]. *)
Definition tool (body : M St str) (on_error : exn -> str) : world St -> world St * str :=
  fun w =>
    match body w with
    | (w', inr out) => (w', out)
    | (w', inl e) => (w', on_error e)
    end.

(** ** update_task *)

Definition update_task (input : UpdateTaskInput) : world St -> world St * str :=
  tool
    (result <- Gateway.update_task respond (ut_task_id input)
                 (ut_tasklist_id input) (build_updates input) ;;
     let status_msg :=
       match ut_status input with
       | Some COMPLETED => CHECK_MARK ++ lit " completed"
       | _ => lit "updated"
       end in
     ret (lit "Task " ++ status_msg ++ lit " successfully!" ++ nl ++ nl
          ++ format_task container_repr result DETAILED))
    (fun e => lit "Error updating task: " ++ exn_str e
              ++ lit ". Please verify the task ID and try again.").

(** ** quick_add_task *)

(** The "# Check for common date indicators" block: the text and the due
    date it leaves. *)
Definition quick_add_parse (text : str) (today : date)
  : exn + (str * option str) :=
  let lowered := lower ucd_lower text in
  if contains (lit "tomorrow") lowered then
    match plus_days today 1 with
    | inl e => inl e
    | inr d =>
        inr (strip (replace (lit "tomorrow") [] lowered), Some (isoformat d))
    end
  else if contains (lit "today") lowered then
    inr (strip (replace (lit "today") [] lowered), Some (isoformat today))
  else if contains (lit "next week") lowered then
    match plus_days today 7 with
    | inl e => inl e
    | inr d =>
        inr (strip (replace (lit "next week") [] lowered), Some (isoformat d))
    end
  else inr (text, None).

(** [today] is [datetime.now().date()]. *)
Definition quick_add_task (input : QuickAddTaskInput) (today : date)
  : world St -> world St * str :=
  tool
    (parsed <- lift (quick_add_parse (qa_text input) today) ;;
     let '(text, due_date) := parsed in
     result <- create_task respond (strip text) (qa_tasklist_id input)
                 None due_date None None ;;
     ret (CHECK_MARK ++ lit " Task added via quick add!" ++ nl ++ nl
          ++ format_task container_repr result DETAILED))
    (fun e => lit "Error in quick add: " ++ exn_str e).

(** ** bulk_create_tasks *)

(** The creation loop: [created_tasks] and [failed_tasks] after it. *)
Fixpoint create_each (input : BulkCreateTasksInput) (titles : list str)
    (created_tasks failed_tasks : list str) : M St (list str * list str) :=
  match titles with
  | [] => ret (created_tasks, failed_tasks)
  | task_title :: rest =>
      lists <-
        try_except
          (_ <- create_task respond task_title (bc_tasklist_id input)
                  None (bc_due_date input) None None ;;
           ret (created_tasks ++ [task_title], failed_tasks))
          (fun e =>
             ret (created_tasks,
                  failed_tasks ++ [task_title ++ lit ": " ++ exn_str e])) ;;
      create_each input rest (fst lists) (snd lists)
  end.

Definition bulk_create_tasks (input : BulkCreateTasksInput)
  : world St -> world St * str :=
  tool
    (lists <- create_each input (bc_tasks input) [] [] ;;
     ret (bulk_report (fst lists) (snd lists)))
    (fun e => lit "Error in bulk creation: " ++ exn_str e).

(** ** search_tasks *)

(** [query_lower in title or query_lower in notes] for one task. *)
Definition task_matches (query_lower : str) (task : dict json) : exn + bool :=
  match as_str (get_default task (lit "title") (JStr [])) with
  | inl e => inl e
  | inr title =>
      match as_str (get_default task (lit "notes") (JStr [])) with
      | inl e => inl e
      | inr notes =>
          inr (contains query_lower (lower ucd_lower title)
               || contains query_lower (lower ucd_lower notes))
      end
  end.

(** The inner [for task in tasks] loop.  [matching_tasks] outlives an
    exception, so it is returned beside the outcome. *)
Fixpoint scan_tasks (input : SearchTasksInput) (query_lower : str)
    (task_list : json) (tasks : list json) (matching_tasks : list (dict json))
  : list (dict json) * option exn :=
  match tasks with
  | [] => (matching_tasks, None)
  | t :: rest =>
      match as_dict t with
      | inl e => (matching_tasks, Some e)
      | inr task =>
          match task_matches query_lower task with
          | inl e => (matching_tasks, Some e)
          | inr false => scan_tasks input query_lower task_list rest matching_tasks
          | inr true =>
              match getitem task_list (lit "title") with
              | inl e => (matching_tasks, Some e)
              | inr list_title =>
                  let task := dict_set task (lit "_list_title") list_title in
                  let matching_tasks := matching_tasks ++ [task] in
                  if (st_max_results input <=? Z.of_nat (length matching_tasks))%Z
                  then (matching_tasks, None)
                  else scan_tasks input query_lower task_list rest matching_tasks
              end
          end
      end
  end.

Definition search_kwargs (input : SearchTasksInput) : list_kwargs :=
  {| max_results := Some 100%Z;
     show_completed := Some (st_include_completed input);
     show_deleted := None; show_hidden := None;
     due_min := None; due_max := None;
     completed_min := None; completed_max := None;
     updated_min := None; page_token := None |}.

(** The body of the [try] inside [for task_list in task_lists]. *)
Definition search_one_list (input : SearchTasksInput) (query_lower : str)
    (task_list : json) (matching_tasks : list (dict json))
  : M St (list (dict json) * option exn) :=
  id <- lift (getitem task_list (lit "id")) ;;
  tasks_result <- list_tasks respond id (search_kwargs input) ;;
  tasks <- lift (py_iter (get_default tasks_result (lit "items") (JList []))) ;;
  ret (scan_tasks input query_lower task_list tasks matching_tasks).

(** [logger.warning(f"Error searching in list {task_list['id']}: {e}")]:
    the message reads [task_list['id']] once more, and where that raises,
    the exception is raised inside the handler. *)
Definition warning (task_list : json) (e : exn) : M St unit :=
  _ <- lift (getitem task_list (lit "id")) ;;
  ret tt.

(** The outer [for task_list in task_lists] loop.  An exception of the
    [try] block, whether raised by the request or inside the inner loop,
    reaches the [except] clause, which logs the warning and goes on to
    the next list; an exception raised by the warning itself leaves the
    loop. *)
Fixpoint search_lists (input : SearchTasksInput) (query_lower : str)
    (task_lists : list json) (matching_tasks : list (dict json))
  : M St (list (dict json)) :=
  match task_lists with
  | [] => ret matching_tasks
  | task_list :: rest =>
      r <- try_except
             (search_one_list input query_lower task_list matching_tasks)
             (fun e => ret (matching_tasks, Some e)) ;;
      match r with
      | (matching_tasks, Some e) =>
          _ <- warning task_list e ;;
          search_lists input query_lower rest matching_tasks
      | (matching_tasks, None) =>
          if (st_max_results input <=? Z.of_nat (length matching_tasks))%Z
          then ret matching_tasks
          else search_lists input query_lower rest matching_tasks
      end
  end.

(** The "# Format results" loop for the formats other than JSON. *)
Definition render_match (format_type : ResponseFormat) (output : str)
    (task : dict json) : str :=
  let list_title :=
    get_default task (lit "_list_title") (JStr (lit "Unknown List")) in
  let task := dict_pop task (lit "_list_title") in
  output ++ lit "**List:** " ++ py_str container_repr list_title ++ nl
  ++ format_task container_repr task format_type
  ++ nl ++ lit "---" ++ nl ++ nl.

Definition search_output (input : SearchTasksInput)
    (matching_tasks : list (dict json)) : str :=
  match matching_tasks with
  | [] => lit "No tasks found matching '" ++ st_query input ++ lit "'."
  | _ :: _ =>
      match st_response_format input with
      | JSON => json_dumps (JList (map JDict matching_tasks))
      | _ =>
          let output :=
            lit "# Search Results for '" ++ st_query input ++ lit "'" ++ nl ++ nl in
          let output :=
            output ++ lit "Found "
            ++ str_of_Z (Z.of_nat (length matching_tasks))
            ++ lit " matching task(s)" ++ nl ++ nl in
          fold_left (render_match (st_response_format input)) matching_tasks output
      end
  end.

(** [matching_tasks] as the two loops leave it. *)
Definition search_matches (input : SearchTasksInput) : M St (list (dict json)) :=
  lists_result <- list_tasklists respond 50%Z None ;;
  task_lists <- lift (py_iter (get_default lists_result (lit "items") (JList []))) ;;
  search_lists input (lower ucd_lower (st_query input)) task_lists [].

Definition search_tasks (input : SearchTasksInput) : world St -> world St * str :=
  tool
    (matching_tasks <- search_matches input ;;
     ret (search_output input matching_tasks))
    (fun e => lit "Error searching tasks: " ++ exn_str e).

(** ** get_task_summary *)

Definition summary_kwargs (input : GetTaskSummaryInput) (filters : list_kwargs)
  : list_kwargs :=
  {| max_results := Some 50%Z;
     show_completed := Some (ts_include_completed input);
     show_deleted := None; show_hidden := None;
     due_min := due_min filters; due_max := due_max filters;
     completed_min := None; completed_max := None;
     updated_min := None; page_token := None |}.

(** [[t for t in tasks if t.get('status') != 'completed']] and
    [[t for t in tasks if t.get('status') == 'completed']] *)
Definition pending_of (tasks : list (dict json)) : list (dict json) :=
  filter (fun t => negb (is_completed t)) tasks.

Definition completed_of (tasks : list (dict json)) : list (dict json) :=
  filter is_completed tasks.

(** The "# Format output" part of [get_task_summary]. *)
Definition summary_output (input : GetTaskSummaryInput) (title : str)
    (result : dict json) (tasks : list (dict json)) : str :=
  let pending_tasks := pending_of tasks in
  let completed_tasks := completed_of tasks in
  let line out task :=
    out ++ format_task container_repr task (ts_response_format input) ++ nl in
  let output := lit "# " ++ title ++ nl ++ nl in
  let output :=
    output ++ lit "**Summary:** "
    ++ str_of_Z (Z.of_nat (length pending_tasks)) ++ lit " pending" in
  let output :=
    if ts_include_completed input
    then output ++ lit ", " ++ str_of_Z (Z.of_nat (length completed_tasks))
         ++ lit " completed"
    else output in
  let output := output ++ nl ++ nl in
  let output :=
    match pending_tasks with
    | [] => output
    | _ :: _ =>
        fold_left line (firstn 20 pending_tasks)
          (output ++ lit "## " ++ HOURGLASS ++ lit " Pending Tasks" ++ nl ++ nl)
    end in
  let output :=
    if ts_include_completed input then
      match completed_tasks with
      | [] => output
      | _ :: _ =>
          fold_left line (firstn 10 completed_tasks)
            (output ++ nl ++ lit "## " ++ CHECK_MARK ++ lit " Completed Tasks"
             ++ nl ++ nl)
      end
    else output in
  if truthy (get_default result (lit "nextPageToken") JNull)
  then output ++ nl
       ++ lit "**Note:** More tasks available. This is a summary of the first "
       ++ str_of_Z (Z.of_nat (length tasks)) ++ lit " tasks."
  else output.

(** [today] is [datetime.now().date()]. *)
Definition get_task_summary (input : GetTaskSummaryInput) (today : date)
  : world St -> world St * str :=
  tool
    (ft <- lift (summary_filters (ts_time_range input) today) ;;
     let '(filters, title) := ft in
     result <- list_tasks respond (JStr (lit "@default"))
                 (summary_kwargs input filters) ;;
     let tasks := get_default result (lit "items") (JList []) in
     if negb (truthy tasks)
     then ret (lit "No tasks found for " ++ lower ucd_lower title ++ lit ".")
     else
       items <- lift (py_iter tasks) ;;
       tasks <- lift (all_dicts items) ;;
       ret (summary_output input title result tasks))
    (fun e => lit "Error getting task summary: " ++ exn_str e).

End Platform.

End Tools.

(* ================================================================== *)
(** * Notions the specification speaks in *)
(* ================================================================== *)

Module Spec.
Import Py Config Gateway Formatter Tools.

(** The ten digits, and the check that a run of digits is printed back
    as it was read. *)
Definition digit_chars : list N := [48; 49; 50; 51; 52; 53; 54; 55; 56; 57]%N.

Definition roundtrip_ok (w : nat) (s : str) : bool :=
  match parse_int s with
  | Some y => str_eqb (zero_pad w y) s
  | None => false
  end.

(** The start of the day in UTC, as appended to a due date. *)
Definition DUE_SUFFIX : str := lit "T00:00:00.000Z".

(** The record the [update_task] tool writes for a fetched record. *)
Definition written (task : dict json) (input : UpdateTaskInput) : dict json :=
  apply_updates task (build_updates input).

(** A string of the form YYYY-MM-DD that names a day of the calendar. *)
Definition is_date_string (s : str) : bool :=
  match parse_isoformat_date s with
  | Some (y, m, d) => check_date_fields y m d
  | None => false
  end.

(** A date string whose year is 1000 or later. *)
Definition from_year_1000 (s : str) : bool :=
  match parse_isoformat_date s with
  | Some (y, _, _) => (1000 <=? y)%Z
  | None => false
  end.

(** A list record from which [task_list['id']] can be read. *)
Definition has_id (task_list : json) : bool :=
  match getitem task_list (lit "id") with
  | inr _ => true
  | inl _ => false
  end.

(** [p] holds of [count] successive integers from [z] on. *)
Fixpoint all_from (p : Z -> bool) (count : nat) (z : Z) : bool :=
  match count with
  | O => true
  | S k => p z && all_from p k (z + 1)%Z
  end.

(** The fields of the task record an update request speaks of. *)
Definition is_some {A} (o : option A) : bool :=
  match o with Some _ => true | None => false end.

Definition mentions (input : UpdateTaskInput) (k : str) : bool :=
  str_eqb (lit "title") k && is_some (ut_title input)
  || str_eqb (lit "notes") k && is_some (ut_notes input)
  || str_eqb (lit "status") k && is_some (ut_status input)
  || str_eqb (lit "due") k && is_some (ut_due_date input).

(** A string that does not start with whitespace. *)
Definition no_leading_space (s : str) : Prop :=
  match s with
  | [] => True
  | c :: _ => is_space c = false
  end.

(** *** bulk_create_tasks *)

Section Outcomes.

Variable St : Type.
Variable respond : St -> call -> St * (exn + dict json).

(** The request that creates one title of a batch. *)
Definition insert_request (input : BulkCreateTasksInput) (title : str) : call :=
  TasksInsert (bc_tasklist_id input)
    (create_body title None (bc_due_date input)) None None.

(** Each title of a batch with the exception its creation raised, if
    any, the service being asked title after title. *)
Fixpoint outcomes (input : BulkCreateTasksInput) (st : St)
    (titles : list str) : list (str * option exn) :=
  match titles with
  | [] => []
  | t :: rest =>
      let '(st', r) := respond st (insert_request input t) in
      (t, match r with inl e => Some e | inr _ => None end)
        :: outcomes input st' rest
  end.

End Outcomes.

Definition succeeded (os : list (str * option exn)) : list str :=
  flat_map (fun o => match snd o with
                     | None => [fst o]
                     | Some _ => []
                     end) os.

Definition failures (os : list (str * option exn)) : list str :=
  flat_map (fun o => match snd o with
                     | None => []
                     | Some e => [fst o ++ lit ": " ++ exn_str e]
                     end) os.

(** The parts of the bulk report. *)
Definition bullet (s : str) : str := lit "- " ++ s ++ nl.

Definition created_section (created : list str) : str :=
  match created with
  | [] => []
  | _ :: _ =>
      nl ++ lit "**Created tasks:**" ++ nl
      ++ concat (map bullet (firstn 10 created))
      ++ (if (10 <? length created)%nat
          then lit "... and " ++ str_of_Z (Z.of_nat (length created) - 10)
               ++ lit " more" ++ nl
          else [])
  end.

Definition failed_section (failed : list str) : str :=
  match failed with
  | [] => []
  | _ :: _ =>
      nl ++ CROSS_MARK ++ lit " **Failed:** "
      ++ str_of_Z (Z.of_nat (length failed)) ++ lit " tasks" ++ nl
      ++ concat (map bullet (firstn 5 failed))
  end.

(** *** search_tasks *)

(** The text held under a key, empty when the key is absent. *)
Definition text_field (task : dict json) (k : str) : str :=
  match dict_get task k with
  | Some (JStr s) => s
  | _ => []
  end.

(** The record of a match: the task with the title of its list. *)
Definition annotate (list_title : json) (task : dict json) : dict json :=
  dict_set task (lit "_list_title") list_title.

Definition dicts_of (l : list json) : list (dict json) :=
  flat_map (fun v => match v with JDict d => [d] | _ => [] end) l.

Definition items_of (result : dict json) : list json :=
  match get_default result (lit "items") (JList []) with
  | JList l => l
  | _ => []
  end.

(** The request for the tasks of one list: at most 100 of them,
    completed ones only when the search asks for them. *)
Definition tasks_request (input : SearchTasksInput) (id : json) : call :=
  TasksList
    {| lp_tasklist := id;
       lp_maxResults := 100;
       lp_showCompleted := st_include_completed input;
       lp_showDeleted := false;
       lp_showHidden := false;
       lp_dueMin := None; lp_dueMax := None;
       lp_completedMin := None; lp_completedMax := None;
       lp_updatedMin := None; lp_pageToken := None |}.

(** The shape the Tasks API gives a task and a page of tasks: an object
    whose title and notes, when present, are strings; a list of such
    objects under [items]. *)
Definition str_or_absent (d : dict json) (k : str) : bool :=
  match dict_get d k with
  | Some (JStr _) | None => true
  | Some _ => false
  end.

Definition wf_task (v : json) : bool :=
  match v with
  | JDict d => str_or_absent d (lit "title") && str_or_absent d (lit "notes")
  | _ => false
  end.

Definition wf_tasks_result (result : dict json) : bool :=
  match get_default result (lit "items") (JList []) with
  | JList l => forallb wf_task l
  | _ => false
  end.

(** The number of matches a search may return. *)
Definition limit (input : SearchTasksInput) : nat :=
  Z.to_nat (st_max_results input).

Section SearchSpec.

Variable ucd_lower : str -> str.
Variable St : Type.
Variable respond : St -> call -> St * (exn + dict json).

(** [query] is a substring of [s], case ignored. *)
Definition ci_substring (query s : str) : bool :=
  contains (lower ucd_lower query) (lower ucd_lower s).

(** The title or the notes of [task] contains [query], case ignored. *)
Definition matches (query : str) (task : dict json) : bool :=
  ci_substring query (text_field task (lit "title"))
  || ci_substring query (text_field task (lit "notes")).

(** The matches of one list, given the answer to the request for its
    tasks: none when the request failed. *)
Definition list_matches (input : SearchTasksInput) (task_list : json)
    (answer : exn + dict json) : list (dict json) :=
  match answer, getitem task_list (lit "title") with
  | inr result, inr title =>
      map (annotate title)
        (filter (matches (st_query input)) (dicts_of (items_of result)))
  | _, _ => []
  end.

(** The matches of all lists, in list order then task order, the
    service being asked list after list. *)
Fixpoint all_matches (input : SearchTasksInput) (st : St)
    (task_lists : list json) : list (dict json) :=
  match task_lists with
  | [] => []
  | task_list :: rest =>
      match getitem task_list (lit "id") with
      | inl _ => all_matches input st rest
      | inr id =>
          let '(st', answer) := respond st (tasks_request input id) in
          list_matches input task_list answer ++ all_matches input st' rest
      end
  end.

End SearchSpec.

(** The requests for tasks a search sends. *)
Definition is_tasks_request (input : SearchTasksInput) (c : call) : Prop :=
  exists id, c = tasks_request input id.

(** *** get_task_summary *)

(** The bounds on the due date a time range stands for, given the
    current date and the days around it. *)
Definition due_range (time_range : TimeRange)
    (today tomorrow week_end yesterday : date) : option date * option date :=
  match time_range with
  | Today => (Some today, Some today)
  | Tomorrow => (Some tomorrow, Some tomorrow)
  | Week => (Some today, Some week_end)
  | Overdue => (None, Some yesterday)
  | All => (None, None)
  end.

Definition summary_title (time_range : TimeRange) : str :=
  match time_range with
  | Today => lit "Today's Tasks"
  | Tomorrow => lit "Tomorrow's Tasks"
  | Week => lit "This Week's Tasks"
  | Overdue => lit "Overdue Tasks"
  | All => lit "All Tasks"
  end.

(** The request for the tasks of the default list due within a range. *)
Definition summary_request (input : GetTaskSummaryInput)
    (range : option date * option date) : call :=
  TasksList
    {| lp_tasklist := JStr (lit "@default");
       lp_maxResults := 50;
       lp_showCompleted := ts_include_completed input;
       lp_showDeleted := false;
       lp_showHidden := false;
       lp_dueMin :=
         option_map (fun d => isoformat d ++ lit "T00:00:00.000Z") (fst range);
       lp_dueMax :=
         option_map (fun d => isoformat d ++ lit "T23:59:59.999Z") (snd range);
       lp_completedMin := None; lp_completedMax := None;
       lp_updatedMin := None; lp_pageToken := None |}.

(** The items a summary shows. *)
Definition shown_pending (tasks : list (dict json)) : list (dict json) :=
  firstn 20 (pending_of tasks).

Definition shown_completed (input : GetTaskSummaryInput)
    (tasks : list (dict json)) : list (dict json) :=
  if ts_include_completed input then firstn 10 (completed_of tasks) else [].

Section SummarySpec.

Variable container_repr : json -> str.

(** The text of a summary, part by part. *)
Definition summary_text (input : GetTaskSummaryInput) (title : str)
    (result : dict json) (tasks : list (dict json)) : str :=
  let line task :=
    format_task container_repr task (ts_response_format input) ++ nl in
  lit "# " ++ title ++ nl ++ nl
  ++ lit "**Summary:** "
  ++ str_of_Z (Z.of_nat (length (pending_of tasks))) ++ lit " pending"
  ++ (if ts_include_completed input
      then lit ", " ++ str_of_Z (Z.of_nat (length (completed_of tasks)))
           ++ lit " completed"
      else [])
  ++ nl ++ nl
  ++ match shown_pending tasks with
     | [] => []
     | _ :: _ =>
         lit "## " ++ HOURGLASS ++ lit " Pending Tasks" ++ nl ++ nl
         ++ concat (map line (shown_pending tasks))
     end
  ++ match shown_completed input tasks with
     | [] => []
     | _ :: _ =>
         nl ++ lit "## " ++ CHECK_MARK ++ lit " Completed Tasks" ++ nl ++ nl
         ++ concat (map line (shown_completed input tasks))
     end
  ++ (if truthy (get_default result (lit "nextPageToken") JNull)
      then nl
           ++ lit "**Note:** More tasks available. This is a summary of the first "
           ++ str_of_Z (Z.of_nat (length tasks)) ++ lit " tasks."
      else []).

End SummarySpec.

(** Events of [get_credentials] that reach the authorization server,
    that try a refresh, that write the token file. *)
Definition contacts_server (ev : Auth.event) : bool :=
  match ev with
  | Auth.Refresh _ | Auth.RunFlow => true
  | _ => false
  end.

Definition is_refresh (ev : Auth.event) : bool :=
  match ev with
  | Auth.Refresh _ => true
  | _ => false
  end.

Definition writes_token (ev : Auth.event) : bool :=
  match ev with
  | Auth.WriteToken _ => true
  | _ => false
  end.

(** The same surroundings with no persisted credential. *)
Definition without_token (e : Auth.Env) : Auth.Env :=
  {| Auth.token_file := None;
     Auth.refresh := Auth.refresh e;
     Auth.CREDENTIALS_PATH := Auth.CREDENTIALS_PATH e;
     Auth.client_secrets_exist := Auth.client_secrets_exist e;
     Auth.run_local_server := Auth.run_local_server e;
     Auth.write_token := Auth.write_token e |}.

End Spec.

(* ================================================================== *)
(** * Sample data and a sample service *)
(* ================================================================== *)

Module Demo.
Import Py Config Gateway Formatter Tools.

(** Four tasks, each with notes of 8000 characters. *)
Definition long_notes_task : dict json :=
  [(lit "title", JStr (lit "Plan"));
   (lit "notes", JStr (repeat 97%N (Z.to_nat 8000)))].

Definition long_tasks : list (dict json) := repeat long_notes_task 4.

(** Credentials: one still valid, one expired with a refresh token,
    and its refreshed successor. *)
Definition fresh_creds : Auth.Credentials :=
  {| Auth.token := Some (lit "ya29.a"); Auth.refresh_token := Some (lit "1//r");
     Auth.expired := false |}.

Definition stale_creds : Auth.Credentials :=
  {| Auth.token := Some (lit "ya29.old"); Auth.refresh_token := Some (lit "1//r");
     Auth.expired := true |}.

Definition renewed_creds : Auth.Credentials :=
  {| Auth.token := Some (lit "ya29.new"); Auth.refresh_token := Some (lit "1//r");
     Auth.expired := false |}.

Definition refused : exn := mk_exn (lit "RefreshError") (lit "invalid_grant").

(** Surroundings in which the token file holds [c] and a refresh gives
    [outcome]; no client-secret file is present. *)
Definition env_with (c : Auth.Credentials) (outcome : exn + Auth.Credentials)
  : Auth.Env :=
  {| Auth.token_file := Some (inr c);
     Auth.refresh := fun _ => outcome;
     Auth.CREDENTIALS_PATH := lit "/home/ada/.google_tasks_mcp/credentials.json";
     Auth.client_secrets_exist := false;
     Auth.run_local_server := inl refused;
     Auth.write_token := fun _ => None |}.

(** A small account: the lists Home and Work, and a third list whose
    tasks cannot be fetched; the list "missing" does not exist and the
    title "bad" is refused.  The state counts the requests served. *)
Definition task_record (id title notes status due : str) : json :=
  JDict [(lit "id", JStr id); (lit "title", JStr title);
         (lit "notes", JStr notes); (lit "status", JStr status);
         (lit "due", JStr due)].

Definition list_record (id title : str) : json :=
  JDict [(lit "id", JStr id); (lit "title", JStr title)].

Definition account_lists : list json :=
  [list_record (lit "A") (lit "Home");
   list_record (lit "C") (lit "Archive");
   list_record (lit "B") (lit "Work")].

Definition home_tasks : list json :=
  [task_record (lit "h1") (lit "Pay rent") [] (lit "needsAction")
     (lit "2024-03-01T00:00:00.000Z")].

Definition work_tasks : list json :=
  [task_record (lit "w1") (lit "Quarterly report") (lit "Send to Milkman Ltd")
     (lit "needsAction") (lit "2024-02-29T00:00:00.000Z");
   task_record (lit "w2") (lit "Book room") [] (lit "completed") []].

Definition stored_task : dict json :=
  [(lit "id", JStr (lit "w1")); (lit "etag", JStr (lit "LTE1"));
   (lit "title", JStr (lit "Quarterly report"));
   (lit "notes", JStr (lit "Send to Milkman Ltd"));
   (lit "status", JStr (lit "needsAction"));
   (lit "due", JStr (lit "2024-02-29T00:00:00.000Z"));
   (lit "links", JList [])].

Definition unavailable : exn :=
  mk_exn (lit "HttpError") (lit "503 backend error").

Definition not_found : exn :=
  mk_exn (lit "HttpError") (lit "404 list not found").

Definition respond (st : nat) (c : call) : nat * (exn + dict json) :=
  (S st,
   match c with
   | TasklistsList _ _ =>
       inr [(lit "items", JList account_lists)]
   | TasksList p =>
       if eq_str (lp_tasklist p) (lit "A")
       then inr [(lit "items", JList home_tasks)]
       else if eq_str (lp_tasklist p) (lit "B")
            then inr [(lit "items", JList work_tasks)]
            else if eq_str (lp_tasklist p) (lit "@default")
                 then inr [(lit "items", JList (home_tasks ++ work_tasks))]
                 else inl unavailable
   | TasksInsert tasklist body _ _ =>
       if str_eqb tasklist (lit "missing") then inl not_found
       else if eq_str (get_default body (lit "title") JNull) (lit "bad")
            then inl unavailable
            else inr (dict_set body (lit "id") (JStr (lit "n1")))
   | TasksGet _ _ => inr stored_task
   | TasksUpdate _ _ body => inr body
   end).

Definition start : world nat := (O, []).

Definition feb_28 : date := mk_date 2024 2 28.

Definition quick (text : str) : QuickAddTaskInput :=
  {| qa_text := text; qa_tasklist_id := lit "@default" |}.

(** Batches: one title of three fails; six titles sent to a list that
    does not exist; eleven titles that all succeed. *)
Definition batch (tasklist : str) (titles : list str) : BulkCreateTasksInput :=
  {| bc_tasks := titles; bc_tasklist_id := tasklist; bc_due_date := None |}.

Definition one_of_three_fails : BulkCreateTasksInput :=
  batch (lit "@default") [lit "a"; lit "bad"; lit "c"].

Definition six_fail : BulkCreateTasksInput :=
  batch (lit "missing") [lit "a"; lit "b"; lit "c"; lit "d"; lit "e"; lit "f"].

Definition eleven_succeed : BulkCreateTasksInput :=
  batch (lit "@default") (repeat (lit "ok") 11).

Definition search_for (query : str) (format_type : ResponseFormat)
  : SearchTasksInput :=
  {| st_query := query; st_include_completed := false;
     st_max_results := 20; st_response_format := format_type |}.

Definition week_summary : GetTaskSummaryInput :=
  {| ts_time_range := Week; ts_include_completed := true;
     ts_response_format := CONCISE |}.

Definition first_match (query : str) : SearchTasksInput :=
  {| st_query := query; st_include_completed := false;
     st_max_results := 1; st_response_format := CONCISE |}.

(** An update that renames nothing, sends empty notes, completes the
    task and clears its due date. *)
Definition complete_and_clear : UpdateTaskInput :=
  {| ut_task_id := lit "w1"; ut_tasklist_id := lit "B";
     ut_title := None; ut_notes := Some [];
     ut_status := Some COMPLETED; ut_due_date := Some (lit "clear") |}.

End Demo.

(* ================================================================== *)
(** * The rest of the module: start-up, task lists, the plain tools *)
(* ================================================================== *)

Module Startup.
Import Py Auth.

Definition no_credentials : exn :=
  mk_exn (lit "Exception") (lit "Failed to obtain credentials").

(** [GoogleTasksClient._initialize].  [build] is the outcome of
    [build('tasks', 'v1', credentials=creds)], [None] for success; the
    client is known by the credential it was built with.  A credential
    object is always truthy, so [if creds] tests for [None]. *)
Definition initialize (e : Env) (build : Credentials -> option exn)
  : list event * (exn + Credentials) :=
  match get_credentials e with
  | (trace, inl x) => (trace, inl x)
  | (trace, inr (Some creds)) =>
      match build creds with
      | None => (trace, inr creds)
      | Some x => (trace, inl x)
      end
  | (trace, inr None) => (trace, inl no_credentials)
  end.

(** How running the module as a script ends: the exception that leaves
    the module-level [tasks_client = GoogleTasksClient()], the exit with
    the set-up guidance, or the server running. *)
Inductive outcome : Type :=
| Crashed (x : exn)
| SetupRequired (exit_code : Z)
| Serving (creds : Credentials).

(** The module body, then the [if __name__ == "__main__"] block. *)
Definition main (e : Env) (build : Credentials -> option exn)
  : list event * outcome :=
  match initialize e build with
  | (trace, inl x) => (trace, Crashed x)
  | (trace, inr creds) =>
      if negb (client_secrets_exist e) then (trace, SetupRequired 1)
      else (trace, Serving creds)
  end.

End Startup.

Module Plain.
Import Py Config Gateway Formatter Tools.

Definition CLIPBOARD : str := [128203%N].

Record CreateTaskInput : Type := {
  ct_title : str;
  ct_notes : option str;
  ct_due_date : option str;
  ct_tasklist_id : str;
  ct_parent_task_id : option str
}.

Record ListTaskListsInput : Type := {
  ll_max_results : Z;
  ll_page_token : option str;
  ll_response_format : ResponseFormat
}.

Record ListTasksInput : Type := {
  lt_tasklist_id : str;
  lt_max_results : Z;
  lt_show_completed : bool;
  lt_show_deleted : bool;
  lt_show_hidden : bool;
  lt_due_min : option str;
  lt_due_max : option str;
  lt_completed_min : option str;
  lt_completed_max : option str;
  lt_updated_min : option str;
  lt_page_token : option str;
  lt_response_format : ResponseFormat
}.

Definition ValueError (msg : str) : exn := mk_exn (lit "ValueError") msg.

(** [CreateTaskInput.validate_due_date] *)
Definition validate_due_date (v : option str) : exn + option str :=
  match v with
  | Some (c :: r) =>
      match fromisoformat (c :: r) with
      | Some _ => inr v
      | None =>
          inl (ValueError (lit "Due date must be in ISO format (YYYY-MM-DD)"))
      end
  | _ => inr v
  end.

(** The [Field] constraints and the validator of [CreateTaskInput]. *)
Definition valid_CreateTaskInput (i : CreateTaskInput) : bool :=
  (1 <=? len (ct_title i))%Z && (len (ct_title i) <=? 500)%Z
  && opt_all (fun n => (len n <=? 8192)%Z) (ct_notes i)
  && match validate_due_date (ct_due_date i) with
     | inr _ => true
     | inl _ => false
     end.

(** The keyword arguments the [list_tasks] tool passes on. *)
Definition list_tasks_kwargs (input : ListTasksInput) : list_kwargs :=
  {| max_results := Some (lt_max_results input);
     show_completed := Some (lt_show_completed input);
     show_deleted := Some (lt_show_deleted input);
     show_hidden := Some (lt_show_hidden input);
     due_min := lt_due_min input;
     due_max := lt_due_max input;
     completed_min := lt_completed_min input;
     completed_max := lt_completed_max input;
     updated_min := lt_updated_min input;
     page_token := lt_page_token input |}.

(** [if result.get('nextPageToken')]: the token to show, if any. *)
Definition next_page_token (result : dict json) : option json :=
  match dict_get result (lit "nextPageToken") with
  | Some tok => if truthy tok then Some tok else None
  | None => None
  end.

Section Render.

Variable container_repr : json -> str.

(** [ResponseFormatter.format_task_list] *)
Definition format_task_list (tasklist : dict json)
    (format_type : ResponseFormat) : str :=
  match format_type with
  | JSON => json_dumps (JDict tasklist)
  | _ =>
      let title := get_default tasklist (lit "title") (JStr (lit "Untitled")) in
      let list_id := get_default tasklist (lit "id") (JStr (lit "N/A")) in
      match format_type with
      | CONCISE => CLIPBOARD ++ lit " " ++ py_str container_repr title
      | _ =>
          let result :=
            lit "## " ++ CLIPBOARD ++ lit " " ++ py_str container_repr title
            ++ nl in
          match format_type with
          | DETAILED =>
              let result :=
                result ++ lit "**ID:** " ++ py_str container_repr list_id ++ nl in
              let updated := get_default tasklist (lit "updated") (JStr []) in
              if truthy updated
              then result ++ lit "**Updated:** "
                   ++ py_str container_repr updated ++ nl
              else result
          | _ => result
          end
      end
  end.

(** [ResponseFormatter.format_multiple_tasks] called on a decoded value:
    the json format dumps it as it is, the other formats go through its
    items, each of which must be a dict. *)
Definition format_multiple_tasks_of (tasks : json)
    (format_type : ResponseFormat) (title : str) : exn + str :=
  if negb (truthy tasks) then inr (lit "No tasks found.")
  else
    match format_type with
    | JSON => inr (json_dumps tasks)
    | _ =>
        match py_iter tasks with
        | inl e => inl e
        | inr items =>
            match all_dicts items with
            | inl e => inl e
            | inr ds => inr (format_multiple_tasks container_repr ds format_type title)
            end
        end
    end.

(** The note that ends a page of tasks. *)
Definition more_tasks_note (tok : json) : str :=
  nl ++ nl ++ lit "**More results available.** Use page_token: `"
  ++ py_str container_repr tok ++ lit "` to get the next page.".

(** The note that ends a page of task lists. *)
Definition more_lists_note (tok : json) : str :=
  nl ++ lit "**More results available.** Use page_token: `"
  ++ py_str container_repr tok ++ lit "` to get the next page.".

(** The loop of [list_task_lists] over the items of the page. *)
Fixpoint list_lines (format_type : ResponseFormat) (lists : list json)
    (output : str) : exn + str :=
  match lists with
  | [] => inr output
  | task_list :: rest =>
      match as_dict task_list with
      | inl e => inl e
      | inr d =>
          list_lines format_type rest
            (output ++ format_task_list d format_type ++ nl)
      end
  end.

Variable St : Type.
Variable respond : St -> call -> St * (exn + dict json).

Notation "x <- m ;; k" := (bind m (fun x => k))
  (at level 61, m at next level, right associativity).

(** The [create_task] tool. *)
Definition create_task (input : CreateTaskInput) : world St -> world St * str :=
  tool
    (result <- Gateway.create_task respond (ct_title input)
                 (ct_tasklist_id input) (ct_notes input) (ct_due_date input)
                 (ct_parent_task_id input) None ;;
     ret (CHECK_MARK ++ lit " Task created successfully!" ++ nl ++ nl
          ++ format_task container_repr result DETAILED))
    (fun e => lit "Error creating task: " ++ exn_str e
              ++ lit ". Please check your input and try again.").

(** The [list_tasks] tool. *)
Definition list_tasks (input : ListTasksInput) : world St -> world St * str :=
  tool
    (result <- Gateway.list_tasks respond (JStr (lt_tasklist_id input))
                 (list_tasks_kwargs input) ;;
     let tasks := get_default result (lit "items") (JList []) in
     if negb (truthy tasks)
     then ret (lit "No tasks found matching your criteria.")
     else
       let title :=
         lit "Tasks from list '" ++ lt_tasklist_id input ++ lit "'" in
       output <- lift (format_multiple_tasks_of tasks
                         (lt_response_format input) title) ;;
       match next_page_token result with
       | Some tok => ret (output ++ more_tasks_note tok)
       | None => ret output
       end)
    (fun e => lit "Error listing tasks: " ++ exn_str e
              ++ lit ". Please check your filters and try again.").

(** The [list_task_lists] tool. *)
Definition list_task_lists (input : ListTaskListsInput)
  : world St -> world St * str :=
  tool
    (result <- list_tasklists respond (ll_max_results input)
                 (ll_page_token input) ;;
     let lists := get_default result (lit "items") (JList []) in
     if negb (truthy lists) then ret (lit "No task lists found.")
     else
       match ll_response_format input with
       | JSON => ret (json_dumps (JDict result))
       | _ =>
           items <- lift (py_iter lists) ;;
           output <- lift (list_lines (ll_response_format input) items
                             (lit "# Task Lists" ++ nl ++ nl)) ;;
           match next_page_token result with
           | Some tok => ret (output ++ more_lists_note tok)
           | None => ret output
           end
       end)
    (fun e => lit "Error listing task lists: " ++ exn_str e
              ++ lit ". Please check your authentication and try again.").

End Render.

End Plain.

Module Manage.
Import Py Config Formatter Plain.

(** The requests of the task-list methods and of the removing and moving
    task methods.  An id is whatever the caller passes: the tools pass
    strings, the test script passes what a reply held. *)
Inductive request : Type :=
| TasklistsPage (maxResults : Z) (pageToken : option str)
| TasklistsInsert (body : dict json)
| TasklistsGet (tasklist : json)
| TasklistsUpdate (tasklist : json) (body : dict json)
| TasklistsDelete (tasklist : json)
| TasksDelete (tasklist : json) (task : json)
| TasksMove (tasklist task : json) (parent previous : option str)
| TasksClear (tasklist : json).

Record CreateTaskListInput : Type := { cl_title : str }.

Record UpdateTaskListInput : Type := {
  ul_tasklist_id : str;
  ul_title : str
}.

Record DeleteTaskListInput : Type := { dl_tasklist_id : str }.

Record DeleteTaskInput : Type := {
  del_task_id : str;
  del_tasklist_id : str
}.

Record MoveTaskInput : Type := {
  mv_task_id : str;
  mv_tasklist_id : str;
  mv_parent_task_id : option str;
  mv_previous_task_id : option str
}.

Record ClearCompletedTasksInput : Type := { cc_tasklist_id : str }.

(** [len(v)] *)
Definition py_len (v : json) : exn + Z :=
  match v with
  | JStr s => inr (len s)
  | JList l => inr (Z.of_nat (length l))
  | JDict d => inr (Z.of_nat (length d))
  | _ =>
      inl (mk_exn (lit "TypeError")
             (lit "object of type '" ++ type_name v ++ lit "' has no len()"))
  end.

Section Remote.

Variable container_repr : json -> str.

(** The service: the body of a reply, or the exception raised.  The
    removing requests have replies the client does not look at. *)
Variable St : Type.
Variable respond : St -> request -> St * (exn + dict json).

Definition world : Type := (St * list request)%type.

Definition M (A : Type) : Type := world -> world * (exn + A).

Definition ret {A} (a : A) : M A := fun w => (w, inr a).

Definition lift {A} (r : exn + A) : M A := fun w => (w, r).

Definition bind {A B} (m : M A) (k : A -> M B) : M B :=
  fun w =>
    match m w with
    | (w', inr a) => k a w'
    | (w', inl e) => (w', inl e)
    end.

(** [try: m  except Exception as e: h e] *)
Definition try_except {A} (m : M A) (h : exn -> M A) : M A :=
  fun w =>
    match m w with
    | (w', inr a) => (w', inr a)
    | (w', inl e) => h e w'
    end.

(** [request.execute()] *)
Definition execute (c : request) : M (dict json) :=
  fun w =>
    let '(st, log) := w in
    let '(st', r) := respond st c in
    ((st', log ++ [c]), r).

Notation "x <- m ;; k" := (bind m (fun x => k))
  (at level 61, m at next level, right associativity).

(** A tool body under its [try: ... except Exception as e: return ...]. *)
Definition tool (body : M str) (on_error : exn -> str) : world -> world * str :=
  fun w =>
    match body w with
    | (w', inr out) => (w', out)
    | (w', inl e) => (w', on_error e)
    end.

(** ** The methods of [GoogleTasksClient] *)

Definition list_tasklists (max_results : Z) (page_token : option str)
  : M (dict json) :=
  execute (TasklistsPage max_results page_token).

Definition create_tasklist (title : str) : M (dict json) :=
  execute (TasklistsInsert [(lit "title", JStr title)]).

Definition update_tasklist (tasklist_id : json) (title : str) : M (dict json) :=
  tasklist <- execute (TasklistsGet tasklist_id) ;;
  execute (TasklistsUpdate tasklist_id
             (dict_set tasklist (lit "title") (JStr title))).

Definition delete_tasklist (tasklist_id : json) : M bool :=
  _ <- execute (TasklistsDelete tasklist_id) ;;
  ret true.

Definition delete_task (task_id tasklist_id : json) : M bool :=
  _ <- execute (TasksDelete tasklist_id task_id) ;;
  ret true.

Definition move_task (task_id tasklist_id : json) (parent previous : option str)
  : M (dict json) :=
  execute (TasksMove tasklist_id task_id parent previous).

Definition clear_completed (tasklist_id : json) : M bool :=
  _ <- execute (TasksClear tasklist_id) ;;
  ret true.

(** ** The tools *)

Definition create_task_list (input : CreateTaskListInput)
  : world -> world * str :=
  tool
    (result <- create_tasklist (cl_title input) ;;
     ret (format_task_list container_repr result MARKDOWN))
    (fun e => lit "Error creating task list: " ++ exn_str e
              ++ lit ". Please check your authentication and try again.").

Definition update_task_list (input : UpdateTaskListInput)
  : world -> world * str :=
  tool
    (result <- update_tasklist (JStr (ul_tasklist_id input)) (ul_title input) ;;
     ret (CHECK_MARK ++ lit " Task list updated successfully!" ++ nl ++ nl
          ++ format_task_list container_repr result MARKDOWN))
    (fun e => lit "Error updating task list: " ++ exn_str e
              ++ lit ". Please verify the task list ID and try again.").

Definition delete_task_list (input : DeleteTaskListInput)
  : world -> world * str :=
  tool
    (_ <- delete_tasklist (JStr (dl_tasklist_id input)) ;;
     ret (CHECK_MARK ++ lit " Task list '" ++ dl_tasklist_id input
          ++ lit "' has been permanently deleted."))
    (fun e => lit "Error deleting task list: " ++ exn_str e
              ++ lit ". Please verify the task list ID and try again.").

(** The tools [delete_task] and [move_task] are named apart from the
    methods they call. *)
Definition delete_task_tool (input : DeleteTaskInput) : world -> world * str :=
  tool
    (_ <- delete_task (JStr (del_task_id input))
            (JStr (del_tasklist_id input)) ;;
     ret (CHECK_MARK ++ lit " Task '" ++ del_task_id input
          ++ lit "' has been permanently deleted."))
    (fun e => lit "Error deleting task: " ++ exn_str e
              ++ lit ". Please verify the task ID and try again.").

Definition move_task_tool (input : MoveTaskInput) : world -> world * str :=
  tool
    (result <- move_task (JStr (mv_task_id input)) (JStr (mv_tasklist_id input))
                 (mv_parent_task_id input) (mv_previous_task_id input) ;;
     ret (CHECK_MARK ++ lit " Task moved successfully!" ++ nl ++ nl
          ++ format_task container_repr result MARKDOWN))
    (fun e => lit "Error moving task: " ++ exn_str e
              ++ lit ". Please verify the task IDs and try again.").

Definition clear_completed_tasks (input : ClearCompletedTasksInput)
  : world -> world * str :=
  tool
    (_ <- clear_completed (JStr (cc_tasklist_id input)) ;;
     ret (CHECK_MARK ++ lit " All completed tasks have been cleared from "
          ++ lit "task list '" ++ cc_tasklist_id input ++ lit "'."))
    (fun e => lit "Error clearing completed tasks: " ++ exn_str e
              ++ lit ". Please verify the task list ID and try again.").

(** ** test_server.py: [test_list_operations]

    The lines it prints are left out; [test_list_title] is the title it
    builds from the clock.  The first handler is the [except] clause while
    [test_list_id] is still [None], the second the same clause once the id
    is assigned. *)

(** [if test_list_id: try: delete  except: pass] *)
Definition clean_up (test_list_id : json) : M unit :=
  if truthy test_list_id
  then try_except (_ <- delete_tasklist test_list_id ;; ret tt)
         (fun _ => ret tt)
  else ret tt.

Definition test_list_operations (test_list_title : str) : M bool :=
  try_except
    (result <- list_tasklists 5 None ;;
     let lists := get_default result (lit "items") (JList []) in
     _ <- lift (py_len lists) ;;
     new_list <- create_tasklist test_list_title ;;
     test_list_id <- lift (getitem (JDict new_list) (lit "id")) ;;
     try_except
       (_ <- lift (getitem (JDict new_list) (lit "title")) ;;
        let updated_title := test_list_title ++ lit " - Updated" in
        updated_list <- update_tasklist test_list_id updated_title ;;
        _ <- lift (getitem (JDict updated_list) (lit "title")) ;;
        _ <- delete_tasklist test_list_id ;;
        ret true)
       (fun _ => _ <- clean_up test_list_id ;; ret false))
    (fun _ => ret false).

End Remote.

End Manage.

Module NoWarning.
Import Py Config Gateway Formatter Tools.

(** [search_tasks] as it would be with the warning of the inner
    [except] clause left out: a variant to compare [Tools.search_tasks]
    with, not the code.  The handler only goes on to the next list. *)

Section Platform.

Variable ucd_lower : str -> str.
Variable container_repr : json -> str.
Variable St : Type.
Variable respond : St -> call -> St * (exn + dict json).

Notation "x <- m ;; k" := (bind m (fun x => k))
  (at level 61, m at next level, right associativity).

Fixpoint search_lists (input : SearchTasksInput) (query_lower : str)
    (task_lists : list json) (matching_tasks : list (dict json))
  : M St (list (dict json)) :=
  match task_lists with
  | [] => ret matching_tasks
  | task_list :: rest =>
      r <- try_except
             (search_one_list ucd_lower respond input query_lower task_list
                matching_tasks)
             (fun e => ret (matching_tasks, Some e)) ;;
      match r with
      | (matching_tasks, Some _) =>
          search_lists input query_lower rest matching_tasks
      | (matching_tasks, None) =>
          if (st_max_results input <=? Z.of_nat (length matching_tasks))%Z
          then ret matching_tasks
          else search_lists input query_lower rest matching_tasks
      end
  end.

Definition search_matches (input : SearchTasksInput) : M St (list (dict json)) :=
  lists_result <- list_tasklists respond 50%Z None ;;
  task_lists <- lift (py_iter (get_default lists_result (lit "items") (JList []))) ;;
  search_lists input (lower ucd_lower (st_query input)) task_lists [].

Definition search_tasks (input : SearchTasksInput) : world St -> world St * str :=
  tool
    (matching_tasks <- search_matches input ;;
     ret (search_output container_repr input matching_tasks))
    (fun e => lit "Error searching tasks: " ++ exn_str e).

End Platform.

End NoWarning.

(* ================================================================== *)
(** * Further notions for stating properties *)
(* ================================================================== *)

Module Spec2.
Import Py Config Gateway Formatter Tools Spec.

(** Events of [get_credentials] that run the interactive grant. *)
Definition is_flow (ev : Auth.event) : bool :=
  match ev with
  | Auth.RunFlow => true
  | _ => false
  end.

(** The keys of a task that the text formats read. *)
Definition rendered_keys : list str :=
  [lit "title"; lit "notes"; lit "status"; lit "due"; lit "id"].

(** A string that does not end with whitespace. *)
Definition no_trailing_space (s : str) : Prop := no_leading_space (rev s).

Definition is_ascii_upper (c : N) : bool := ((65 <=? c) && (c <=? 90))%N.

(** The end of [ord2ymd]: month and day from the day of the year,
    counted from 0, and whether the year is a leap year. *)
Local Open Scope Z_scope.

Definition month_day (leapyear : bool) (n : Z) : Z * Z :=
  let m := Z.shiftr (n + 50) 5 in
  let preceding :=
    nth (Z.to_nat m) DAYS_BEFORE_MONTH (-1)
    + (if (2 <? m) && leapyear then 1 else 0) in
  if n <? preceding
  then
    let m := m - 1 in
    let preceding :=
      preceding - (nth (Z.to_nat m) DAYS_IN_MONTH (-1)
                   + (if (m =? 2) && leapyear then 1 else 0)) in
    (m, n - preceding + 1)
  else (m, n - preceding + 1).

(** What is checked of [month_day] for each day of a year: the month
    and the day exist, and lie [n] days after the first of January. *)
Definition month_day_ok (leapyear : bool) (n : Z) : bool :=
  let '(m, d) := month_day leapyear n in
  (1 <=? m) && (m <=? 12) && (1 <=? d)
  && (d <=? (if (m =? 2) && leapyear then 29
             else nth (Z.to_nat m) DAYS_IN_MONTH (-1)))
  && (nth (Z.to_nat m) DAYS_BEFORE_MONTH (-1)
      + (if (2 <? m) && leapyear then 1 else 0) + d =? n + 1).

(** ["%0wd" % z] has [w] characters and reads back as [z]. *)
Definition pad_ok (w : nat) (z : Z) : bool :=
  match parse_int (zero_pad w z) with
  | Some v => (v =? z) && Nat.eqb (length (zero_pad w z)) w
  | None => false
  end.

Local Close Scope Z_scope.

(** A string of ASCII characters only. *)
Definition ascii_only (s : str) : Prop := Forall (fun c => is_ascii c = true) s.

End Spec2.

Module Demo2.
Import Py Config Gateway Formatter Tools Spec Demo.

(** A credential that has expired and cannot be refreshed. *)
Definition dead_creds : Auth.Credentials :=
  {| Auth.token := Some (lit "ya29.old"); Auth.refresh_token := None;
     Auth.expired := true |}.

(** Surroundings with no token file and a client-secret file, where the
    grant gives [renewed_creds]. *)
Definition first_run : Auth.Env :=
  {| Auth.token_file := None;
     Auth.refresh := fun _ => inl refused;
     Auth.CREDENTIALS_PATH := lit "/home/ada/.google_tasks_mcp/credentials.json";
     Auth.client_secrets_exist := true;
     Auth.run_local_server := inr renewed_creds;
     Auth.write_token := fun _ => None |}.

Definition build_ok (c : Auth.Credentials) : option exn := None.

(** A service with more than one page: the list "big" holds the four
    long tasks and more; every other list, and the account's set of task
    lists, gives a page without items that is not the last. *)
Definition paged (st : nat) (c : call) : nat * (exn + dict json) :=
  (S st,
   match c with
   | TasksList p =>
       if eq_str (lp_tasklist p) (lit "big")
       then inr [(lit "items", JList (map JDict long_tasks));
                 (lit "nextPageToken", JStr (lit "p2"))]
       else inr [(lit "nextPageToken", JStr (lit "p2"))]
   | TasklistsList _ _ =>
       inr [(lit "items", JList []); (lit "nextPageToken", JStr (lit "p2"))]
   | _ => inl unavailable
   end).

Definition page_of (tasklist : str) (format_type : ResponseFormat)
  : Plain.ListTasksInput :=
  {| Plain.lt_tasklist_id := tasklist; Plain.lt_max_results := 30;
     Plain.lt_show_completed := false; Plain.lt_show_deleted := false;
     Plain.lt_show_hidden := false; Plain.lt_due_min := None;
     Plain.lt_due_max := None; Plain.lt_completed_min := None;
     Plain.lt_completed_max := None; Plain.lt_updated_min := None;
     Plain.lt_page_token := None; Plain.lt_response_format := format_type |}.

Definition lists_page (format_type : ResponseFormat) : Plain.ListTaskListsInput :=
  {| Plain.ll_max_results := 20; Plain.ll_page_token := None;
     Plain.ll_response_format := format_type |}.

(** A service for the task-list requests: a new list gets the id
    [new_id]; lists can be fetched and removed but not changed; tasks can
    be moved but not removed. *)
Definition office (new_id : str) (st : nat) (c : Manage.request)
  : nat * (exn + dict json) :=
  (S st,
   match c with
   | Manage.TasklistsPage _ _ => inr [(lit "items", JList account_lists)]
   | Manage.TasklistsInsert body => inr (dict_set body (lit "id") (JStr new_id))
   | Manage.TasklistsGet tasklist =>
       inr [(lit "id", tasklist); (lit "title", JStr (lit "Errands"));
            (lit "updated", JStr (lit "2024-02-28T09:00:00.000Z"))]
   | Manage.TasklistsUpdate _ _ => inl unavailable
   | Manage.TasklistsDelete _ => inr []
   | Manage.TasksDelete _ _ => inl not_found
   | Manage.TasksMove _ _ _ _ => inr stored_task
   | Manage.TasksClear _ => inr []
   end).

(** A service whose task lists can be listed while no tasks can be
    fetched, and one whose only list record carries no id. *)
Definition outage (st : nat) (c : call) : nat * (exn + dict json) :=
  (S st,
   match c with
   | TasklistsList _ _ => inr [(lit "items", JList account_lists)]
   | _ => inl unavailable
   end).

Definition nameless (st : nat) (c : call) : nat * (exn + dict json) :=
  (S st,
   match c with
   | TasklistsList _ _ =>
       inr [(lit "items", JList [JDict [(lit "title", JStr (lit "Inbox"))]])]
   | TasksList _ => inr [(lit "items", JList home_tasks)]
   | _ => inl unavailable
   end).

Definition rename_errands : Manage.UpdateTaskListInput :=
  {| Manage.ul_tasklist_id := lit "A"; Manage.ul_title := lit "Chores" |}.

End Demo2.

(* ================================================================== *)
(** * Facts about the Python fragment *)
(* ================================================================== *)

Unset Implicit Arguments.

Import Py Config Gateway Formatter Tools Spec Demo.

Lemma str_eqb_eq (a b : str) : str_eqb a b = true <-> a = b.
Proof.
  revert b; induction a as [|x a IH]; intros [|y b]; simpl; split; intro H;
    try reflexivity; try discriminate.
  - apply andb_true_iff in H as [H1 H2].
    apply N.eqb_eq in H1. apply IH in H2. congruence.
  - injection H as -> ->. rewrite N.eqb_refl. simpl. now apply IH.
Qed.

Lemma str_eqb_refl (a : str) : str_eqb a a = true.
Proof. now apply str_eqb_eq. Qed.

Lemma is_digit_In (c : N) : is_digit c = true -> In c digit_chars.
Proof.
  unfold is_digit, digit_chars. intro H.
  apply andb_true_iff in H as [H1 H2].
  apply N.leb_le in H1, H2. simpl.
  assert (c = 48 \/ c = 49 \/ c = 50 \/ c = 51 \/ c = 52 \/ c = 53 \/ c = 54
          \/ c = 55 \/ c = 56 \/ c = 57)%N by lia.
  intuition auto.
Qed.

Lemma four_digits_checked :
  forallb (fun a => forallb (fun b => forallb (fun c => forallb (fun e =>
    roundtrip_ok 4 [a; b; c; e]) digit_chars) digit_chars) digit_chars)
    digit_chars = true.
Proof. vm_compute. reflexivity. Qed.

Lemma two_digits_checked :
  forallb (fun a => forallb (fun b => roundtrip_ok 2 [a; b]) digit_chars)
    digit_chars = true.
Proof. vm_compute. reflexivity. Qed.

Lemma digits_value_digit acc c r y :
  digits_value acc (c :: r) = Some y -> is_digit c = true.
Proof. simpl. destruct (is_digit c); [reflexivity | discriminate]. Qed.

Lemma digits_value_tail acc c r y :
  digits_value acc (c :: r) = Some y ->
  digits_value (acc * 10 + Z.of_N (c - 48)) r = Some y.
Proof. simpl. destruct (is_digit c); [auto | discriminate]. Qed.

Lemma digits4_roundtrip a b c e y :
  parse_int [a; b; c; e] = Some y -> zero_pad 4 y = [a; b; c; e].
Proof.
  intro H. unfold parse_int in H.
  pose proof (digits_value_digit _ _ _ _ H) as Ha.
  pose proof (digits_value_tail _ _ _ _ H) as H1.
  pose proof (digits_value_digit _ _ _ _ H1) as Hb.
  pose proof (digits_value_tail _ _ _ _ H1) as H2.
  pose proof (digits_value_digit _ _ _ _ H2) as Hc.
  pose proof (digits_value_tail _ _ _ _ H2) as H3.
  pose proof (digits_value_digit _ _ _ _ H3) as He.
  pose proof four_digits_checked as K.
  rewrite forallb_forall in K. specialize (K a (is_digit_In _ Ha)).
  rewrite forallb_forall in K. specialize (K b (is_digit_In _ Hb)).
  rewrite forallb_forall in K. specialize (K c (is_digit_In _ Hc)).
  rewrite forallb_forall in K. specialize (K e (is_digit_In _ He)).
  unfold roundtrip_ok, parse_int in K. rewrite H in K.
  now apply str_eqb_eq.
Qed.

Lemma digits2_roundtrip a b y :
  parse_int [a; b] = Some y -> zero_pad 2 y = [a; b].
Proof.
  intro H. unfold parse_int in H.
  pose proof (digits_value_digit _ _ _ _ H) as Ha.
  pose proof (digits_value_tail _ _ _ _ H) as H1.
  pose proof (digits_value_digit _ _ _ _ H1) as Hb.
  pose proof two_digits_checked as K.
  rewrite forallb_forall in K. specialize (K a (is_digit_In _ Ha)).
  rewrite forallb_forall in K. specialize (K b (is_digit_In _ Hb)).
  unfold roundtrip_ok, parse_int in K. rewrite H in K.
  now apply str_eqb_eq.
Qed.

Lemma is_digit_not_Z (c : N) : is_digit c = true -> N.eqb 90 c = false.
Proof.
  unfold is_digit. intro H. apply andb_true_iff in H as [_ H].
  apply N.leb_le in H. apply N.eqb_neq. lia.
Qed.

Lemma parse_int_digits_not_Z (s : str) (y : Z) :
  parse_int s = Some y -> Forall (fun c => N.eqb 90 c = false) s.
Proof.
  unfold parse_int. destruct s as [|c0 s0]; [discriminate|].
  generalize 0%Z. generalize (c0 :: s0). clear.
  induction l as [|c r IH]; intros acc H; constructor.
  - apply is_digit_not_Z. exact (digits_value_digit _ _ _ _ H).
  - exact (IH _ (digits_value_tail _ _ _ _ H)).
Qed.

(** ** dict *)

Lemma dict_get_set {V} (d : dict V) (k : str) (v : V) (k' : str) :
  dict_get (dict_set d k v) k' = if str_eqb k k' then Some v else dict_get d k'.
Proof.
  induction d as [|[k0 v0] r IH]; simpl.
  - reflexivity.
  - destruct (str_eqb k0 k) eqn:E0; simpl.
    + apply str_eqb_eq in E0. subst k0. destruct (str_eqb k k'); reflexivity.
    + rewrite IH. destruct (str_eqb k0 k') eqn:E1; [|reflexivity].
      destruct (str_eqb k k') eqn:E2; [|reflexivity].
      apply str_eqb_eq in E1, E2. subst. rewrite str_eqb_refl in E0.
      discriminate.
Qed.

Lemma dict_get_pop {V} (d : dict V) (k k' : str) :
  dict_get (dict_pop d k) k' = if str_eqb k k' then None else dict_get d k'.
Proof.
  unfold dict_pop. induction d as [|[k0 v0] r IH]; simpl.
  - destruct (str_eqb k k'); reflexivity.
  - destruct (str_eqb k0 k) eqn:E0; simpl.
    + rewrite IH. apply str_eqb_eq in E0. subst k0.
      destruct (str_eqb k k'); reflexivity.
    + rewrite IH. destruct (str_eqb k0 k') eqn:E1; [|reflexivity].
      destruct (str_eqb k k') eqn:E2; [|reflexivity].
      apply str_eqb_eq in E1, E2. subst. rewrite str_eqb_refl in E0.
      discriminate.
Qed.

Lemma str_eqb_sym (a b : str) : str_eqb a b = str_eqb b a.
Proof.
  destruct (str_eqb a b) eqn:E1, (str_eqb b a) eqn:E2; try reflexivity.
  - apply str_eqb_eq in E1. subst. rewrite str_eqb_refl in E2. discriminate.
  - apply str_eqb_eq in E2. subst. rewrite str_eqb_refl in E1. discriminate.
Qed.

(** ** Dates as strings *)

Lemma replace_Z_prefix (new a b : str) :
  Forall (fun c => N.eqb 90 c = false) a ->
  replace_from [90%N] new 0 (a ++ b) = a ++ replace_from [90%N] new 0 b.
Proof.
  induction 1 as [|c r Hc Hr IH]; [reflexivity|].
  cbn [app replace_from startswith]. rewrite Hc. cbn [andb]. now rewrite IH.
Qed.

(** A date string is ten characters, holds no [Z], and is the ISO format
    of the date it parses to. *)
Lemma date_string_shape (d : str) :
  is_date_string d = true ->
  exists y m dd,
    parse_isoformat_date d = Some (y, m, dd)
    /\ check_date_fields y m dd = true
    /\ length d = 10%nat
    /\ format_ymd y m dd = d
    /\ Forall (fun c => N.eqb 90 c = false) d.
Proof.
  unfold is_date_string.
  destruct (parse_isoformat_date d) as [[[y m] dd]|] eqn:P; [|discriminate].
  intro C. exists y, m, dd. split; [reflexivity|]. split; [exact C|].
  unfold parse_isoformat_date in P.
  destruct (Nat.eqb (length d) 10) eqn:L; [|discriminate].
  apply Nat.eqb_eq in L. split; [exact L|].
  do 10 (destruct d as [|? d]; [discriminate L|]).
  destruct d; [|discriminate L]. clear L.
  unfold slice in P. cbn [Nat.sub skipn firstn negb] in P.
  destruct (parse_int [n; n0; n1; n2]) as [y'|] eqn:Py; [|discriminate].
  destruct (parse_int [n4; n5]) as [m'|] eqn:Pm; [|discriminate].
  destruct (parse_int [n7; n8]) as [d'|] eqn:Pd; [|discriminate].
  destruct (str_eqb [n3] (lit "-") && str_eqb [n6] (lit "-")) eqn:S;
    [|discriminate].
  injection P as <- <- <-.
  apply andb_true_iff in S as [S1 S2].
  apply str_eqb_eq in S1, S2. injection S1 as ->. injection S2 as ->.
  split.
  - unfold format_ymd.
    rewrite (digits4_roundtrip _ _ _ _ _ Py), (digits2_roundtrip _ _ _ Pm),
      (digits2_roundtrip _ _ _ Pd).
    reflexivity.
  - pose proof (parse_int_digits_not_Z _ _ Py) as Fy.
    pose proof (parse_int_digits_not_Z _ _ Pm) as Fm.
    pose proof (parse_int_digits_not_Z _ _ Pd) as Fd.
    change (Forall (fun c => N.eqb 90 c = false)
              ([n; n0; n1; n2] ++ [45%N] ++ [n4; n5] ++ [45%N] ++ [n7; n8])).
    repeat (apply Forall_app; split); auto.
Qed.

Lemma fromisoformat_midnight_utc (d : str) (y m dd : Z) :
  length d = 10%nat ->
  parse_isoformat_date d = Some (y, m, dd) ->
  check_date_fields y m dd = true ->
  fromisoformat (d ++ lit "T00:00:00.000+00:00")
  = Some (mk_datetime y m dd 0 0 0 0 (Some 0%Z)).
Proof.
  intros L P C. unfold fromisoformat, slice.
  change (skipn 0 (d ++ lit "T00:00:00.000+00:00"))
    with (d ++ lit "T00:00:00.000+00:00").
  change (10 - 0)%nat with 10%nat.
  rewrite firstn_app, (firstn_all2 d) by lia.
  rewrite L. change (10 - 10)%nat with 0%nat. rewrite firstn_O, app_nil_r, P.
  rewrite skipn_app, (skipn_all2 d) by lia.
  rewrite L. change (11 - 10)%nat with 1%nat. cbn [app].
  replace (skipn 1 (lit "T00:00:00.000+00:00")) with (lit "00:00:00.000+00:00")
    by reflexivity.
  replace (parse_isoformat_time (lit "00:00:00.000+00:00"))
    with (Some (0, 0, 0, 0, Some 0)%Z) by (vm_compute; reflexivity).
  cbn match. rewrite C. reflexivity.
Qed.

Lemma nonempty_Some (s : str) : s <> [] -> nonempty (Some s) = Some s.
Proof. destruct s; [congruence | reflexivity]. Qed.

Lemma create_body_due (title : str) (notes : option str) (d : str) :
  d <> [] ->
  create_body title notes (Some d)
  = dict_set (create_body title notes None) (lit "due")
      (JStr (d ++ lit "T00:00:00.000Z")).
Proof.
  intro Hd. unfold create_body. rewrite (nonempty_Some _ Hd). reflexivity.
Qed.

Lemma create_body_get (title : str) (notes : option str) (k : str) :
  str_eqb (lit "notes") k = false ->
  dict_get (create_body title notes None) k
  = if str_eqb (lit "title") k then Some (JStr title) else None.
Proof.
  intro Hk. unfold create_body. cbn [nonempty].
  destruct (nonempty notes) as [n|].
  - rewrite dict_get_set, Hk. reflexivity.
  - reflexivity.
Qed.

Lemma all_from_spec (p : Z -> bool) (count : nat) :
  forall z, all_from p count z = true ->
            forall x, (z <= x < z + Z.of_nat count)%Z -> p x = true.
Proof.
  induction count as [|k IH]; intros z A x H; [lia|].
  cbn [all_from] in A. apply andb_true_iff in A as [P A].
  destruct (Z.eq_dec x z) as [->|N]; [exact P|].
  apply (IH (z + 1)%Z A). lia.
Qed.

(** From 1000 to 9999 the plain decimal number is the four-digit one. *)
Lemma four_digit_years_checked :
  all_from (fun y => str_eqb (str_of_Z y) (zero_pad 4 y)) (Z.to_nat 9000) 1000
  = true.
Proof. vm_compute. reflexivity. Qed.

Lemma year_unpadded (y : Z) :
  (1000 <= y <= 9999)%Z -> str_of_Z y = zero_pad 4 y.
Proof.
  intro H. apply str_eqb_eq.
  apply (all_from_spec _ _ _ four_digit_years_checked y). lia.
Qed.

Lemma due_display_date_string (d : str) :
  is_date_string d = true ->
  from_year_1000 d = true ->
  due_display (JStr (d ++ lit "T00:00:00.000Z")) = JStr d.
Proof.
  intros H Y.
  destruct (date_string_shape _ H) as (y & m & dd & P & C & L & F & NZ).
  assert (Hy : (1000 <= y <= 9999)%Z).
  { unfold from_year_1000 in Y. rewrite P in Y. apply Z.leb_le in Y.
    unfold check_date_fields, MAXYEAR in C.
    repeat (apply andb_true_iff in C as [C ?]).
    match goal with K : (y <=? 9999)%Z = true |- _ => apply Z.leb_le in K end.
    lia. }
  unfold due_display.
  assert (T : truthy (JStr (d ++ lit "T00:00:00.000Z")) = true).
  { destruct d; [discriminate L | reflexivity]. }
  rewrite T.
  change (replace (lit "Z") (lit "+00:00") (d ++ lit "T00:00:00.000Z"))
    with (replace_from [90%N] (lit "+00:00") 0 (d ++ lit "T00:00:00.000Z")).
  rewrite (replace_Z_prefix _ _ _ NZ).
  replace (replace_from [90%N] (lit "+00:00") 0 (lit "T00:00:00.000Z"))
    with (lit "T00:00:00.000+00:00") by (vm_compute; reflexivity).
  rewrite (fromisoformat_midnight_utc _ _ _ _ L P C).
  unfold strftime_ymd. cbn [dt_year dt_month dt_day].
  rewrite (year_unpadded y Hy). unfold format_ymd in F. now rewrite F.
Qed.

(** The round trip of a due date from the year 1000 on.  For every
    valid calendar date [d] written YYYY-MM-DD whose year has four
    significant digits: [create_task] stores it as [d] followed by the
    start of the day in UTC, and [format_task] shows that stored value as
    [d] again (here in the concise format, where the rendering ends with
    the due date).  Whatever stored string fails to parse is shown as it
    is; the display is a total function, so no error can come out of it. *)
Theorem due_date_display_roundtrip (repr : json -> str) (d : str) :
  is_date_string d = true ->
  from_year_1000 d = true ->
  (forall title notes,
      dict_get (create_body title notes (Some d)) (lit "due")
      = Some (JStr (d ++ lit "T00:00:00.000Z")))
  /\ due_display (JStr (d ++ lit "T00:00:00.000Z")) = JStr d
  /\ (forall title notes,
         format_task repr (create_body title notes (Some d)) CONCISE
         = HOURGLASS ++ lit " " ++ title ++ lit " " ++ CALENDAR ++ lit " " ++ d)
  /\ (forall raw,
         fromisoformat (replace (lit "Z") (lit "+00:00") raw) = None ->
         due_display (JStr raw) = JStr raw).
Proof.
  intros H Y.
  assert (Hd : d <> []).
  { destruct (date_string_shape _ H) as (_ & _ & _ & _ & _ & L & _).
    destruct d; [discriminate L | congruence]. }
  split; [|split; [|split]].
  - intros title notes. rewrite (create_body_due _ _ _ Hd), dict_get_set.
    reflexivity.
  - now apply due_display_date_string.
  - intros title notes. unfold format_task, get_default.
    rewrite (create_body_due _ _ _ Hd), !dict_get_set.
    rewrite !create_body_get by reflexivity.
    change (str_eqb (lit "due") (lit "title")) with false.
    change (str_eqb (lit "due") (lit "status")) with false.
    change (str_eqb (lit "due") (lit "due")) with true.
    change (str_eqb (lit "title") (lit "title")) with true.
    change (str_eqb (lit "title") (lit "status")) with false.
    cbv iota.
    rewrite (due_display_date_string _ H Y).
    change (eq_str (JStr (lit "needsAction")) (lit "completed")) with false.
    cbv iota. unfold py_str.
    assert (T : truthy (JStr d) = true) by (destruct d; [congruence | reflexivity]).
    rewrite T. reflexivity.
  - intros raw P. unfold due_display.
    destruct raw as [|c r]; [reflexivity|].
    cbn [truthy truthy_str]. now rewrite P.
Qed.

Lemma due_date_display_roundtrip_witness :
  due_display (JStr (lit "2024-01-15" ++ lit "T00:00:00.000Z"))
  = JStr (lit "2024-01-15").
Proof.
  apply (due_date_display_roundtrip (fun _ => []) (lit "2024-01-15"));
    vm_compute; reflexivity.
Defined.

(** C8, at a date before the year 1000.  The validator of [create_task]
    accepts "0999-12-31" and the client stores it with the start of the
    day in UTC; [format_task] parses the stored value and writes it with
    [strftime('%Y-%m-%d')], whose year is not padded: what is shown is
    "999-12-31", not the date that was entered. *)
Lemma due_date_display_before_year_1000 :
  let d := lit "0999-12-31" in
  let stored := JStr (d ++ lit "T00:00:00.000Z") in
  is_date_string d = true
  /\ Plain.validate_due_date (Some d) = inr (Some d)
  /\ dict_get (create_body (lit "Lease ends") None (Some d)) (lit "due")
     = Some stored
  /\ due_display stored = JStr (lit "999-12-31")
  /\ format_task (fun _ => []) (create_body (lit "Lease ends") None (Some d))
       CONCISE
     = HOURGLASS ++ lit " Lease ends " ++ CALENDAR ++ lit " 999-12-31"
  /\ lit "999-12-31" <> d.
Proof.
  cbv zeta. repeat split; try (vm_compute; reflexivity). discriminate.
Qed.

(** A stored value that is no timestamp is shown as it is. *)
Example due_display_unparsed :
  due_display (JStr (lit "next Tuesday")) = JStr (lit "next Tuesday").
Proof. reflexivity. Qed.

(* ================================================================== *)
(** * ResponseFormatter.format_multiple_tasks *)
(* ================================================================== *)

Lemma len_TRUNCATION_MARKER : len TRUNCATION_MARKER = 31%Z.
Proof. reflexivity. Qed.

Lemma truncate_spec (result : str) :
  (len (truncate result) <= CHARACTER_LIMIT)%Z
  /\ ((CHARACTER_LIMIT < len result)%Z ->
      truncate result
      = firstn (Z.to_nat (CHARACTER_LIMIT - 100)) result ++ TRUNCATION_MARKER
      /\ len (truncate result)
         = (CHARACTER_LIMIT - 100 + len TRUNCATION_MARKER)%Z)
  /\ ((len result <= CHARACTER_LIMIT)%Z -> truncate result = result).
Proof.
  unfold truncate.
  destruct (CHARACTER_LIMIT <? len result)%Z eqn:E.
  - apply Z.ltb_lt in E.
    assert (L : len (firstn (Z.to_nat (CHARACTER_LIMIT - 100)) result
                     ++ TRUNCATION_MARKER)
                = (CHARACTER_LIMIT - 100 + len TRUNCATION_MARKER)%Z).
    { unfold len in *. rewrite length_app, length_firstn.
      unfold CHARACTER_LIMIT in *. lia. }
    rewrite L, len_TRUNCATION_MARKER. unfold CHARACTER_LIMIT in *.
    repeat split; lia.
  - apply Z.ltb_ge in E. repeat split; auto; lia.
Qed.

(** C1, as the code has it.  For every non-empty list of tasks and every
    format other than json, the string [format_multiple_tasks] returns
    has at most 25000 characters; when the joined rendering is longer
    than that, the result is its first 24900 characters followed by the
    truncation marker, [24900 + len marker] characters in all; otherwise
    it is the joined rendering itself.  (In the json format the function
    returns the dump of the list before any length check.) *)
Theorem format_multiple_tasks_within_limit
    (repr : json -> str) (tasks : list (dict json))
    (format_type : ResponseFormat) (title : str) :
  tasks <> [] ->
  format_type <> JSON ->
  let joined := joined_rendering repr tasks format_type title in
  let out := format_multiple_tasks repr tasks format_type title in
  (len out <= CHARACTER_LIMIT)%Z
  /\ ((CHARACTER_LIMIT < len joined)%Z ->
      out = firstn (Z.to_nat (CHARACTER_LIMIT - 100)) joined ++ TRUNCATION_MARKER
      /\ len out = (CHARACTER_LIMIT - 100 + len TRUNCATION_MARKER)%Z)
  /\ ((len joined <= CHARACTER_LIMIT)%Z -> out = joined).
Proof.
  intros Ht Hf joined out.
  assert (E : out = truncate joined).
  { unfold out, joined, format_multiple_tasks.
    destruct tasks; [congruence|].
    destruct format_type; [congruence | reflexivity | reflexivity | reflexivity]. }
  rewrite E.
  destruct (truncate_spec joined) as (A & B & C).
  split; [exact A|]. split; [exact B | exact C].
Qed.

Lemma format_multiple_tasks_within_limit_witness :
  (len (format_multiple_tasks (fun _ => []) long_tasks MARKDOWN
          (lit "Tasks")) <= CHARACTER_LIMIT)%Z.
Proof.
  apply (format_multiple_tasks_within_limit (fun _ => []) long_tasks
           MARKDOWN (lit "Tasks")); discriminate.
Defined.

(** C1 as stated fails in the json format: four tasks with notes of 8000
    characters each are dumped whole, past the limit. *)
Lemma format_multiple_tasks_json_exceeds_limit :
  long_tasks <> []
  /\ (CHARACTER_LIMIT
      < len (format_multiple_tasks (fun _ => []) long_tasks JSON
               (lit "Tasks")))%Z.
Proof.
  split; [discriminate|]. vm_compute. reflexivity.
Qed.

(** The same tasks in the markdown format are cut to 24931 characters. *)
Example format_multiple_tasks_truncates :
  len (format_multiple_tasks (fun _ => []) long_tasks MARKDOWN
         (lit "Tasks")) = 24931%Z.
Proof. vm_compute. reflexivity. Qed.

(* ================================================================== *)
(** * GoogleTasksAuth.get_credentials *)
(* ================================================================== *)

Import Auth.

Lemma expired_not_valid (c : Credentials) : expired c = true -> valid c = false.
Proof. unfold valid. intros ->. destruct (token c); reflexivity. Qed.

Lemma get_credentials_without_token (e : Env) :
  get_credentials (without_token e)
  = (Makedirs :: fst (renew e None),
     match snd (renew e None) with
     | inl x => inl x
     | inr c => inr (Some c)
     end).
Proof.
  unfold get_credentials, without_token, load_token, renew, try_refresh,
    run_flow, save_token; cbn.
  destruct (client_secrets_exist e); cbn; [|reflexivity].
  destruct (run_local_server e) as [x|c']; cbn; [reflexivity|].
  destruct (write_token e c'); reflexivity.
Qed.

(** C2.  When the token file parses to a credential [c]:
    - if [c] is valid, [get_credentials] returns [c] after creating the
      directory and reading the file, with no refresh, no grant and no
      write of the token file;
    - if [c] is expired and has a refresh token, exactly one refresh is
      attempted; when it succeeds the refreshed credential is written and
      returned; when it raises, the exception is dropped and the call goes
      on exactly as it does with no persisted credential. *)
Theorem get_credentials_reuse_or_refresh (e : Env) (c : Credentials) :
  token_file e = Some (inr c) ->
  (valid c = true ->
     get_credentials e = ([Makedirs; LoadToken], inr (Some c))
     /\ existsb contacts_server (fst (get_credentials e)) = false
     /\ existsb writes_token (fst (get_credentials e)) = false)
  /\ (expired c = true -> has_refresh_token c = true ->
      length (filter is_refresh (fst (get_credentials e))) = 1%nat
      /\ (forall c', refresh e c = inr c' ->
            get_credentials e
            = ([Makedirs; LoadToken; Refresh c; WriteToken c'],
               match write_token e c' with
               | None => inr (Some c')
               | Some x => inl x
               end))
      /\ (forall x, refresh e c = inl x ->
            get_credentials e
            = (Makedirs :: LoadToken :: Refresh c
                 :: tl (fst (get_credentials (without_token e))),
               snd (get_credentials (without_token e))))).
Proof.
  intro F. split.
  - intro V.
    assert (E : get_credentials e = ([Makedirs; LoadToken], inr (Some c))).
    { unfold get_credentials, load_token, needs_renewal. rewrite F, V.
      reflexivity. }
    rewrite E. repeat split; reflexivity.
  - intros X R. pose proof (expired_not_valid _ X) as V.
    assert (OK : forall c', refresh e c = inr c' ->
              get_credentials e
              = ([Makedirs; LoadToken; Refresh c; WriteToken c'],
                 match write_token e c' with
                 | None => inr (Some c')
                 | Some x => inl x
                 end)).
    { intros c' S.
      unfold get_credentials, load_token, needs_renewal, renew, try_refresh,
        run_flow, save_token.
      rewrite F, V, X, R, S. cbn.
      destruct (write_token e c'); reflexivity. }
    assert (KO : forall x, refresh e c = inl x ->
              get_credentials e
              = (Makedirs :: LoadToken :: Refresh c :: fst (renew e None),
                 match snd (renew e None) with
                 | inl x => inl x
                 | inr c => inr (Some c)
                 end)).
    { intros x S.
      unfold get_credentials, load_token, needs_renewal, renew, try_refresh,
        run_flow, save_token.
      rewrite F, V, X, R, S. cbn.
      destruct (client_secrets_exist e); cbn; [|reflexivity].
      destruct (run_local_server e) as [y|c']; cbn; [reflexivity|].
      destruct (write_token e c'); reflexivity. }
    split; [|split].
    + destruct (refresh e c) as [x|c'] eqn:S.
      * rewrite (KO x eq_refl). cbn.
        unfold renew, try_refresh, run_flow, save_token.
        destruct (client_secrets_exist e); cbn; [|reflexivity].
        destruct (run_local_server e) as [y|c']; cbn; [reflexivity|].
        destruct (write_token e c'); reflexivity.
      * rewrite (OK c' eq_refl). reflexivity.
    + exact OK.
    + intros x S. rewrite (KO x S), get_credentials_without_token. reflexivity.
Qed.

Lemma get_credentials_reuse_or_refresh_witness :
  get_credentials (env_with fresh_creds (inl refused))
  = ([Makedirs; LoadToken], inr (Some fresh_creds))
  /\ get_credentials (env_with stale_creds (inr renewed_creds))
     = ([Makedirs; LoadToken; Refresh stale_creds; WriteToken renewed_creds],
        inr (Some renewed_creds)).
Proof.
  split.
  - apply (get_credentials_reuse_or_refresh
             (env_with fresh_creds (inl refused)) fresh_creds); reflexivity.
  - apply (get_credentials_reuse_or_refresh
             (env_with stale_creds (inr renewed_creds)) stale_creds
             eq_refl); reflexivity.
Defined.

(** A refresh that is refused leaves the call where it is without a
    persisted credential: here, at the missing client-secret file. *)
Example get_credentials_refresh_refused :
  get_credentials (env_with stale_creds (inl refused))
  = ([Makedirs; LoadToken; Refresh stale_creds],
     inl (FileNotFoundError
            (lit "/home/ada/.google_tasks_mcp/credentials.json"))).
Proof. reflexivity. Qed.

(* ================================================================== *)
(** * update_task: fetch, merge, write *)
(* ================================================================== *)

(** What a key of the merged record holds, field by field. *)
Lemma apply_updates_get (task : dict json) (updates : dict str) (k : str) :
  dict_get (apply_updates task updates) k =
  if str_eqb (lit "due") k then
    match dict_get updates (lit "due_date") with
    | Some d =>
        if str_eqb d (lit "clear") then None
        else if truthy_str d then Some (JStr (d ++ DUE_SUFFIX))
             else dict_get task k
    | None => dict_get task k
    end
  else if str_eqb (lit "status") k then
    match nonempty (dict_get updates (lit "status")) with
    | Some v => Some (JStr v)
    | None => dict_get task k
    end
  else if str_eqb (lit "notes") k then
    match nonempty (dict_get updates (lit "notes")) with
    | Some v => Some (JStr v)
    | None => dict_get task k
    end
  else if str_eqb (lit "title") k then
    match nonempty (dict_get updates (lit "title")) with
    | Some v => Some (JStr v)
    | None => dict_get task k
    end
  else dict_get task k.
Proof.
  unfold apply_updates, DUE_SUFFIX.
  destruct (nonempty (dict_get updates (lit "title"))) as [t|];
  destruct (nonempty (dict_get updates (lit "notes"))) as [n|];
  destruct (nonempty (dict_get updates (lit "status"))) as [s|];
  destruct (dict_get updates (lit "due_date")) as [d|];
  try destruct (str_eqb d (lit "clear"));
  try destruct (truthy_str d);
  rewrite ?dict_get_pop, ?dict_get_set;
  destruct (str_eqb (lit "due") k) eqn:Kd;
  try (apply str_eqb_eq in Kd; subst k);
  try reflexivity;
  destruct (str_eqb (lit "status") k) eqn:Ks;
  try (apply str_eqb_eq in Ks; subst k);
  try reflexivity;
  destruct (str_eqb (lit "notes") k) eqn:Kn;
  try (apply str_eqb_eq in Kn; subst k);
  try reflexivity;
  destruct (str_eqb (lit "title") k) eqn:Kt;
  try (apply str_eqb_eq in Kt; subst k);
  reflexivity.
Qed.

(** What the tool forwards to the client. *)
Lemma build_updates_get (input : UpdateTaskInput) :
  dict_get (build_updates input) (lit "title") = nonempty (ut_title input)
  /\ dict_get (build_updates input) (lit "notes") = ut_notes input
  /\ dict_get (build_updates input) (lit "status")
     = option_map TaskStatus_value (ut_status input)
  /\ dict_get (build_updates input) (lit "due_date") = nonempty (ut_due_date input).
Proof.
  unfold build_updates.
  destruct (nonempty (ut_title input)); destruct (ut_notes input);
    destruct (ut_status input); destruct (nonempty (ut_due_date input));
    repeat split; reflexivity.
Qed.

Lemma nonempty_idem (o : option str) : nonempty (nonempty o) = nonempty o.
Proof. destruct o as [[|c r]|]; reflexivity. Qed.

Lemma nonempty_status (s : option TaskStatus) :
  nonempty (option_map TaskStatus_value s) = option_map TaskStatus_value s.
Proof. destruct s as [[|]|]; reflexivity. Qed.

Lemma written_get (task : dict json) (input : UpdateTaskInput) (k : str) :
  dict_get (written task input) k =
  if str_eqb (lit "due") k then
    match nonempty (ut_due_date input) with
    | Some d =>
        if str_eqb d (lit "clear") then None else Some (JStr (d ++ DUE_SUFFIX))
    | None => dict_get task k
    end
  else if str_eqb (lit "status") k then
    match ut_status input with
    | Some s => Some (JStr (TaskStatus_value s))
    | None => dict_get task k
    end
  else if str_eqb (lit "notes") k then
    match nonempty (ut_notes input) with
    | Some v => Some (JStr v)
    | None => dict_get task k
    end
  else if str_eqb (lit "title") k then
    match nonempty (ut_title input) with
    | Some v => Some (JStr v)
    | None => dict_get task k
    end
  else dict_get task k.
Proof.
  unfold written. rewrite apply_updates_get.
  destruct (build_updates_get input) as (-> & -> & -> & ->).
  rewrite nonempty_idem, nonempty_status.
  destruct (ut_status input) as [s|]; cbn [option_map];
    destruct (nonempty (ut_due_date input)) as [[|c r]|] eqn:D;
    try reflexivity.
  all: exfalso; destruct (ut_due_date input) as [[|c' r']|]; discriminate D.
Qed.


Section UpdateTask.

Variable repr : json -> str.
Variable St : Type.
Variable respond : St -> call -> St * (exn + dict json).

(** The requests one run of the tool adds to the log. *)
Lemma update_task_log (input : UpdateTaskInput) (st st1 : St)
    (log : list call) (task : dict json) :
  respond st (TasksGet (ut_tasklist_id input) (ut_task_id input))
  = (st1, inr task) ->
  snd (fst (Tools.update_task repr respond input (st, log)))
  = log ++ [TasksGet (ut_tasklist_id input) (ut_task_id input);
            TasksUpdate (ut_tasklist_id input) (ut_task_id input)
              (written task input)].
Proof.
  intro G.
  unfold Tools.update_task, tool, Gateway.update_task, bind, execute, ret.
  rewrite G.
  destruct (respond st1 _) as [st2 [e|result]]; cbn;
    now rewrite <- app_assoc.
Qed.

(** C3.  When the fetch of the current record succeeds, the tool sends
    the fetch and then one update whose body is the fetched record with
    the request laid over it: every key the request does not mention
    (another key, or one of title, notes, status, due left out of the
    request) keeps the value it had on the server; the title of a valid
    request, notes supplied with content and a status replace the old
    values; for the due date, ["clear"] removes the key, any other
    supplied date sets it to the start of that day in UTC, and no
    [due_date] leaves it alone. *)
Theorem update_task_keeps_unmentioned_fields
    (input : UpdateTaskInput) (st st1 : St) (log : list call)
    (task : dict json) :
  respond st (TasksGet (ut_tasklist_id input) (ut_task_id input))
  = (st1, inr task) ->
  let body := written task input in
  snd (fst (Tools.update_task repr respond input (st, log)))
  = log ++ [TasksGet (ut_tasklist_id input) (ut_task_id input);
            TasksUpdate (ut_tasklist_id input) (ut_task_id input) body]
  /\ (forall k, mentions input k = false -> dict_get body k = dict_get task k)
  /\ (valid_UpdateTaskInput input = true ->
      forall t, ut_title input = Some t ->
        dict_get body (lit "title") = Some (JStr t))
  /\ (forall n, ut_notes input = Some n -> n <> [] ->
        dict_get body (lit "notes") = Some (JStr n))
  /\ (forall s, ut_status input = Some s ->
        dict_get body (lit "status") = Some (JStr (TaskStatus_value s)))
  /\ (ut_due_date input = Some (lit "clear") ->
        dict_get body (lit "due") = None)
  /\ (forall d, ut_due_date input = Some d -> d <> lit "clear" -> d <> [] ->
        dict_get body (lit "due") = Some (JStr (d ++ lit "T00:00:00.000Z")))
  /\ (ut_due_date input = None ->
        dict_get body (lit "due") = dict_get task (lit "due")).
Proof.
  intros G body. split; [exact (update_task_log input _ _ _ _ G)|].
  unfold body. repeat split.
  - intros k M. unfold mentions in M.
    apply orb_false_iff in M as [M Md].
    apply orb_false_iff in M as [M Ms].
    apply orb_false_iff in M as [Mt Mn].
    rewrite written_get.
    destruct (str_eqb (lit "due") k).
    { destruct (ut_due_date input); [discriminate Md | reflexivity]. }
    destruct (str_eqb (lit "status") k).
    { destruct (ut_status input); [discriminate Ms | reflexivity]. }
    destruct (str_eqb (lit "notes") k).
    { destruct (ut_notes input); [discriminate Mn | reflexivity]. }
    destruct (str_eqb (lit "title") k); [|reflexivity].
    destruct (ut_title input); [discriminate Mt | reflexivity].
  - intros V t E.
    assert (Ht : t <> []).
    { unfold valid_UpdateTaskInput in V. rewrite E in V. cbn [opt_all] in V.
      apply andb_true_iff in V as [V _]. apply andb_true_iff in V as [V _].
      apply Z.leb_le in V. intros ->. cbn in V. lia. }
    rewrite written_get, E, (nonempty_Some _ Ht). reflexivity.
  - intros n E Hn. rewrite written_get, E, (nonempty_Some _ Hn). reflexivity.
  - intros s E. rewrite written_get, E. reflexivity.
  - intros E. rewrite written_get, E. reflexivity.
  - intros d E Hc Hd. rewrite written_get, E, (nonempty_Some _ Hd).
    change (str_eqb (lit "due") (lit "due")) with true. cbv iota.
    destruct (str_eqb d (lit "clear")) eqn:C; [|reflexivity].
    apply str_eqb_eq in C. contradiction.
  - intros E. rewrite written_get, E. reflexivity.
Qed.

(** C9.  A supplied value that is falsy is skipped by the merge.  Empty
    notes are forwarded by the tool (it only tests [is not None]) and then
    skipped by the client, so the notes keep their server-side value.
    After an update, each of title, notes and status holds either what
    the server had or a non-empty string; and a key the server had can
    only be missing from the written record when it is [due] and the
    request said ["clear"]. *)
Theorem update_task_skips_falsy_values
    (input : UpdateTaskInput) (st st1 : St) (log : list call)
    (task : dict json) :
  respond st (TasksGet (ut_tasklist_id input) (ut_task_id input))
  = (st1, inr task) ->
  let body := written task input in
  snd (fst (Tools.update_task repr respond input (st, log)))
  = log ++ [TasksGet (ut_tasklist_id input) (ut_task_id input);
            TasksUpdate (ut_tasklist_id input) (ut_task_id input) body]
  /\ (ut_notes input = Some [] ->
        dict_get (build_updates input) (lit "notes") = Some []
        /\ dict_get body (lit "notes") = dict_get task (lit "notes"))
  /\ (forall (updates : dict str) (f : str),
        In f [lit "title"; lit "notes"; lit "status"] ->
        dict_get updates f = Some [] ->
        dict_get (apply_updates task updates) f = dict_get task f)
  /\ (forall updates : dict str,
        dict_get updates (lit "due_date") = Some [] ->
        dict_get (apply_updates task updates) (lit "due")
        = dict_get task (lit "due"))
  /\ (forall f,
        In f [lit "title"; lit "notes"; lit "status"] ->
        dict_get body f = dict_get task f
        \/ exists s, s <> [] /\ dict_get body f = Some (JStr s))
  /\ (forall k,
        dict_get task k <> None -> dict_get body k = None ->
        k = lit "due" /\ ut_due_date input = Some (lit "clear")).
Proof.
  intros G body. split; [exact (update_task_log input _ _ _ _ G)|].
  unfold body. repeat split.
  - destruct (build_updates_get input) as (_ & N & _). now rewrite N.
  - rewrite written_get, H. reflexivity.
  - intros updates f [<- | [<- | [<- | []]]] E;
      rewrite apply_updates_get, E; reflexivity.
  - intros updates E. rewrite apply_updates_get, E. reflexivity.
  - intros f [<- | [<- | [<- | []]]]; rewrite written_get.
    + change (str_eqb (lit "due") (lit "title")) with false.
      change (str_eqb (lit "status") (lit "title")) with false.
      change (str_eqb (lit "notes") (lit "title")) with false.
      change (str_eqb (lit "title") (lit "title")) with true. cbv iota.
      destruct (ut_title input) as [[|c r]|]; cbn [nonempty]; auto.
      right. exists (c :: r). split; [discriminate | reflexivity].
    + change (str_eqb (lit "due") (lit "notes")) with false.
      change (str_eqb (lit "status") (lit "notes")) with false.
      change (str_eqb (lit "notes") (lit "notes")) with true. cbv iota.
      destruct (ut_notes input) as [[|c r]|]; cbn [nonempty]; auto.
      right. exists (c :: r). split; [discriminate | reflexivity].
    + change (str_eqb (lit "due") (lit "status")) with false.
      change (str_eqb (lit "status") (lit "status")) with true. cbv iota.
      destruct (ut_status input) as [s|]; auto.
      right. exists (TaskStatus_value s).
      split; [destruct s; discriminate | reflexivity].
  - rewrite written_get in H0.
    destruct (str_eqb (lit "due") k) eqn:K.
    + now apply str_eqb_eq in K.
    + exfalso.
      destruct (str_eqb (lit "status") k).
      { destruct (ut_status input); [discriminate | contradiction]. }
      destruct (str_eqb (lit "notes") k).
      { destruct (nonempty (ut_notes input)); [discriminate | contradiction]. }
      destruct (str_eqb (lit "title") k); [|contradiction].
      destruct (nonempty (ut_title input)); [discriminate | contradiction].
  - rewrite written_get in H0.
    destruct (str_eqb (lit "due") k) eqn:K.
    + destruct (ut_due_date input) as [[|c r]|]; cbn [nonempty] in H0;
        try contradiction.
      destruct (str_eqb (c :: r) (lit "clear")) eqn:C; [|discriminate].
      apply str_eqb_eq in C. now rewrite C.
    + exfalso.
      destruct (str_eqb (lit "status") k).
      { destruct (ut_status input); [discriminate | contradiction]. }
      destruct (str_eqb (lit "notes") k).
      { destruct (nonempty (ut_notes input)); [discriminate | contradiction]. }
      destruct (str_eqb (lit "title") k); [|contradiction].
      destruct (nonempty (ut_title input)); [discriminate | contradiction].
Qed.

End UpdateTask.

Lemma update_task_keeps_unmentioned_fields_witness :
  snd (fst (Tools.update_task (fun _ => []) Demo.respond complete_and_clear start))
  = [TasksGet (lit "B") (lit "w1");
     TasksUpdate (lit "B") (lit "w1") (written stored_task complete_and_clear)]
  /\ dict_get (written stored_task complete_and_clear) (lit "title")
     = Some (JStr (lit "Quarterly report"))
  /\ dict_get (written stored_task complete_and_clear) (lit "links")
     = Some (JList []).
Proof.
  destruct (update_task_keeps_unmentioned_fields (fun _ => []) nat Demo.respond
              complete_and_clear 0%nat 1%nat [] stored_task eq_refl)
    as (L & F & _).
  split; [exact L|].
  split; apply F; reflexivity.
Defined.

Lemma update_task_skips_falsy_values_witness :
  dict_get (written stored_task complete_and_clear) (lit "notes")
  = Some (JStr (lit "Send to Milkman Ltd"))
  /\ dict_get (written stored_task complete_and_clear) (lit "due") = None.
Proof.
  destruct (update_task_skips_falsy_values (fun _ => []) nat Demo.respond
              complete_and_clear 0%nat 1%nat [] stored_task eq_refl)
    as (_ & N & _).
  split.
  - apply N. reflexivity.
  - reflexivity.
Defined.

(* ================================================================== *)
(** * quick_add_task *)
(* ================================================================== *)

Lemma lstrip_idem (s : str) : lstrip (lstrip s) = lstrip s.
Proof.
  induction s as [|c r IH]; [reflexivity|].
  cbn [lstrip]. destruct (is_space c) eqn:E; [exact IH|].
  cbn [lstrip]. now rewrite E.
Qed.

Lemma lstrip_no_leading_space (s : str) : no_leading_space (lstrip s).
Proof.
  induction s as [|c r IH]; [exact I|].
  cbn [lstrip]. destruct (is_space c) eqn:E; [exact IH | exact E].
Qed.

Lemma lstrip_fixed (s : str) : no_leading_space s -> lstrip s = s.
Proof. destruct s as [|c r]; [reflexivity|]. cbn. now intros ->. Qed.

Lemma lstrip_snoc (s : str) (c : N) :
  is_space c = false -> lstrip (s ++ [c]) = lstrip s ++ [c].
Proof.
  intro E. induction s as [|x r IH]; cbn [app lstrip].
  - now rewrite E.
  - destruct (is_space x); [exact IH | reflexivity].
Qed.

Lemma rstrip_no_leading_space (s : str) :
  no_leading_space s -> no_leading_space (rstrip s).
Proof.
  destruct s as [|c r]; [intros _; exact I|].
  cbn [no_leading_space]. intro E. unfold rstrip. cbn [rev].
  rewrite (lstrip_snoc _ _ E), rev_app_distr. exact E.
Qed.

Lemma strip_idem (s : str) : strip (strip s) = strip s.
Proof.
  unfold strip.
  rewrite (lstrip_fixed (rstrip (lstrip s)))
    by (apply rstrip_no_leading_space, lstrip_no_leading_space).
  unfold rstrip. now rewrite rev_involutive, lstrip_idem.
Qed.

Lemma isoformat_nonempty (d : date) :
  nonempty (Some (isoformat d)) = Some (isoformat d).
Proof.
  apply nonempty_Some. unfold isoformat, format_ymd.
  destruct (zero_pad 4 (year d)); discriminate.
Qed.

Section QuickAdd.

Variable ucd_lower : str -> str.
Variable repr : json -> str.
Variable St : Type.
Variable respond : St -> call -> St * (exn + dict json).

(** The one request a run sends once the text is parsed. *)
Lemma quick_add_task_log (input : QuickAddTaskInput) (today : date)
    (st : St) (log : list call) (text : str) (due : option str) :
  quick_add_parse ucd_lower (qa_text input) today = inr (text, due) ->
  snd (fst (quick_add_task ucd_lower repr respond input today (st, log)))
  = log ++ [TasksInsert (qa_tasklist_id input)
              (create_body (strip text) None due) None None].
Proof.
  intro P.
  unfold quick_add_task, tool, bind, lift, create_task, execute, ret.
  rewrite P.
  destruct (respond st _) as [st' [e|result]]; reflexivity.
Qed.

(** C4, as the code has it.  The lower-cased text is searched for
    "tomorrow", then "today", then "next week", and the first phrase found
    decides: the due date sent is the current date plus one day, the
    current date, or the current date plus seven days (where that day
    exists in the calendar), and the title sent is the lower-cased text
    with the phrase removed and the surrounding whitespace stripped.  When
    no phrase is found the title sent is the text with the surrounding
    whitespace stripped, its case kept, and no due date is sent. *)
Theorem quick_add_task_first_phrase_wins
    (input : QuickAddTaskInput) (today : date) (st : St) (log : list call) :
  let lowered := lower ucd_lower (qa_text input) in
  let sent (body : dict json) :=
    snd (fst (quick_add_task ucd_lower repr respond input today (st, log)))
    = log ++ [TasksInsert (qa_tasklist_id input) body None None] in
  (contains (lit "tomorrow") lowered = true ->
   forall d, date_add_days today 1 = Some d ->
   sent [(lit "title", JStr (strip (replace (lit "tomorrow") [] lowered)));
         (lit "due", JStr (isoformat d ++ lit "T00:00:00.000Z"))])
  /\ (contains (lit "tomorrow") lowered = false ->
      contains (lit "today") lowered = true ->
      sent [(lit "title", JStr (strip (replace (lit "today") [] lowered)));
            (lit "due", JStr (isoformat today ++ lit "T00:00:00.000Z"))])
  /\ (contains (lit "tomorrow") lowered = false ->
      contains (lit "today") lowered = false ->
      contains (lit "next week") lowered = true ->
      forall d, date_add_days today 7 = Some d ->
      sent [(lit "title", JStr (strip (replace (lit "next week") [] lowered)));
            (lit "due", JStr (isoformat d ++ lit "T00:00:00.000Z"))])
  /\ (contains (lit "tomorrow") lowered = false ->
      contains (lit "today") lowered = false ->
      contains (lit "next week") lowered = false ->
      sent [(lit "title", JStr (strip (qa_text input)))]).
Proof.
  intros lowered sent. unfold sent. repeat split.
  - intros T d D.
    rewrite (quick_add_task_log input today st log
               (strip (replace (lit "tomorrow") [] lowered))
               (Some (isoformat d))).
    + unfold create_body. rewrite strip_idem, isoformat_nonempty. reflexivity.
    + unfold quick_add_parse, plus_days. fold lowered. now rewrite T, D.
  - intros T Y.
    rewrite (quick_add_task_log input today st log
               (strip (replace (lit "today") [] lowered))
               (Some (isoformat today))).
    + unfold create_body. rewrite strip_idem, isoformat_nonempty. reflexivity.
    + unfold quick_add_parse. fold lowered. now rewrite T, Y.
  - intros T Y W d D.
    rewrite (quick_add_task_log input today st log
               (strip (replace (lit "next week") [] lowered))
               (Some (isoformat d))).
    + unfold create_body. rewrite strip_idem, isoformat_nonempty. reflexivity.
    + unfold quick_add_parse, plus_days. fold lowered. now rewrite T, Y, W, D.
  - intros T Y W.
    rewrite (quick_add_task_log input today st log (qa_text input) None).
    + reflexivity.
    + unfold quick_add_parse. fold lowered. now rewrite T, Y, W.
Qed.

End QuickAdd.

Lemma quick_add_task_first_phrase_wins_witness :
  snd (fst (quick_add_task (fun s => s) (fun _ => []) Demo.respond
              (quick (lit "Buy milk tomorrow")) feb_28 start))
  = [TasksInsert (lit "@default")
       [(lit "title", JStr (lit "buy milk"));
        (lit "due", JStr (lit "2024-02-29T00:00:00.000Z"))] None None].
Proof.
  pose proof (quick_add_task_first_phrase_wins (fun s => s) (fun _ => []) nat
                Demo.respond (quick (lit "Buy milk tomorrow")) feb_28 0%nat [])
    as H.
  cbv zeta in H. destruct H as (H & _).
  exact (H eq_refl (mk_date 2024 2 29) eq_refl).
Defined.

(** C4 as stated fails where it says that a text without a phrase is
    used as the title unmodified: the title sent for a text that ends
    with a space is the text without that space. *)
Lemma quick_add_task_strips_unmatched_title :
  let text := lit "Meeting Friday " in
  let lowered := lower (fun s => s) text in
  contains (lit "tomorrow") lowered = false
  /\ contains (lit "today") lowered = false
  /\ contains (lit "next week") lowered = false
  /\ snd (fst (quick_add_task (fun s => s) (fun _ => []) Demo.respond
                 (quick text) feb_28 start))
     = [TasksInsert (lit "@default")
          [(lit "title", JStr (lit "Meeting Friday"))] None None]
  /\ lit "Meeting Friday" <> text.
Proof.
  cbv zeta. repeat split; try reflexivity. discriminate.
Qed.

(** The two inputs the specification names. *)
Example quick_add_buy_milk_tomorrow (ucd_lower : str -> str) (today d : date) :
  date_add_days today 1 = Some d ->
  quick_add_parse ucd_lower (lit "Buy milk tomorrow") today
  = inr (lit "buy milk", Some (isoformat d)).
Proof.
  intro D. unfold quick_add_parse, plus_days.
  change (lower ucd_lower (lit "Buy milk tomorrow"))
    with (lit "buy milk tomorrow").
  change (contains (lit "tomorrow") (lit "buy milk tomorrow")) with true.
  cbv iota. rewrite D. reflexivity.
Qed.

Example quick_add_meeting_friday (ucd_lower : str -> str) (today : date) :
  quick_add_parse ucd_lower (lit "Meeting Friday") today
  = inr (lit "Meeting Friday", None).
Proof. reflexivity. Qed.

(* ================================================================== *)
(** * bulk_create_tasks *)
(* ================================================================== *)

Lemma fold_left_bullets {A} (line : A -> str) (l : list A) (init : str) :
  fold_left (fun out x => out ++ line x) l init = init ++ concat (map line l).
Proof.
  revert init. induction l as [|x r IH]; intro init; cbn.
  - now rewrite app_nil_r.
  - now rewrite IH, app_assoc.
Qed.

Lemma bulk_report_sections (created failed : list str) :
  bulk_report created failed
  = lit "# Bulk Task Creation Results" ++ nl ++ nl
    ++ CHECK_MARK ++ lit " **Successfully created:** "
    ++ str_of_Z (Z.of_nat (length created)) ++ lit " tasks" ++ nl
    ++ created_section created ++ failed_section failed.
Proof.
  unfold bulk_report, created_section, failed_section, bullet.
  destruct created as [|c cs], failed as [|f fs];
    rewrite ?(fold_left_bullets (fun x => lit "- " ++ x ++ nl));
    try destruct (10 <? length (c :: cs))%nat;
    rewrite ?(fold_left_bullets (fun x => lit "- " ++ x ++ nl));
    repeat rewrite <- app_assoc; rewrite ?app_nil_r; reflexivity.
Qed.

Lemma succeeded_cons (t : str) (x : option exn) (os : list (str * option exn)) :
  succeeded ((t, x) :: os)
  = match x with None => [t] | Some _ => [] end ++ succeeded os.
Proof. reflexivity. Qed.

Lemma failures_cons (t : str) (x : option exn) (os : list (str * option exn)) :
  failures ((t, x) :: os)
  = match x with
    | None => []
    | Some e => [t ++ lit ": " ++ exn_str e]
    end ++ failures os.
Proof. reflexivity. Qed.

Section BulkCreate.

Variable St : Type.
Variable respond : St -> call -> St * (exn + dict json).

Lemma create_each_outcomes (input : BulkCreateTasksInput) (titles : list str) :
  forall (created failed : list str) (st : St) (log : list call),
  exists st',
    create_each respond input titles created failed (st, log)
    = ((st', log ++ map (insert_request input) titles),
       inr (created ++ succeeded (outcomes respond input st titles),
            failed ++ failures (outcomes respond input st titles))).
Proof.
  induction titles as [|t rest IH]; intros created failed st log.
  - exists st. cbn. now rewrite !app_nil_r.
  - cbn [create_each outcomes map].
    unfold bind at 1. unfold try_except, bind, create_task, execute, ret.
    fold (insert_request input t).
    destruct (respond st (insert_request input t)) as [st1 [e|result]];
      cbn [fst snd].
    + destruct (IH created (failed ++ [t ++ lit ": " ++ exn_str e]) st1
                  (log ++ [insert_request input t])) as [st' E].
      exists st'. rewrite E, succeeded_cons, failures_cons.
      now rewrite <- !app_assoc.
    + destruct (IH (created ++ [t]) failed st1
                  (log ++ [insert_request input t])) as [st' E].
      exists st'. rewrite E, succeeded_cons, failures_cons.
      now rewrite <- !app_assoc.
Qed.

Lemma outcomes_split (input : BulkCreateTasksInput) (titles : list str) :
  forall st : St,
    map fst (outcomes respond input st titles) = titles
    /\ (length (succeeded (outcomes respond input st titles))
        + length (failures (outcomes respond input st titles))
        = length titles)%nat.
Proof.
  induction titles as [|t rest IH]; intro st; [split; reflexivity|].
  cbn [outcomes]. destruct (respond st (insert_request input t)) as [st1 r].
  destruct (IH st1) as [M L]. split.
  - cbn. now rewrite M.
  - rewrite succeeded_cons, failures_cons, !length_app.
    unfold str in *. destruct r; cbn [length]; lia.
Qed.

(** What [bulk_create_tasks] does for every batch.  Every title is sent
    for creation, in input order, whatever the earlier ones did; the
    titles that were created and the failures (title and message) are
    counted, none is lost.  The report names the first ten created titles,
    followed by "... and N more" when there are more than ten; it gives
    the number of failures and names the first five, and there it ends. *)
Theorem bulk_create_tasks_attempts_all
    (input : BulkCreateTasksInput) (st : St) (log : list call) :
  let os := outcomes respond input st (bc_tasks input) in
  let run := bulk_create_tasks respond input (st, log) in
  snd (fst run) = log ++ map (insert_request input) (bc_tasks input)
  /\ map fst os = bc_tasks input
  /\ (length (succeeded os) + length (failures os)
      = length (bc_tasks input))%nat
  /\ snd run
     = lit "# Bulk Task Creation Results" ++ nl ++ nl
       ++ CHECK_MARK ++ lit " **Successfully created:** "
       ++ str_of_Z (Z.of_nat (length (succeeded os))) ++ lit " tasks" ++ nl
       ++ created_section (succeeded os) ++ failed_section (failures os).
Proof.
  intros os run.
  destruct (create_each_outcomes input (bc_tasks input) [] [] st log)
    as [st' E].
  destruct (outcomes_split input (bc_tasks input) st) as [M L].
  assert (R : run = ((st', log ++ map (insert_request input) (bc_tasks input)),
                     bulk_report (succeeded os) (failures os))).
  { unfold run, bulk_create_tasks, tool, bind, ret. rewrite E. reflexivity. }
  rewrite R. cbn [fst snd].
  repeat split; auto. apply bulk_report_sections.
Qed.

End BulkCreate.

(** With one of three titles failing, all three are sent and two
    successes and one failure are reported. *)
Example bulk_create_one_of_three_fails :
  bulk_create_tasks Demo.respond one_of_three_fails start
  = ((3%nat, [insert_request one_of_three_fails (lit "a");
              insert_request one_of_three_fails (lit "bad");
              insert_request one_of_three_fails (lit "c")]),
     lit "# Bulk Task Creation Results" ++ nl ++ nl
     ++ CHECK_MARK ++ lit " **Successfully created:** 2 tasks" ++ nl
     ++ nl ++ lit "**Created tasks:**" ++ nl
     ++ lit "- a" ++ nl ++ lit "- c" ++ nl
     ++ nl ++ CROSS_MARK ++ lit " **Failed:** 1 tasks" ++ nl
     ++ lit "- bad: 503 backend error" ++ nl).
Proof. vm_compute. reflexivity. Qed.

(** Eleven successes: ten are named and the eleventh is counted. *)
Example bulk_create_eleven_succeed :
  snd (bulk_create_tasks Demo.respond eleven_succeed start)
  = lit "# Bulk Task Creation Results" ++ nl ++ nl
    ++ CHECK_MARK ++ lit " **Successfully created:** 11 tasks" ++ nl
    ++ nl ++ lit "**Created tasks:**" ++ nl
    ++ concat (repeat (lit "- ok" ++ nl) 10)
    ++ lit "... and 1 more" ++ nl.
Proof. vm_compute. reflexivity. Qed.

(** C6, at a batch of six titles that all fail.  The report gives the
    number of failures and names the first five; the "... and N more"
    line that the block of created titles ends with is missing from the
    block of failures, so the sixth failure is not accounted for by
    name or by count of the ones left out. *)
Lemma bulk_create_tasks_no_failure_overflow :
  snd (bulk_create_tasks Demo.respond six_fail start)
  = lit "# Bulk Task Creation Results" ++ nl ++ nl
    ++ CHECK_MARK ++ lit " **Successfully created:** 0 tasks" ++ nl
    ++ nl ++ CROSS_MARK ++ lit " **Failed:** 6 tasks" ++ nl
    ++ lit "- a: 404 list not found" ++ nl
    ++ lit "- b: 404 list not found" ++ nl
    ++ lit "- c: 404 list not found" ++ nl
    ++ lit "- d: 404 list not found" ++ nl
    ++ lit "- e: 404 list not found" ++ nl
  /\ contains (lit "more")
       (snd (bulk_create_tasks Demo.respond six_fail start)) = false.
Proof. split; vm_compute; reflexivity. Qed.

(* ================================================================== *)
(** * search_tasks *)
(* ================================================================== *)

Lemma firstn_In_incl {A} (n : nat) (l : list A) (x : A) :
  In x (firstn n l) -> In x l.
Proof.
  revert l; induction n as [|n IH]; intros [|y l]; cbn; try tauto.
  intros [-> | H]; [now left | right; now apply IH].
Qed.

Lemma firstn_past {A} (n : nat) (acc rest : list A) :
  (length acc <= n)%nat ->
  firstn n (acc ++ rest) = acc ++ firstn (n - length acc) rest.
Proof. intro L. now rewrite firstn_app, (firstn_all2 acc) by lia. Qed.

(** Cutting a list to [n] items can be done early on one of its parts. *)
Lemma firstn_budget {A} (n : nat) (acc contrib rest : list A) :
  (length acc < n)%nat ->
  firstn n (acc ++ contrib ++ rest)
  = firstn n ((acc ++ firstn (n - length acc) contrib) ++ rest)
  /\ ((n <= length (acc ++ firstn (n - length acc) contrib))%nat ->
      firstn n (acc ++ contrib ++ rest)
      = acc ++ firstn (n - length acc) contrib).
Proof.
  intro L.
  assert (Cut : length (firstn (n - length acc) contrib)
                = Nat.min (n - length acc) (length contrib))
    by apply length_firstn.
  rewrite (firstn_past n acc (contrib ++ rest)) by lia.
  rewrite <- (app_assoc acc).
  rewrite (firstn_past n acc (firstn (n - length acc) contrib ++ rest)) by lia.
  rewrite length_app, Cut.
  rewrite (firstn_app (n - length acc) contrib rest).
  rewrite (firstn_app (n - length acc) (firstn (n - length acc) contrib) rest).
  rewrite firstn_firstn, Nat.min_id, Cut.
  destruct (Nat.le_gt_cases (n - length acc) (length contrib)) as [Long|Short].
  - rewrite Nat.min_l by lia.
    replace (n - length acc - length contrib)%nat with 0%nat by lia.
    replace (n - length acc - (n - length acc))%nat with 0%nat by lia.
    rewrite !firstn_O. split; [reflexivity|]. intros _. now rewrite app_nil_r.
  - rewrite Nat.min_r by lia. split; [reflexivity | lia].
Qed.

Section SearchFacts.

Variable ucd_lower : str -> str.
Variable repr : json -> str.
Variable St : Type.
Variable respond : St -> call -> St * (exn + dict json).
Variable input : SearchTasksInput.

Hypothesis valid_input : valid_SearchTasksInput input = true.

(** The service answers a request for tasks, when it answers, with a
    page of the API's shape. *)
Hypothesis schema :
  forall s p s' r, respond s (TasksList p) = (s', inr r) ->
                   wf_tasks_result r = true.

Lemma limit_positive : (1 <= limit input)%nat.
Proof.
  unfold valid_SearchTasksInput in valid_input.
  apply andb_true_iff in valid_input as [H _].
  apply andb_true_iff in H as [_ H]. apply Z.leb_le in H.
  unfold limit. lia.
Qed.

Lemma limit_test (m : list (dict json)) :
  (st_max_results input <=? Z.of_nat (length m))%Z
  = (limit input <=? length m)%nat.
Proof.
  pose proof limit_positive as P. unfold limit in *.
  destruct (Z.leb_spec (st_max_results input) (Z.of_nat (length m)));
    destruct (Nat.leb_spec (Z.to_nat (st_max_results input)) (length m));
    try reflexivity; lia.
Qed.

Lemma task_matches_wf (d : dict json) :
  wf_task (JDict d) = true ->
  task_matches ucd_lower (lower ucd_lower (st_query input)) d
  = inr (matches ucd_lower (st_query input) d).
Proof.
  unfold wf_task, str_or_absent, task_matches, get_default, matches,
    ci_substring, text_field.
  destruct (dict_get d (lit "title")) as [[]|];
    destruct (dict_get d (lit "notes")) as [[]|];
    cbn; intro H; try discriminate H; reflexivity.
Qed.

(** The inner loop on a well-formed page, for a list that has a title:
    it appends the matches until the limit is reached. *)
Lemma scan_tasks_found (task_list title : json) (tasks : list json) :
  getitem task_list (lit "title") = inr title ->
  forallb wf_task tasks = true ->
  forall acc : list (dict json),
    (length acc < limit input)%nat ->
    scan_tasks ucd_lower input (lower ucd_lower (st_query input)) task_list
      tasks acc
    = (acc ++ firstn (limit input - length acc)
                (map (annotate title)
                   (filter (matches ucd_lower (st_query input))
                      (dicts_of tasks))),
       None).
Proof.
  intros T. induction tasks as [|t rest IH]; intros W acc L.
  - cbn. now rewrite firstn_nil, app_nil_r.
  - cbn [forallb] in W. apply andb_true_iff in W as [Wt Wr].
    destruct t as [| | | |l|d]; try discriminate Wt.
    cbn [scan_tasks as_dict]. rewrite (task_matches_wf d Wt).
    change (dicts_of (JDict d :: rest)) with (d :: dicts_of rest).
    cbn [filter].
    destruct (matches ucd_lower (st_query input) d).
    + rewrite T, limit_test. cbn [map].
      destruct (limit input - length acc)%nat as [|k] eqn:K; [lia|].
      cbn [firstn].
      destruct (Nat.leb_spec (limit input)
                  (length (acc ++ [dict_set d (lit "_list_title") title])))
        as [Full|More].
      * rewrite length_app in Full. cbn [length] in Full.
        assert (k = 0%nat) as -> by lia. reflexivity.
      * rewrite (IH Wr _ More). rewrite length_app in *. cbn [length] in *.
        replace (limit input - (length acc + 1))%nat with k by lia.
        now rewrite <- app_assoc.
    + exact (IH Wr acc L).
Qed.

(** For a list without a title nothing is kept. *)
Lemma scan_tasks_untitled (task_list : json) (e : exn) (tasks : list json) :
  getitem task_list (lit "title") = inl e ->
  forallb wf_task tasks = true ->
  forall acc : list (dict json),
    fst (scan_tasks ucd_lower input (lower ucd_lower (st_query input))
           task_list tasks acc) = acc.
Proof.
  intros T. induction tasks as [|t rest IH]; intros W acc; [reflexivity|].
  cbn [forallb] in W. apply andb_true_iff in W as [Wt Wr].
  destruct t as [| | | |l|d]; try discriminate Wt.
  cbn [scan_tasks as_dict]. rewrite (task_matches_wf d Wt).
  destruct (matches ucd_lower (st_query input) d).
  - now rewrite T.
  - exact (IH Wr acc).
Qed.

(** One turn of the outer loop. *)
Lemma search_one_list_step (task_list : json) (acc : list (dict json))
    (st : St) (log : list call) :
  (length acc < limit input)%nat ->
  exists st' calls contrib o,
    try_except
      (search_one_list ucd_lower respond input
         (lower ucd_lower (st_query input)) task_list acc)
      (fun e => ret (acc, Some e)) (st, log)
    = ((st', log ++ calls),
       inr (acc ++ firstn (limit input - length acc) contrib, o))
    /\ Forall (is_tasks_request input) calls
    /\ (length calls <= 1)%nat
    /\ (forall rest,
          all_matches ucd_lower respond input st (task_list :: rest)
          = contrib ++ all_matches ucd_lower respond input st' rest)
    /\ (o <> None -> contrib = []).
Proof.
  intro L.
  unfold try_except, search_one_list, bind, lift, list_tasks, execute, ret.
  cbn [all_matches].
  destruct (getitem task_list (lit "id")) as [e|id].
  { exists st, [], [], (Some e). rewrite firstn_nil, !app_nil_r.
    repeat split; auto. }
  change (TasksList (build_params id (search_kwargs input)))
    with (tasks_request input id).
  destruct (respond st (tasks_request input id)) as [st1 answer] eqn:R.
  destruct answer as [e|result].
  { exists st1, [tasks_request input id], [], (Some e).
    rewrite firstn_nil, !app_nil_r.
    repeat split; auto. constructor; [now exists id | constructor]. }
  pose proof (schema _ _ _ _ R) as W. unfold wf_tasks_result in W.
  unfold list_matches, items_of.
  destruct (get_default result (lit "items") (JList [])) as [| | | |l|d];
    try discriminate W.
  cbn [py_iter].
  destruct (getitem task_list (lit "title")) as [e|title] eqn:T.
  - pose proof (scan_tasks_untitled task_list e l T W acc) as S.
    destruct (scan_tasks ucd_lower input (lower ucd_lower (st_query input))
                task_list l acc) as [m o].
    cbn [fst] in S. subst m.
    exists st1, [tasks_request input id], [], o.
    rewrite firstn_nil, !app_nil_r.
    repeat split; auto. constructor; [now exists id | constructor].
  - rewrite (scan_tasks_found task_list title l T W acc L).
    exists st1, [tasks_request input id],
      (map (annotate title)
         (filter (matches ucd_lower (st_query input)) (dicts_of l))), None.
    repeat split; auto.
    + constructor; [now exists id | constructor].
    + congruence.
Qed.

(** For a list record with an id the warning of the handler is built
    without an exception. *)
Lemma warning_has_id (task_list : json) (e : exn) (w : world St) :
  has_id task_list = true -> warning task_list e w = (w, inr tt).
Proof.
  unfold has_id, warning, bind, lift, ret.
  destruct (getitem task_list (lit "id")); [discriminate | reflexivity].
Qed.

(** The outer loop: the first [limit] matches of all lists. *)
Lemma search_lists_spec (task_lists : list json) :
  Forall (fun task_list => has_id task_list = true) task_lists ->
  forall (acc : list (dict json)) (st : St) (log : list call),
    (length acc < limit input)%nat ->
    exists st' calls,
      search_lists ucd_lower respond input (lower ucd_lower (st_query input))
        task_lists acc (st, log)
      = ((st', log ++ calls),
         inr (firstn (limit input)
                (acc ++ all_matches ucd_lower respond input st task_lists)))
      /\ Forall (is_tasks_request input) calls
      /\ (length calls <= length task_lists)%nat.
Proof.
  induction 1 as [|task_list rest Id Ids IH]; intros acc st log L.
  - exists st, []. cbn. rewrite !app_nil_r.
    rewrite firstn_all2 by lia.
    split; [reflexivity | split; [constructor | lia]].
  - destruct (search_one_list_step task_list acc st log L)
      as (st1 & calls1 & contrib & o & Step & Calls1 & Len1 & Spec & Exc).
    cbn [search_lists]. unfold bind at 1. rewrite Step.
    rewrite (Spec rest).
    destruct (firstn_budget (limit input) acc contrib
                (all_matches ucd_lower respond input st1 rest) L)
      as [Same Full].
    assert (Go :
      (length (acc ++ firstn (limit input - length acc) contrib)
       < limit input)%nat ->
      exists st' calls,
        search_lists ucd_lower respond input
          (lower ucd_lower (st_query input)) rest
          (acc ++ firstn (limit input - length acc) contrib)
          (st1, log ++ calls1)
        = ((st', log ++ calls),
           inr (firstn (limit input)
                  (acc ++ contrib
                   ++ all_matches ucd_lower respond input st1 rest)))
        /\ Forall (is_tasks_request input) calls
        /\ (length calls <= length (task_list :: rest))%nat).
    { intro More.
      destruct (IH _ st1 (log ++ calls1) More)
        as (st2 & calls2 & E & Calls2 & Len2).
      exists st2, (calls1 ++ calls2). rewrite E, Same, app_assoc.
      split; [reflexivity|]. split; [now apply Forall_app|].
      rewrite length_app. cbn [length]. lia. }
    destruct o as [e|].
    + assert (contrib = []) as -> by (apply Exc; discriminate).
      rewrite firstn_nil, app_nil_r in *. cbn [app] in *.
      unfold bind at 1. rewrite (warning_has_id task_list e _ Id).
      apply Go. exact L.
    + rewrite limit_test.
      destruct (Nat.leb_spec (limit input)
                  (length (acc ++ firstn (limit input - length acc) contrib)))
        as [Stop|More].
      * exists st1, calls1. unfold ret. rewrite (Full Stop).
        split; [reflexivity|]. split; [exact Calls1|]. cbn [length]. lia.
      * apply Go. exact More.
Qed.

(** Every match carries the title of one of the lists. *)
Lemma all_matches_annotated (task_lists : list json) :
  forall st : St,
    Forall (fun r =>
              exists task_list title task,
                In task_list task_lists
                /\ getitem task_list (lit "title") = inr title
                /\ r = dict_set task (lit "_list_title") title)
      (all_matches ucd_lower respond input st task_lists).
Proof.
  induction task_lists as [|task_list rest IH]; intro st; [constructor|].
  assert (Rest : forall st',
    Forall (fun r =>
              exists tl title task,
                In tl (task_list :: rest)
                /\ getitem tl (lit "title") = inr title
                /\ r = dict_set task (lit "_list_title") title)
      (all_matches ucd_lower respond input st' rest)).
  { intro st'. eapply Forall_impl; [|exact (IH st')].
    intros r (tl & title & task & I & T & E).
    exists tl, title, task. repeat split; auto. now right. }
  cbn [all_matches].
  destruct (getitem task_list (lit "id")) as [e|id]; [apply Rest|].
  destruct (respond st (tasks_request input id)) as [st1 answer].
  apply Forall_app. split; [|apply Rest].
  unfold list_matches.
  destruct answer as [e|result]; [constructor|].
  destruct (getitem task_list (lit "title")) as [e|title] eqn:T; [constructor|].
  apply Forall_forall. intros r I. apply in_map_iff in I as (task & <- & _).
  exists task_list, title, task. repeat split; auto. now left.
Qed.

(** The run of [search_matches] once the lists are fetched. *)
Lemma search_matches_spec (st st1 : St) (log : list call)
    (lists_result : dict json) (task_lists : list json) :
  respond st (TasklistsList 50 None) = (st1, inr lists_result) ->
  py_iter (get_default lists_result (lit "items") (JList [])) = inr task_lists ->
  Forall (fun task_list => has_id task_list = true) task_lists ->
  exists st' calls,
    search_matches ucd_lower respond input (st, log)
    = ((st', log ++ TasklistsList 50 None :: calls),
       inr (firstn (limit input)
              (all_matches ucd_lower respond input st1 task_lists)))
    /\ Forall (is_tasks_request input) calls
    /\ (length calls <= length task_lists)%nat.
Proof.
  intros R I Ids.
  pose proof limit_positive as P.
  destruct (search_lists_spec task_lists Ids [] st1
              (log ++ [TasklistsList 50 None]))
    as (st' & calls & E & C); [cbn; lia|].
  exists st', calls. split; [|exact C].
  unfold search_matches, bind, list_tasklists, execute, lift.
  rewrite R, I, E. cbn [app]. now rewrite <- app_assoc.
Qed.

(** C5.  Once the task lists are fetched (one request, for at most 50
    lists), each list record carrying its id as the records of the API
    do, the search goes through them in order and asks for the tasks of
    each (at most 100, completed ones only when requested); a list whose
    tasks cannot be fetched contributes nothing and the search goes on.
    What is returned is the first [max_results] of the tasks, in list
    order then task order, whose title or notes contains the query, case
    ignored, each with the title of its list; so never more than
    [max_results].  At most one request for tasks is sent per list. *)
Theorem search_tasks_returns_first_matches (st st1 : St) (log : list call)
    (lists_result : dict json) (task_lists : list json) :
  respond st (TasklistsList 50 None) = (st1, inr lists_result) ->
  py_iter (get_default lists_result (lit "items") (JList [])) = inr task_lists ->
  Forall (fun task_list => has_id task_list = true) task_lists ->
  let found :=
    firstn (limit input) (all_matches ucd_lower respond input st1 task_lists) in
  exists st' calls,
    search_matches ucd_lower respond input (st, log)
    = ((st', log ++ TasklistsList 50 None :: calls), inr found)
    /\ search_tasks ucd_lower repr respond input (st, log)
       = ((st', log ++ TasklistsList 50 None :: calls),
          search_output repr input found)
    /\ Forall (is_tasks_request input) calls
    /\ (length calls <= length task_lists)%nat
    /\ (Z.of_nat (length found) <= st_max_results input)%Z.
Proof.
  intros R I Ids found.
  destruct (search_matches_spec st st1 log lists_result task_lists R I Ids)
    as (st' & calls & E & C & N).
  exists st', calls. split; [exact E|].
  split; [|split; [exact C | split; [exact N|]]].
  - unfold search_tasks, tool, bind, ret. fold found in E. now rewrite E.
  - pose proof limit_positive as P. unfold found.
    rewrite length_firstn. unfold limit in *. lia.
Qed.

(** C10.  In the json format a search that finds something, over list
    records that carry their ids, returns the dump of the matches as the
    loops left them: each is a task record with the key [_list_title] set
    to the title of its list, so it is the remote record plus that key.
    The key is taken out again only where the other formats render a
    match. *)
Theorem search_tasks_json_keeps_list_title (st st1 : St) (log : list call)
    (lists_result : dict json) (task_lists : list json) :
  respond st (TasklistsList 50 None) = (st1, inr lists_result) ->
  py_iter (get_default lists_result (lit "items") (JList [])) = inr task_lists ->
  Forall (fun task_list => has_id task_list = true) task_lists ->
  st_response_format input = JSON ->
  let found :=
    firstn (limit input) (all_matches ucd_lower respond input st1 task_lists) in
  found <> [] ->
  snd (search_tasks ucd_lower repr respond input (st, log))
  = json_dumps (JList (map JDict found))
  /\ Forall (fun r =>
               exists task_list title task,
                 In task_list task_lists
                 /\ getitem task_list (lit "title") = inr title
                 /\ r = dict_set task (lit "_list_title") title
                 /\ dict_get r (lit "_list_title") = Some title
                 /\ (dict_get task (lit "_list_title") = None -> r <> task))
       found
  /\ (forall format_type output r,
        render_match repr format_type output r
        = output ++ lit "**List:** "
          ++ py_str repr
               (get_default r (lit "_list_title") (JStr (lit "Unknown List")))
          ++ nl
          ++ format_task repr (dict_pop r (lit "_list_title")) format_type
          ++ nl ++ lit "---" ++ nl ++ nl)
  /\ (forall r, dict_get (dict_pop r (lit "_list_title")) (lit "_list_title")
                = @None json).
Proof.
  intros R I Ids F found NE.
  destruct (search_matches_spec st st1 log lists_result task_lists R I Ids)
    as (st' & calls & E & C & N).
  fold found in E. repeat split.
  - unfold search_tasks, tool, bind, ret. rewrite E. cbn [snd].
    unfold search_output. rewrite F.
    destruct found; [congruence | reflexivity].
  - apply Forall_forall. intros r In_r.
    apply firstn_In_incl in In_r.
    pose proof (all_matches_annotated task_lists st1) as A.
    rewrite Forall_forall in A.
    destruct (A r In_r) as (tl & title & task & It & T & ->).
    exists tl, title, task.
    assert (G : dict_get (dict_set task (lit "_list_title") title)
                  (lit "_list_title") = Some title).
    { rewrite dict_get_set. now rewrite str_eqb_refl. }
    repeat split; auto.
    intros Absent Same. rewrite Same in G. congruence.
  - intro r. rewrite dict_get_pop. now rewrite str_eqb_refl.
Qed.

End SearchFacts.

(** The sample service answers requests for tasks with well-formed
    pages. *)
Lemma demo_schema :
  forall s p s' r, Demo.respond s (TasksList p) = (s', inr r) ->
                   wf_tasks_result r = true.
Proof.
  intros s p s' r H. unfold Demo.respond in H.
  destruct (eq_str (lp_tasklist p) (lit "A"));
    [injection H as _ <-; reflexivity|].
  destruct (eq_str (lp_tasklist p) (lit "B"));
    [injection H as _ <-; reflexivity|].
  destruct (eq_str (lp_tasklist p) (lit "@default"));
    [injection H as _ <-; reflexivity | discriminate H].
Qed.

(** Of the three lists only Work holds a task with the query in its
    notes; the tasks of Archive cannot be fetched. *)
Lemma search_tasks_returns_first_matches_witness :
  snd (search_matches (fun s => s) Demo.respond
         (search_for (lit "milk") MARKDOWN) start)
  = inr [[(lit "id", JStr (lit "w1"));
           (lit "title", JStr (lit "Quarterly report"));
           (lit "notes", JStr (lit "Send to Milkman Ltd"));
           (lit "status", JStr (lit "needsAction"));
           (lit "due", JStr (lit "2024-02-29T00:00:00.000Z"));
           (lit "_list_title", JStr (lit "Work"))]].
Proof.
  destruct (search_tasks_returns_first_matches (fun s => s) (fun _ => []) nat
              Demo.respond (search_for (lit "milk") MARKDOWN) eq_refl
              demo_schema 0%nat 1%nat []
              [(lit "items", JList account_lists)] account_lists
              eq_refl eq_refl ltac:(repeat constructor))
    as (st' & calls & E & _).
  unfold start. rewrite E. reflexivity.
Defined.

Lemma search_tasks_json_keeps_list_title_witness :
  snd (search_tasks (fun s => s) (fun _ => []) Demo.respond
         (search_for (lit "milk") JSON) start)
  = json_dumps
      (JList [JDict [(lit "id", JStr (lit "w1"));
                     (lit "title", JStr (lit "Quarterly report"));
                     (lit "notes", JStr (lit "Send to Milkman Ltd"));
                     (lit "status", JStr (lit "needsAction"));
                     (lit "due", JStr (lit "2024-02-29T00:00:00.000Z"));
                     (lit "_list_title", JStr (lit "Work"))]]).
Proof.
  refine (proj1 (search_tasks_json_keeps_list_title (fun s => s) (fun _ => [])
                   nat Demo.respond (search_for (lit "milk") JSON) eq_refl
                   demo_schema 0%nat 1%nat []
                   [(lit "items", JList account_lists)] account_lists
                   eq_refl eq_refl ltac:(repeat constructor) eq_refl _)).
  vm_compute. discriminate.
Defined.

(** The requests of that search: the lists, then the tasks of each list
    in turn, the failing one included. *)
Example search_tasks_requests :
  snd (fst (search_tasks (fun s => s) (fun _ => []) Demo.respond
              (search_for (lit "milk") MARKDOWN) start))
  = [TasklistsList 50 None;
     tasks_request (search_for (lit "milk") MARKDOWN) (JStr (lit "A"));
     tasks_request (search_for (lit "milk") MARKDOWN) (JStr (lit "C"));
     tasks_request (search_for (lit "milk") MARKDOWN) (JStr (lit "B"))].
Proof. vm_compute. reflexivity. Qed.

(* ================================================================== *)
(** * get_task_summary *)
(* ================================================================== *)

Lemma all_dicts_map (tasks : list (dict json)) :
  all_dicts (map JDict tasks) = inr tasks.
Proof.
  induction tasks as [|t r IH]; [reflexivity|].
  cbn [map all_dicts as_dict]. now rewrite IH.
Qed.

Lemma partition_lengths (tasks : list (dict json)) :
  (length (pending_of tasks) + length (completed_of tasks)
   = length tasks)%nat.
Proof.
  unfold pending_of, completed_of.
  induction tasks as [|t r IH]; [reflexivity|].
  cbn [filter]. destruct (is_completed t); cbn [negb length]; lia.
Qed.

Section Summary.

Variable ucd_lower : str -> str.
Variable repr : json -> str.
Variable St : Type.
Variable respond : St -> call -> St * (exn + dict json).

Lemma summary_output_text (input : GetTaskSummaryInput) (title : str)
    (result : dict json) (tasks : list (dict json)) :
  summary_output repr input title result tasks
  = summary_text repr input title result tasks.
Proof.
  unfold summary_output, summary_text, shown_pending, shown_completed.
  set (line := fun task : dict json =>
                 format_task repr task (ts_response_format input) ++ nl).
  change (fun (out : list N) (task : dict json) =>
            out ++ format_task repr task (ts_response_format input) ++ nl)
    with (fun (out : str) (task : dict json) => out ++ line task).
  destruct (pending_of tasks) as [|p ps];
    destruct (ts_include_completed input);
    try destruct (completed_of tasks) as [|c cs];
    destruct (truthy (get_default result (lit "nextPageToken") JNull));
    try change (firstn 20 (p :: ps)) with (p :: firstn 19 ps);
    try change (firstn 10 (c :: cs)) with (c :: firstn 9 cs);
    rewrite ?fold_left_bullets;
    repeat rewrite <- app_assoc; rewrite ?app_nil_l, ?app_nil_r; reflexivity.
Qed.

(** C7.  Where the days around the current date exist in the calendar,
    [get_task_summary] sends one request, for the tasks of the default
    list with the due bounds of the time range: today (today, today),
    tomorrow (today+1, today+1), week (today, today+7), overdue (no lower
    bound, today-1), all (no bounds).  The tasks fetched are split into
    pending (status other than completed) and completed, and the text
    shows the first 20 pending and, when completed tasks are asked for,
    the first 10 completed. *)
Theorem get_task_summary_ranges_and_caps
    (input : GetTaskSummaryInput) (today tomorrow week_end yesterday : date)
    (st : St) (log : list call) :
  date_add_days today 1 = Some tomorrow ->
  date_add_days today 7 = Some week_end ->
  date_add_days today (-1) = Some yesterday ->
  let range :=
    due_range (ts_time_range input) today tomorrow week_end yesterday in
  let run := get_task_summary ucd_lower repr respond input today (st, log) in
  snd (fst run) = log ++ [summary_request input range]
  /\ (forall st1 result tasks,
        respond st (summary_request input range) = (st1, inr result) ->
        get_default result (lit "items") (JList []) = JList (map JDict tasks) ->
        tasks <> [] ->
        snd run
        = summary_text repr input (summary_title (ts_time_range input))
            result tasks
        /\ (length (pending_of tasks) + length (completed_of tasks)
            = length tasks)%nat
        /\ (forall t, In t (pending_of tasks)
                      <-> In t tasks /\ is_completed t = false)
        /\ (forall t, In t (completed_of tasks)
                      <-> In t tasks /\ is_completed t = true)
        /\ (length (shown_pending tasks) <= 20)%nat
        /\ (length (shown_completed input tasks) <= 10)%nat).
Proof.
  intros D1 D7 Dm range run.
  assert (F : summary_filters (ts_time_range input) today
              = inr (match fst range, snd range with
                     | lo, hi =>
                         {| max_results := None; show_completed := None;
                            show_deleted := None; show_hidden := None;
                            due_min := option_map isoformat lo;
                            due_max := option_map isoformat hi;
                            completed_min := None; completed_max := None;
                            updated_min := None; page_token := None |}
                     end,
                     summary_title (ts_time_range input))).
  { unfold range, due_range, summary_filters, summary_title, plus_days.
    rewrite D1, D7, Dm. destruct (ts_time_range input); reflexivity. }
  assert (Q : forall kw title,
            summary_filters (ts_time_range input) today = inr (kw, title) ->
            TasksList (build_params (JStr (lit "@default"))
                         (summary_kwargs input kw))
            = summary_request input range).
  { intros kw title E. rewrite F in E. injection E as <- _.
    unfold summary_request, build_params, summary_kwargs.
    cbn [max_results show_completed show_deleted show_hidden due_min due_max
         completed_min completed_max updated_min page_token default nonempty
         option_map].
    destruct (fst range) as [lo|], (snd range) as [hi|];
      cbn [option_map]; rewrite ?isoformat_nonempty; reflexivity. }
  unfold run, get_task_summary, tool, bind, lift, list_tasks, execute, ret.
  rewrite F. rewrite (Q _ _ F).
  destruct (respond st (summary_request input range)) as [st1 [e|result]] eqn:R.
  - split; [reflexivity|]. intros st2 result tasks E. discriminate E.
  - split.
    + destruct (negb (truthy (get_default result (lit "items") (JList []))));
        [reflexivity|].
      destruct (py_iter (get_default result (lit "items") (JList [])))
        as [e|items]; [reflexivity|].
      destruct (all_dicts items); reflexivity.
    + intros st2 result' tasks E I NE. injection E as _ <-.
      rewrite I.
      assert (T : truthy (JList (map JDict tasks)) = true)
        by (destruct tasks; [congruence | reflexivity]).
      rewrite T. cbn [negb py_iter]. rewrite all_dicts_map. cbn [snd].
      split; [apply summary_output_text|].
      split; [apply partition_lengths|].
      split; [intro t; unfold pending_of; rewrite filter_In, negb_true_iff;
              reflexivity|].
      split; [intro t; unfold completed_of; rewrite filter_In; reflexivity|].
      unfold shown_pending, shown_completed. split.
      * rewrite length_firstn. lia.
      * destruct (ts_include_completed input);
          [rewrite length_firstn; lia | cbn; lia].
Qed.

End Summary.

Lemma get_task_summary_ranges_and_caps_witness :
  snd (fst (get_task_summary (fun s => s) (fun _ => []) Demo.respond
              week_summary feb_28 start))
  = [summary_request week_summary
       (Some feb_28, Some (mk_date 2024 3 6))].
Proof.
  apply (get_task_summary_ranges_and_caps (fun s => s) (fun _ => []) nat
           Demo.respond week_summary feb_28 (mk_date 2024 2 29)
           (mk_date 2024 3 6) (mk_date 2024 2 27) 0%nat []);
    reflexivity.
Defined.

(** The text of that summary: two pending tasks, one completed. *)
Example get_task_summary_week :
  snd (get_task_summary (fun s => s) (fun _ => []) Demo.respond
         week_summary feb_28 start)
  = lit "# This Week's Tasks" ++ nl ++ nl
    ++ lit "**Summary:** 2 pending, 1 completed" ++ nl ++ nl
    ++ lit "## " ++ HOURGLASS ++ lit " Pending Tasks" ++ nl ++ nl
    ++ HOURGLASS ++ lit " Pay rent " ++ CALENDAR ++ lit " 2024-03-01" ++ nl
    ++ HOURGLASS ++ lit " Quarterly report " ++ CALENDAR ++ lit " 2024-02-29"
    ++ nl
    ++ nl ++ lit "## " ++ CHECK_MARK ++ lit " Completed Tasks" ++ nl ++ nl
    ++ CHECK_MARK ++ lit " Book room" ++ nl.
Proof. vm_compute. reflexivity. Qed.

(** With room for one match only, the search stops at the first list
    that has one: the other lists are never asked for their tasks. *)
Example search_tasks_stops_at_limit :
  search_tasks (fun s => s) (fun _ => []) Demo.respond
    (first_match (lit "RENT")) start
  = ((2%nat,
      [TasklistsList 50 None;
       tasks_request (first_match (lit "RENT")) (JStr (lit "A"))]),
     lit "# Search Results for 'RENT'" ++ nl ++ nl
     ++ lit "Found 1 matching task(s)" ++ nl ++ nl
     ++ lit "**List:** Home" ++ nl
     ++ HOURGLASS ++ lit " Pay rent " ++ CALENDAR ++ lit " 2024-03-01"
     ++ nl ++ lit "---" ++ nl ++ nl).
Proof. vm_compute. reflexivity. Qed.

(* ================================================================== *)
(** * Further properties: authentication and start-up *)
(* ================================================================== *)

Import Spec2 Demo2 Startup.

Lemma get_credentials_never_None (e : Env) :
  snd (get_credentials e) <> inr None.
Proof.
  unfold get_credentials, load_token, needs_renewal, renew, try_refresh,
    run_flow, save_token.
  destruct (token_file e) as [[x|c0]|]; cbn;
    try destruct (valid c0); cbn;
    try destruct (expired c0 && has_refresh_token c0); cbn;
    try destruct (refresh e c0); cbn;
    try destruct (client_secrets_exist e); cbn;
    try destruct (run_local_server e); cbn;
    try destruct (write_token e _); cbn; discriminate.
Qed.

(** X1.  A credential that [get_credentials] returns is either the valid
    one it read from the token file, or one it has just written to the
    token file with success; it never returns [None]. *)
Theorem get_credentials_returns_what_is_stored (e : Env)
    (trace : list event) (r : exn + option Credentials) :
  get_credentials e = (trace, r) ->
  r <> inr None
  /\ (forall c, r = inr (Some c) ->
        (token_file e = Some (inr c) /\ valid c = true
         /\ trace = [Makedirs; LoadToken])
        \/ (exists before, trace = before ++ [WriteToken c]
                           /\ write_token e c = None)).
Proof.
  unfold get_credentials, load_token, needs_renewal, renew, try_refresh,
    run_flow, save_token.
  destruct (token_file e) as [[x|c0]|] eqn:F; cbn.
  - destruct (client_secrets_exist e); cbn.
    + destruct (run_local_server e) as [y|c1]; cbn.
      * intros [= <- <-]. split; [discriminate|]. intros c [=].
      * destruct (write_token e c1) eqn:W; intros [= <- <-];
          (split; [discriminate|]); intros c [=]. subst c.
        right. exists [Makedirs; LoadToken; RunFlow]. now split.
    + intros [= <- <-]. split; [discriminate|]. intros c [=].
  - destruct (valid c0) eqn:V; cbn.
    + intros [= <- <-]. split; [discriminate|]. intros c [= <-].
      left. now repeat split.
    + destruct (expired c0 && has_refresh_token c0); cbn.
      * destruct (refresh e c0) as [y|c1]; cbn.
        -- destruct (client_secrets_exist e); cbn.
           ++ destruct (run_local_server e) as [z|c2]; cbn.
              ** intros [= <- <-]. split; [discriminate|]. intros c [=].
              ** destruct (write_token e c2) eqn:W; intros [= <- <-];
                   (split; [discriminate|]); intros c [=]. subst c.
                 right. exists [Makedirs; LoadToken; Refresh c0; RunFlow].
                 now split.
           ++ intros [= <- <-]. split; [discriminate|]. intros c [=].
        -- destruct (write_token e c1) eqn:W; intros [= <- <-];
             (split; [discriminate|]); intros c [=]. subst c.
           right. exists [Makedirs; LoadToken; Refresh c0]. now split.
      * destruct (write_token e c0) eqn:W; intros [= <- <-];
          (split; [discriminate|]); intros c [=]. subst c.
        right. exists [Makedirs; LoadToken]. now split.
  - destruct (client_secrets_exist e); cbn.
    + destruct (run_local_server e) as [y|c1]; cbn.
      * intros [= <- <-]. split; [discriminate|]. intros c [=].
      * destruct (write_token e c1) eqn:W; intros [= <- <-];
          (split; [discriminate|]); intros c [=]. subst c.
        right. exists [Makedirs; RunFlow]. now split.
    + intros [= <- <-]. split; [discriminate|]. intros c [=].
Qed.

Lemma get_credentials_returns_what_is_stored_witness :
  exists before,
    [Makedirs; RunFlow; WriteToken renewed_creds]
    = before ++ [WriteToken renewed_creds]
    /\ write_token first_run renewed_creds = None.
Proof.
  destruct (get_credentials_returns_what_is_stored first_run
              [Makedirs; RunFlow; WriteToken renewed_creds]
              (inr (Some renewed_creds)) eq_refl) as [_ H].
  destruct (H renewed_creds eq_refl) as [(F & _) | H']; [discriminate F|].
  exact H'.
Defined.

(** X2.  A persisted credential that is not valid and cannot be
    refreshed (it is not expired, or it has no refresh token) is not
    replaced: the grant is not run, the credential is written back to the
    token file and returned as it is. *)
Theorem get_credentials_keeps_unrefreshable (e : Env) (c : Credentials) :
  token_file e = Some (inr c) ->
  valid c = false ->
  expired c && has_refresh_token c = false ->
  get_credentials e
  = ([Makedirs; LoadToken; WriteToken c],
     match write_token e c with
     | None => inr (Some c)
     | Some x => inl x
     end)
  /\ existsb contacts_server (fst (get_credentials e)) = false.
Proof.
  intros F V R.
  assert (E : get_credentials e
              = ([Makedirs; LoadToken; WriteToken c],
                 match write_token e c with
                 | None => inr (Some c)
                 | Some x => inl x
                 end)).
  { unfold get_credentials, load_token, needs_renewal, renew, try_refresh,
      run_flow, save_token.
    rewrite F, V, R. cbn. destruct (write_token e c); reflexivity. }
  rewrite E. split; reflexivity.
Qed.

Lemma get_credentials_keeps_unrefreshable_witness :
  get_credentials (env_with dead_creds (inl refused))
  = ([Makedirs; LoadToken; WriteToken dead_creds], inr (Some dead_creds)).
Proof.
  apply (get_credentials_keeps_unrefreshable
           (env_with dead_creds (inl refused)) dead_creds); reflexivity.
Defined.

(** X3.  One call refreshes at most once, runs the grant at most once
    and writes the token file at most once.  The grant runs only when the
    client-secret file exists and no credential is left to use: the token
    file is absent or does not parse, or the refresh of its credential
    was attempted and raised. *)
Theorem get_credentials_grant_is_last_resort (e : Env) :
  let trace := fst (get_credentials e) in
  (length (filter is_refresh trace) <= 1)%nat
  /\ (length (filter is_flow trace) <= 1)%nat
  /\ (length (filter writes_token trace) <= 1)%nat
  /\ (existsb is_flow trace = true ->
      client_secrets_exist e = true
      /\ forall c, token_file e = Some (inr c) ->
                   valid c = false /\ expired c = true
                   /\ has_refresh_token c = true
                   /\ exists x, refresh e c = inl x).
Proof.
  unfold get_credentials, load_token, needs_renewal, renew, try_refresh,
    run_flow, save_token.
  destruct (token_file e) as [[x|c0]|]; cbn;
    [ | destruct (valid c0) eqn:V; cbn;
        [ | destruct (expired c0) eqn:X; cbn;
            [ destruct (has_refresh_token c0) eqn:H; cbn;
              [ destruct (refresh e c0) as [y|c1] eqn:Rf; cbn | ] | ] ] | ];
    try destruct (client_secrets_exist e); cbn;
    try destruct (run_local_server e) as [z|c2]; cbn;
    try destruct (write_token e _); cbn;
    repeat split; try lia; try discriminate; intros;
    try match goal with
        | K : Some (inr _) = Some (inr _) |- _ => injection K as <-
        end;
    eauto.
Qed.

(** X4.  [_initialize] fails only with the exception [get_credentials]
    raised or with the one the construction of the service raised: its
    own "Failed to obtain credentials" is never what it raises unless one
    of the two raised it. *)
Theorem initialize_failure_sources (e : Env)
    (build : Credentials -> option exn) (x : exn) :
  snd (initialize e build) = inl x ->
  snd (get_credentials e) = inl x
  \/ exists c, snd (get_credentials e) = inr (Some c) /\ build c = Some x.
Proof.
  unfold initialize.
  destruct (get_credentials e) as [trace r] eqn:G.
  pose proof (get_credentials_never_None e) as N. rewrite G in N. cbn in N.
  destruct r as [y|[c|]]; cbn.
  - intros [= <-]. now left.
  - destruct (build c) eqn:B; cbn; [|discriminate].
    intros [= <-]. right. exists c. now split.
  - contradiction.
Qed.

(** X5.  Run as a script, the module serves only when the client-secret
    file exists, a valid persisted token notwithstanding: with a valid
    token and no client-secret file it exits with status 1 after the
    token was read.  With neither file it does not reach that exit: the
    client built while the module loads has already raised
    FileNotFoundError. *)
Theorem main_needs_client_secrets (e : Env)
    (build : Credentials -> option exn) :
  (forall trace c, main e build = (trace, Serving c) ->
                   client_secrets_exist e = true)
  /\ (forall c, token_file e = Some (inr c) -> valid c = true ->
                build c = None -> client_secrets_exist e = false ->
                main e build = ([Makedirs; LoadToken], SetupRequired 1))
  /\ (token_file e = None -> client_secrets_exist e = false ->
      main e build
      = ([Makedirs], Crashed (FileNotFoundError (CREDENTIALS_PATH e)))).
Proof.
  split; [|split].
  - intros trace c. unfold main.
    destruct (initialize e build) as [t [x|c']]; [discriminate|].
    destruct (client_secrets_exist e); [reflexivity | discriminate].
  - intros c F V B S. unfold main, initialize, get_credentials, load_token,
      needs_renewal.
    rewrite F, V. cbn. now rewrite B, S.
  - intros F S. unfold main, initialize, get_credentials, load_token,
      needs_renewal, renew, try_refresh, run_flow.
    rewrite F. cbn. now rewrite S.
Qed.

Lemma initialize_failure_sources_witness :
  snd (get_credentials (env_with stale_creds (inl refused)))
  = inl (FileNotFoundError (lit "/home/ada/.google_tasks_mcp/credentials.json"))
  \/ exists c,
       snd (get_credentials (env_with stale_creds (inl refused)))
       = inr (Some c)
       /\ build_ok c
          = Some (FileNotFoundError
                    (lit "/home/ada/.google_tasks_mcp/credentials.json")).
Proof.
  apply (initialize_failure_sources (env_with stale_creds (inl refused))
           build_ok). reflexivity.
Defined.

(* ================================================================== *)
(** * Further properties: ResponseFormatter *)
(* ================================================================== *)

Lemma startswith_app (p s : str) : startswith p (p ++ s) = true.
Proof.
  induction p as [|x p IH]; [reflexivity|].
  cbn. now rewrite N.eqb_refl, IH.
Qed.

Lemma contains_prefixed (sub a s : str) :
  contains sub s = true -> contains sub (a ++ s) = true.
Proof.
  intro H. induction a as [|x a IH]; [exact H|].
  cbn [app contains]. rewrite IH. apply orb_true_r.
Qed.

Lemma contains_middle (sub a b : str) : contains sub (a ++ sub ++ b) = true.
Proof.
  apply contains_prefixed.
  pose proof (startswith_app sub b) as H.
  destruct (sub ++ b); cbn [contains]; now rewrite H.
Qed.

(** X6.  In the text formats the rendering of a task reads the keys
    title, notes, status, due and id only: two records that agree on
    these five are rendered alike, whatever else they hold. *)
Theorem format_task_reads_five_keys (repr : json -> str)
    (t1 t2 : dict json) (format_type : ResponseFormat) :
  format_type <> JSON ->
  (forall k, In k rendered_keys -> dict_get t1 k = dict_get t2 k) ->
  format_task repr t1 format_type = format_task repr t2 format_type.
Proof.
  intros NJ Same.
  assert (T : dict_get t1 (lit "title") = dict_get t2 (lit "title"))
    by (apply Same; cbn; tauto).
  assert (No : dict_get t1 (lit "notes") = dict_get t2 (lit "notes"))
    by (apply Same; cbn; tauto).
  assert (S : dict_get t1 (lit "status") = dict_get t2 (lit "status"))
    by (apply Same; cbn; tauto).
  assert (D : dict_get t1 (lit "due") = dict_get t2 (lit "due"))
    by (apply Same; cbn; tauto).
  assert (I : dict_get t1 (lit "id") = dict_get t2 (lit "id"))
    by (apply Same; cbn; tauto).
  unfold format_task, get_default. rewrite T, No, S, D, I.
  destruct format_type; [congruence | reflexivity | reflexivity | reflexivity].
Qed.

Lemma format_task_reads_five_keys_witness :
  format_task (fun _ => []) stored_task DETAILED
  = format_task (fun _ => [])
      (dict_set stored_task (lit "etag") (JStr (lit "LTE2"))) DETAILED.
Proof.
  apply (format_task_reads_five_keys (fun _ => []) stored_task
           (dict_set stored_task (lit "etag") (JStr (lit "LTE2"))) DETAILED).
  - discriminate.
  - intros k [<- | [<- | [<- | [<- | [<- | []]]]]]; reflexivity.
Defined.

(** X7.  The concise rendering of a task contains the text of its title
    (or "Untitled"); it holds a line break only if the text of the title
    or the text shown for the due date holds one. *)
Theorem format_task_concise_one_line (repr : json -> str) (task : dict json) :
  let title :=
    py_str repr (get_default task (lit "title") (JStr (lit "Untitled"))) in
  let due :=
    py_str repr (due_display (get_default task (lit "due") (JStr []))) in
  let out := format_task repr task CONCISE in
  contains title out = true
  /\ (In 10%N out -> In 10%N title \/ In 10%N due).
Proof.
  intros title due out. unfold out, format_task. fold title. fold due.
  set (emoji := if eq_str _ _ then CHECK_MARK else HOURGLASS).
  split.
  - rewrite (app_assoc emoji). apply contains_middle.
  - intro H.
    apply in_app_or in H as [H|H].
    { unfold emoji in H. destruct (eq_str _ _); cbn in H;
        destruct H as [H|[]]; discriminate H. }
    apply in_app_or in H as [H|H].
    { cbn in H. destruct H as [H|[]]; discriminate H. }
    apply in_app_or in H as [H|H]; [now left|].
    destruct (truthy _); [|destruct H].
    apply in_app_or in H as [H|H].
    { cbn in H. destruct H as [H|[]]; discriminate H. }
    apply in_app_or in H as [H|H].
    { cbn in H. destruct H as [H|[]]; discriminate H. }
    apply in_app_or in H as [H|H].
    { cbn in H. destruct H as [H|[]]; discriminate H. }
    now right.
Qed.

Lemma concise_lines_concat (repr : json -> str) (tasks : list (dict json)) :
  forall result : str,
    concise_lines repr tasks result
    = result ++ concat (map (fun t => format_task repr t CONCISE ++ nl) tasks).
Proof.
  induction tasks as [|t r IH]; intro result; cbn.
  - now rewrite app_nil_r.
  - rewrite IH. now rewrite <- !app_assoc.
Qed.

Lemma separated_blocks_later (repr : json -> str)
    (format_type : ResponseFormat) (tasks : list (dict json)) :
  forall (i : nat) (result : str),
    (1 < i)%nat ->
    separated_blocks repr format_type i tasks result
    = result
      ++ concat (map (fun t => (nl ++ lit "---" ++ nl ++ nl)
                               ++ format_task repr t format_type) tasks).
Proof.
  induction tasks as [|t r IH]; intros i result L; cbn [separated_blocks].
  - cbn. now rewrite app_nil_r.
  - destruct (Nat.ltb_spec 1 i) as [_|]; [|lia].
    rewrite IH by lia. cbn [map concat]. now rewrite <- !app_assoc.
Qed.

Lemma join_cons (sep x : str) (r : list str) :
  join sep (x :: r) = x ++ concat (map (fun y => sep ++ y) r).
Proof.
  revert x. induction r as [|y r IH]; intro x.
  - cbn. now rewrite app_nil_r.
  - change (join sep (x :: y :: r)) with (x ++ sep ++ join sep (y :: r)).
    rewrite IH. cbn [map concat]. now rewrite <- !app_assoc.
Qed.

(** X8.  Before the length check, the text for several tasks is the
    heading followed, in the concise format, by one line per task and, in
    the other text formats, by the renderings of the tasks joined with the
    separator line: no separator before the first task or after the last,
    one between any two. *)
Theorem joined_rendering_structure (repr : json -> str)
    (tasks : list (dict json)) (format_type : ResponseFormat) (title : str) :
  joined_rendering repr tasks CONCISE title
  = lit "# " ++ title ++ nl ++ nl
    ++ concat (map (fun t => format_task repr t CONCISE ++ nl) tasks)
  /\ (format_type <> CONCISE ->
      joined_rendering repr tasks format_type title
      = lit "# " ++ title ++ nl ++ nl
        ++ join (nl ++ lit "---" ++ nl ++ nl)
             (map (fun t => format_task repr t format_type) tasks)).
Proof.
  split.
  - unfold joined_rendering. rewrite concise_lines_concat.
    now rewrite <- !app_assoc.
  - intro NC.
    assert (E : joined_rendering repr tasks format_type title
                = separated_blocks repr format_type 1 tasks
                    (lit "# " ++ title ++ nl ++ nl)).
    { unfold joined_rendering. destruct format_type; congruence. }
    rewrite E. destruct tasks as [|t r].
    + cbn [separated_blocks map join]. now rewrite app_nil_r.
    + cbn [separated_blocks map]. cbn [Nat.ltb Nat.leb].
      rewrite separated_blocks_later by lia.
      rewrite join_cons, map_map. now rewrite <- !app_assoc.
Qed.

(* ================================================================== *)
(** * Further properties: the listing tools *)
(* ================================================================== *)

Import Plain.

Lemma format_multiple_tasks_of_dicts (repr : json -> str)
    (ds : list (dict json)) (format_type : ResponseFormat) (title : str) :
  format_multiple_tasks_of repr (JList (map JDict ds)) format_type title
  = inr (format_multiple_tasks repr ds format_type title).
Proof.
  unfold format_multiple_tasks_of, format_multiple_tasks.
  destruct ds as [|d ds]; [reflexivity|].
  cbn [map truthy negb py_iter].
  change (JDict d :: map JDict ds) with (map JDict (d :: ds)).
  rewrite all_dicts_map.
  destruct format_type; reflexivity.
Qed.

Lemma len_more_tasks_note (repr : json -> str) (tok : str) :
  len (more_tasks_note repr (JStr tok)) = (70 + len tok)%Z.
Proof.
  unfold more_tasks_note, py_str, len. rewrite !length_app.
  cbn [length nl lit]. change (length (lit "` to get the next page.")) with 23%nat.
  change (length (lit "**More results available.** Use page_token: `"))
    with 45%nat.
  lia.
Qed.

Section ListingFacts.

Variable repr : json -> str.
Variable St : Type.
Variable respond : St -> call -> St * (exn + dict json).

(** X9.  The [list_tasks] tool adds the note about the next page after
    the formatter has applied the length limit, in every format: the answer
    is the formatted page followed by the whole note.  So when the page
    was cut and the service named a next page [tok], the answer has
    [25001 + len tok] characters, more than CHARACTER_LIMIT. *)
Theorem list_tasks_note_follows_cut (input : ListTasksInput)
    (st st1 : St) (log : list call) (result : dict json)
    (ds : list (dict json)) :
  respond st (TasksList (build_params (JStr (lt_tasklist_id input))
                           (list_tasks_kwargs input)))
  = (st1, inr result) ->
  dict_get result (lit "items") = Some (JList (map JDict ds)) ->
  ds <> [] ->
  let title := lit "Tasks from list '" ++ lt_tasklist_id input ++ lit "'" in
  let body := format_multiple_tasks repr ds (lt_response_format input) title in
  let out := snd (list_tasks repr respond input (st, log)) in
  out = body ++ match next_page_token result with
                | Some tok => more_tasks_note repr tok
                | None => []
                end
  /\ (forall tok : str,
         dict_get result (lit "nextPageToken") = Some (JStr tok) ->
         tok <> [] ->
         lt_response_format input <> JSON ->
         (CHARACTER_LIMIT
          < len (joined_rendering repr ds (lt_response_format input) title))%Z ->
         len out = (CHARACTER_LIMIT + 1 + len tok)%Z).
Proof.
  intros R I Hds title body out.
  assert (E : out = body ++ match next_page_token result with
                            | Some tok => more_tasks_note repr tok
                            | None => []
                            end).
  { unfold out, list_tasks, tool, bind, Gateway.list_tasks, execute, lift, ret.
    rewrite R. unfold get_default. rewrite I.
    destruct ds as [|d ds]; [congruence|].
    change (truthy (JList (map JDict (d :: ds)))) with true. cbn [negb].
    rewrite format_multiple_tasks_of_dicts. fold title. fold body.
    destruct (next_page_token result); cbn [snd]; [reflexivity|].
    now rewrite app_nil_r. }
  split; [exact E|].
  intros tok T Htok NJ Cut.
  rewrite E. unfold next_page_token. rewrite T.
  assert (Tr : truthy (JStr tok) = true) by (destruct tok; [congruence | reflexivity]).
  rewrite Tr.
  assert (B : body = truncate (joined_rendering repr ds (lt_response_format input) title)).
  { unfold body, format_multiple_tasks. destruct ds; [congruence|].
    destruct (lt_response_format input); [congruence | reflexivity ..]. }
  destruct (truncate_spec (joined_rendering repr ds (lt_response_format input) title))
    as (_ & Long & _).
  destruct (Long Cut) as (_ & L).
  unfold len in *. rewrite length_app, Nat2Z.inj_add.
  fold (len (more_tasks_note repr (JStr tok))).
  rewrite len_more_tasks_note. rewrite B.
  unfold len in *. rewrite L.
  change (Z.of_nat (length TRUNCATION_MARKER)) with 31%Z.
  unfold CHARACTER_LIMIT. lia.
Qed.

(** X10.  A page of [list_tasks] without items - the key missing, or
    its value empty - is answered by one fixed sentence, whatever format
    was asked for, json included, and whether or not the service named a
    next page: the token is not passed on. *)
Theorem list_tasks_empty_page (input : ListTasksInput)
    (st st1 : St) (log : list call) (result : dict json) :
  respond st (TasksList (build_params (JStr (lt_tasklist_id input))
                           (list_tasks_kwargs input)))
  = (st1, inr result) ->
  truthy (get_default result (lit "items") (JList [])) = false ->
  list_tasks repr respond input (st, log)
  = ((st1, log ++ [TasksList (build_params (JStr (lt_tasklist_id input))
                                (list_tasks_kwargs input))]),
     lit "No tasks found matching your criteria.").
Proof.
  intros R E.
  unfold list_tasks, tool, bind, Gateway.list_tasks, execute, lift, ret.
  rewrite R, E. reflexivity.
Qed.

Lemma list_lines_concat (format_type : ResponseFormat) (ds : list (dict json)) :
  forall output : str,
    list_lines repr format_type (map JDict ds) output
    = inr (output
           ++ concat (map (fun d => format_task_list repr d format_type ++ nl) ds)).
Proof.
  induction ds as [|d ds IH]; intro output; cbn [map list_lines as_dict concat].
  - now rewrite app_nil_r.
  - rewrite IH. now rewrite <- !app_assoc.
Qed.

(** X11.  What the [list_task_lists] tool answers once the service has
    replied: the fixed sentence when the page has no items (in every
    format, and without the page token); in the json format the whole
    reply of the service as it came, page token included; otherwise the
    heading, one rendering and line break per list in the order of the
    page, and the note about the next page when there is one. *)
Theorem list_task_lists_answer (input : ListTaskListsInput)
    (st st1 : St) (log : list call) (result : dict json) :
  respond st (TasklistsList (ll_max_results input) (ll_page_token input))
  = (st1, inr result) ->
  let lists := get_default result (lit "items") (JList []) in
  let out := snd (list_task_lists repr respond input (st, log)) in
  (truthy lists = false -> out = lit "No task lists found.")
  /\ (truthy lists = true -> ll_response_format input = JSON ->
      out = json_dumps (JDict result))
  /\ (forall ds, lists = JList (map JDict ds) -> ds <> [] ->
      ll_response_format input <> JSON ->
      out = lit "# Task Lists" ++ nl ++ nl
            ++ concat (map (fun d =>
                              format_task_list repr d (ll_response_format input)
                              ++ nl) ds)
            ++ match next_page_token result with
               | Some tok => more_lists_note repr tok
               | None => []
               end).
Proof.
  intros R lists out.
  assert (E : out
              = snd (tool
                       (if negb (truthy lists) then ret (lit "No task lists found.")
                        else
                          match ll_response_format input with
                          | JSON => ret (json_dumps (JDict result))
                          | _ =>
                              bind (lift (py_iter lists)) (fun items =>
                              bind (lift (list_lines repr (ll_response_format input)
                                            items (lit "# Task Lists" ++ nl ++ nl)))
                                (fun output =>
                                 match next_page_token result with
                                 | Some tok => ret (output ++ more_lists_note repr tok)
                                 | None => ret output
                                 end))
                          end)
                       (fun e => lit "Error listing task lists: " ++ exn_str e
                                 ++ lit ". Please check your authentication and try again.")
                       (st1, log ++ [TasklistsList (ll_max_results input)
                                       (ll_page_token input)]))).
  { unfold out, list_task_lists, tool, bind, list_tasklists, execute.
    rewrite R. reflexivity. }
  rewrite E. clear E. split; [|split].
  - intro F. rewrite F. reflexivity.
  - intros T J. rewrite T, J. reflexivity.
  - intros ds L Hds NJ. rewrite L.
    destruct ds as [|d ds]; [congruence|].
    change (truthy (JList (map JDict (d :: ds)))) with true. cbn [negb].
    assert (Body :
      snd (tool
             (bind (lift (py_iter (JList (map JDict (d :: ds))))) (fun items =>
              bind (lift (list_lines repr (ll_response_format input)
                            items (lit "# Task Lists" ++ nl ++ nl)))
                (fun output =>
                 match next_page_token result with
                 | Some tok => ret (output ++ more_lists_note repr tok)
                 | None => ret output
                 end)))
             (fun e => lit "Error listing task lists: " ++ exn_str e
                       ++ lit ". Please check your authentication and try again.")
             (st1, log ++ [TasklistsList (ll_max_results input)
                             (ll_page_token input)]))
      = (lit "# Task Lists" ++ nl ++ nl)
        ++ concat (map (fun d0 =>
                          format_task_list repr d0 (ll_response_format input)
                          ++ nl) (d :: ds))
        ++ match next_page_token result with
           | Some tok => more_lists_note repr tok
           | None => []
           end).
    { unfold tool, bind, lift, ret. cbn [py_iter].
      rewrite list_lines_concat.
      destruct (next_page_token result); cbn [snd].
      - now rewrite <- !app_assoc.
      - now rewrite app_nil_r. }
    destruct (ll_response_format input); [congruence | | |];
      rewrite Body; now rewrite <- !app_assoc.
Qed.

End ListingFacts.

Lemma list_tasks_note_follows_cut_witness :
  len (snd (list_tasks (fun _ => []) paged (page_of (lit "big") MARKDOWN) start))
  = (CHARACTER_LIMIT + 1 + len (lit "p2"))%Z.
Proof.
  pose proof (list_tasks_note_follows_cut (fun _ => []) nat paged
                (page_of (lit "big") MARKDOWN) 0%nat 1%nat []
                [(lit "items", JList (map JDict long_tasks));
                 (lit "nextPageToken", JStr (lit "p2"))]
                long_tasks eq_refl eq_refl) as H.
  cbv zeta in H.
  assert (N : long_tasks <> []) by discriminate.
  destruct (H N) as (_ & L).
  apply (L (lit "p2")).
  - reflexivity.
  - discriminate.
  - discriminate.
  - vm_compute. reflexivity.
Defined.

Lemma list_tasks_empty_page_witness :
  list_tasks (fun _ => []) paged (page_of (lit "small") JSON) start
  = ((1%nat,
      [TasksList (build_params (JStr (lit "small"))
                    (list_tasks_kwargs (page_of (lit "small") JSON)))]),
     lit "No tasks found matching your criteria.").
Proof.
  apply (list_tasks_empty_page (fun _ => []) nat paged
           (page_of (lit "small") JSON) 0%nat 1%nat []
           [(lit "nextPageToken", JStr (lit "p2"))]); reflexivity.
Defined.

Lemma list_task_lists_answer_witness :
  snd (list_task_lists (fun _ => []) paged (lists_page JSON) start)
  = lit "No task lists found.".
Proof.
  pose proof (list_task_lists_answer (fun _ => []) nat paged (lists_page JSON)
                0%nat 1%nat []
                [(lit "items", JList []); (lit "nextPageToken", JStr (lit "p2"))]
                eq_refl) as H.
  cbv zeta in H. destruct H as (H & _). apply H. reflexivity.
Defined.

(* ================================================================== *)
(** * Further properties: the due date of create_task *)
(* ================================================================== *)

Lemma fromisoformat_date_string (d : str) :
  is_date_string d = true ->
  exists y m dd,
    fromisoformat d = Some (mk_datetime y m dd 0 0 0 0 None)
    /\ format_ymd y m dd = d.
Proof.
  intro H.
  destruct (date_string_shape d H) as (y & m & dd & P & C & L & F & _).
  exists y, m, dd. split; [|exact F].
  unfold fromisoformat, slice.
  change (skipn 0 d) with d. change (10 - 0)%nat with 10%nat.
  rewrite (firstn_all2 d) by lia. rewrite P.
  rewrite (skipn_all2 d) by lia. rewrite C. reflexivity.
Qed.

Lemma fromisoformat_with_time (d t : str) (y m dd : Z) :
  length d = 10%nat ->
  parse_isoformat_date d = Some (y, m, dd) ->
  fromisoformat (d ++ 84%N :: t)
  = match (match t with
           | [] => Some (0, 0, 0, 0, None)%Z
           | _ :: _ => parse_isoformat_time t
           end) with
    | None => None
    | Some (hh, mm, ss, us, tz) =>
        if check_date_fields y m dd && check_time_fields hh mm ss us
        then Some (mk_datetime y m dd hh mm ss us tz) else None
    end.
Proof.
  intros L P. unfold fromisoformat, slice.
  change (skipn 0 (d ++ 84%N :: t)) with (d ++ 84%N :: t).
  change (10 - 0)%nat with 10%nat.
  rewrite firstn_app, (firstn_all2 d) by lia.
  rewrite L. change (10 - 10)%nat with 0%nat. rewrite firstn_O, app_nil_r, P.
  rewrite skipn_app, (skipn_all2 d) by lia.
  rewrite L. change (11 - 10)%nat with 1%nat. reflexivity.
Qed.

(** X12.  The validator of [CreateTaskInput.due_date] lets through, and
    hands on unchanged, an absent value, the empty string and every valid
    calendar date written YYYY-MM-DD; for the empty string the request
    body then carries no due date at all. *)
Theorem validate_due_date_accepts_dates (d : str) :
  is_date_string d = true ->
  validate_due_date (Some d) = inr (Some d)
  /\ validate_due_date None = inr None
  /\ validate_due_date (Some []) = inr (Some [])
  /\ (forall title notes,
         create_body title notes (Some []) = create_body title notes None).
Proof.
  intro H. split; [|repeat split].
  destruct (fromisoformat_date_string d H) as (y & m & dd & F & _).
  unfold validate_due_date. destruct d as [|c r]; [reflexivity|].
  now rewrite F.
Qed.

Lemma validate_due_date_accepts_dates_witness :
  validate_due_date (Some (lit "2024-02-29")) = inr (Some (lit "2024-02-29")).
Proof.
  apply (validate_due_date_accepts_dates (lit "2024-02-29")).
  vm_compute. reflexivity.
Defined.

(** X13.  The validator asks only that [datetime.fromisoformat] reads the
    value, so it also lets through a date followed by a time of day.  The
    client then appends its own midnight suffix to the whole value: what is
    stored is no timestamp, and the formatter, failing to read it, shows
    it as stored. *)
Theorem validate_due_date_admits_timestamps (d title : str)
    (notes : option str) :
  is_date_string d = true ->
  let v : str := d ++ lit "T10:30:00" in
  let stored := JStr (v ++ lit "T00:00:00.000Z") in
  validate_due_date (Some v) = inr (Some v)
  /\ dict_get (create_body title notes (Some v)) (lit "due") = Some stored
  /\ due_display stored = stored.
Proof.
  intros H v stored.
  destruct (date_string_shape d H) as (y & m & dd & P & C & L & F & NZ).
  assert (Hv : v <> []) by (unfold v; destruct d; discriminate).
  split; [|split].
  - unfold validate_due_date.
    assert (E : fromisoformat v = Some (mk_datetime y m dd 10 30 0 0 None)).
    { unfold v. change (lit "T10:30:00") with (84%N :: lit "10:30:00").
      rewrite (fromisoformat_with_time d (lit "10:30:00") y m dd L P).
      replace (parse_isoformat_time (lit "10:30:00"))
        with (Some (10, 30, 0, 0, @None Z)%Z) by (vm_compute; reflexivity).
      cbv iota. change (lit "10:30:00") with (49%N :: lit "0:30:00"). cbv iota.
      rewrite C. reflexivity. }
    destruct v as [|c r]; [congruence|]. now rewrite E.
  - rewrite (create_body_due title notes v Hv), dict_get_set.
    now rewrite str_eqb_refl.
  - unfold stored, due_display.
    assert (T : truthy (JStr (v ++ lit "T00:00:00.000Z")) = true).
    { destruct v; [congruence | reflexivity]. }
    rewrite T.
    assert (R : replace (lit "Z") (lit "+00:00") (v ++ lit "T00:00:00.000Z")
                = d ++ 84%N :: lit "10:30:00T00:00:00.000+00:00").
    { unfold v. rewrite <- app_assoc.
      change (replace (lit "Z") (lit "+00:00")
                (d ++ lit "T10:30:00" ++ lit "T00:00:00.000Z"))
        with (replace_from [90%N] (lit "+00:00") 0
                (d ++ lit "T10:30:00" ++ lit "T00:00:00.000Z")).
      rewrite (replace_Z_prefix _ _ _ NZ).
      replace (replace_from [90%N] (lit "+00:00") 0
                 (lit "T10:30:00" ++ lit "T00:00:00.000Z"))
        with (84%N :: lit "10:30:00T00:00:00.000+00:00")
        by (vm_compute; reflexivity).
      reflexivity. }
    rewrite R.
    rewrite (fromisoformat_with_time d (lit "10:30:00T00:00:00.000+00:00")
               y m dd L P).
    replace (parse_isoformat_time (lit "10:30:00T00:00:00.000+00:00"))
      with (@None (Z * Z * Z * Z * option Z)) by (vm_compute; reflexivity).
    reflexivity.
Qed.

Lemma validate_due_date_admits_timestamps_witness :
  due_display (JStr ((lit "2024-02-29" ++ lit "T10:30:00")
                     ++ lit "T00:00:00.000Z"))
  = JStr ((lit "2024-02-29" ++ lit "T10:30:00") ++ lit "T00:00:00.000Z").
Proof.
  apply (validate_due_date_admits_timestamps (lit "2024-02-29")
           (lit "Report") None).
  vm_compute. reflexivity.
Defined.

(* ================================================================== *)
(** * Further properties: update_task *)
(* ================================================================== *)

Lemma dict_set_same {V} (d : dict V) (k : str) (v : V) :
  dict_get d k = Some v -> dict_set d k v = d.
Proof.
  induction d as [|[k0 v0] r IH]; cbn [dict_get dict_set]; [discriminate|].
  destruct (str_eqb k0 k).
  - intro E. injection E as ->. reflexivity.
  - intro E. now rewrite IH.
Qed.

Lemma dict_pop_absent {V} (d : dict V) (k : str) :
  dict_get d k = None -> dict_pop d k = d.
Proof.
  unfold dict_pop.
  induction d as [|[k0 v0] r IH]; cbn [dict_get filter fst]; [reflexivity|].
  destruct (str_eqb k0 k); [discriminate|].
  intro E. cbn [negb]. now rewrite IH.
Qed.

(** X14.  Applying an update to the record it has already been applied
    to changes nothing: the merge of [GoogleTasksClient.update_task] is
    idempotent, so a repeated request writes the same record, keys in the
    same order. *)
Theorem apply_updates_idempotent (task : dict json) (updates : dict str) :
  apply_updates (apply_updates task updates) updates
  = apply_updates task updates.
Proof.
  pose proof (apply_updates_get task updates (lit "title")) as Gt.
  pose proof (apply_updates_get task updates (lit "notes")) as Gn.
  pose proof (apply_updates_get task updates (lit "status")) as Gs.
  pose proof (apply_updates_get task updates (lit "due")) as Gd.
  change (str_eqb (lit "due") (lit "title")) with false in Gt.
  change (str_eqb (lit "status") (lit "title")) with false in Gt.
  change (str_eqb (lit "notes") (lit "title")) with false in Gt.
  change (str_eqb (lit "title") (lit "title")) with true in Gt.
  change (str_eqb (lit "due") (lit "notes")) with false in Gn.
  change (str_eqb (lit "status") (lit "notes")) with false in Gn.
  change (str_eqb (lit "notes") (lit "notes")) with true in Gn.
  change (str_eqb (lit "due") (lit "status")) with false in Gs.
  change (str_eqb (lit "status") (lit "status")) with true in Gs.
  change (str_eqb (lit "due") (lit "due")) with true in Gd.
  cbv iota in Gt, Gn, Gs, Gd. unfold DUE_SUFFIX in Gd.
  set (merged := apply_updates task updates) in *.
  unfold apply_updates at 1.
  destruct (nonempty (dict_get updates (lit "title"))) as [t|];
    [rewrite (dict_set_same merged (lit "title") (JStr t) Gt)|];
  (destruct (nonempty (dict_get updates (lit "notes"))) as [n|];
    [rewrite (dict_set_same merged (lit "notes") (JStr n) Gn)|]);
  (destruct (nonempty (dict_get updates (lit "status"))) as [s|];
    [rewrite (dict_set_same merged (lit "status") (JStr s) Gs)|]);
  (destruct (dict_get updates (lit "due_date")) as [d|]; [|reflexivity]);
  (destruct (str_eqb d (lit "clear"));
    [now apply dict_pop_absent|]);
  (destruct (truthy_str d); [now apply dict_set_same | reflexivity]).
Qed.

Section UpdateFacts.

Variable repr : json -> str.
Variable St : Type.
Variable respond : St -> call -> St * (exn + dict json).

(** X15.  When the task cannot be fetched, the [update_task] tool
    writes nothing: the fetch is the only request sent, and the answer is
    the error text with the message of the failure. *)
Theorem update_task_failed_fetch_writes_nothing (input : UpdateTaskInput)
    (st st1 : St) (log : list call) (e : exn) :
  respond st (TasksGet (ut_tasklist_id input) (ut_task_id input))
  = (st1, inl e) ->
  Tools.update_task repr respond input (st, log)
  = ((st1, log ++ [TasksGet (ut_tasklist_id input) (ut_task_id input)]),
     lit "Error updating task: " ++ exn_str e
     ++ lit ". Please verify the task ID and try again.").
Proof.
  intro R.
  unfold Tools.update_task, tool, Gateway.update_task, bind, execute.
  rewrite R. reflexivity.
Qed.

End UpdateFacts.

Lemma update_task_failed_fetch_writes_nothing_witness :
  snd (fst (Tools.update_task (fun _ => []) paged complete_and_clear start))
  = [TasksGet (lit "B") (lit "w1")].
Proof.
  unfold start.
  rewrite (update_task_failed_fetch_writes_nothing (fun _ => []) nat paged
             complete_and_clear 0%nat 1%nat [] unavailable eq_refl).
  reflexivity.
Defined.

(* ================================================================== *)
(** * Further properties: task lists, removing and moving *)
(* ================================================================== *)

Section ManageFacts.

Variable repr : json -> str.
Variable St : Type.
Variable respond : St -> Manage.request -> St * (exn + dict json).

(** X16.  [update_task_list] fetches the list and writes it back with
    the new title: the body of the update holds the new title, and under
    every other key what the fetched list held; both requests name the
    list of the input. *)
Theorem update_task_list_keeps_other_fields
    (input : Manage.UpdateTaskListInput) (st st1 : St)
    (log : list Manage.request) (tasklist : dict json) :
  respond st (Manage.TasklistsGet (JStr (Manage.ul_tasklist_id input)))
  = (st1, inr tasklist) ->
  exists body,
    snd (fst (Manage.update_task_list repr respond input (st, log)))
    = log ++ [Manage.TasklistsGet (JStr (Manage.ul_tasklist_id input));
              Manage.TasklistsUpdate (JStr (Manage.ul_tasklist_id input)) body]
    /\ dict_get body (lit "title") = Some (JStr (Manage.ul_title input))
    /\ (forall k, k <> lit "title" -> dict_get body k = dict_get tasklist k).
Proof.
  intro G.
  exists (dict_set tasklist (lit "title") (JStr (Manage.ul_title input))).
  split; [|split].
  - unfold Manage.update_task_list, Manage.tool, Manage.update_tasklist,
      Manage.bind, Manage.execute, Manage.ret.
    rewrite G.
    destruct (respond st1 _) as [st2 [e|result]]; cbn [fst snd];
      now rewrite <- app_assoc.
  - rewrite dict_get_set. now rewrite str_eqb_refl.
  - intros k Hk. rewrite dict_get_set.
    destruct (str_eqb (lit "title") k) eqn:E; [|reflexivity].
    apply str_eqb_eq in E. congruence.
Qed.

(** X17.  The answer of [create_task_list] is made from the title of
    the reply alone: two replies with the same title give the same
    answer, whatever ids they carry, so the answer does not tell the id
    of the new list. *)
Theorem create_task_list_answer_omits_id
    (respond' : St -> Manage.request -> St * (exn + dict json))
    (input : Manage.CreateTaskListInput) (st st1 st2 : St)
    (log : list Manage.request) (r1 r2 : dict json) :
  respond st (Manage.TasklistsInsert
                [(lit "title", JStr (Manage.cl_title input))])
  = (st1, inr r1) ->
  respond' st (Manage.TasklistsInsert
                 [(lit "title", JStr (Manage.cl_title input))])
  = (st2, inr r2) ->
  dict_get r1 (lit "title") = dict_get r2 (lit "title") ->
  snd (Manage.create_task_list repr respond input (st, log))
  = snd (Manage.create_task_list repr respond' input (st, log)).
Proof.
  intros R1 R2 T.
  unfold Manage.create_task_list, Manage.tool, Manage.create_tasklist,
    Manage.bind, Manage.execute, Manage.ret.
  rewrite R1, R2. cbn [snd].
  unfold format_task_list, get_default. now rewrite T.
Qed.

Lemma check_mark_not_error (a b : str) :
  startswith CHECK_MARK (CHECK_MARK ++ a) = true
  /\ startswith CHECK_MARK (69%N :: b) = false.
Proof. split; reflexivity. Qed.

(** X18.  Each of the tools that remove or move - [delete_task_list],
    [delete_task], [clear_completed_tasks], [move_task] - sends exactly
    one request, for the ids of its input, and its answer begins with the
    check mark exactly when the service accepted that request: a removal
    is never confirmed that was refused. *)
Theorem removal_confirmed_iff_accepted (st : St) (log : list Manage.request) :
  let accepted (c : Manage.request) :=
    exists body, snd (respond st c) = inr body in
  let faithful (run : Manage.world St * str) (c : Manage.request) :=
    snd (fst run) = log ++ [c]
    /\ (startswith CHECK_MARK (snd run) = true <-> accepted c) in
  (forall input,
      faithful (Manage.delete_task_list respond input (st, log))
        (Manage.TasklistsDelete (JStr (Manage.dl_tasklist_id input))))
  /\ (forall input,
         faithful (Manage.delete_task_tool respond input (st, log))
           (Manage.TasksDelete (JStr (Manage.del_tasklist_id input))
              (JStr (Manage.del_task_id input))))
  /\ (forall input,
         faithful (Manage.clear_completed_tasks respond input (st, log))
           (Manage.TasksClear (JStr (Manage.cc_tasklist_id input))))
  /\ (forall input,
         faithful (Manage.move_task_tool repr respond input (st, log))
           (Manage.TasksMove (JStr (Manage.mv_tasklist_id input))
              (JStr (Manage.mv_task_id input))
              (Manage.mv_parent_task_id input)
              (Manage.mv_previous_task_id input))).
Proof.
  intros accepted faithful. unfold faithful, accepted.
  repeat split;
    try (unfold Manage.delete_task_list, Manage.delete_task_tool,
           Manage.clear_completed_tasks, Manage.move_task_tool, Manage.tool,
           Manage.delete_tasklist, Manage.delete_task, Manage.clear_completed,
           Manage.move_task, Manage.bind, Manage.execute, Manage.ret;
         destruct (respond st _) as [st1 [e|body]]; cbn [fst snd];
         first [ reflexivity
               | intro H; first [ discriminate H
                                | now exists body
                                | destruct H as [b H]; discriminate H
                                | reflexivity ] ]).
Qed.

(** X19.  [test_list_operations] of the test script, once the list is
    created under a usable id: it ends without an exception; every
    request it sends after the creation names that list; a removal of the
    list is among them, also when the renaming or the first removal
    failed; and when it reports success the requests were the fetch, the
    update and one removal. *)
Theorem test_list_operations_removes_its_list (title : str)
    (st s1 s2 : St) (log : list Manage.request)
    (result new_list : dict json) (n : Z) (x : json) :
  respond st (Manage.TasklistsPage 5 None) = (s1, inr result) ->
  Manage.py_len (get_default result (lit "items") (JList [])) = inr n ->
  respond s1 (Manage.TasklistsInsert [(lit "title", JStr title)])
  = (s2, inr new_list) ->
  dict_get new_list (lit "id") = Some x ->
  truthy x = true ->
  let run := Manage.test_list_operations respond title (st, log) in
  exists rest b,
    snd (fst run)
    = log ++ [Manage.TasklistsPage 5 None;
              Manage.TasklistsInsert [(lit "title", JStr title)]] ++ rest
    /\ snd run = inr b
    /\ In (Manage.TasklistsDelete x) rest
    /\ (forall c, In c rest ->
          c = Manage.TasklistsGet x
          \/ (exists body, c = Manage.TasklistsUpdate x body)
          \/ c = Manage.TasklistsDelete x)
    /\ (b = true ->
        exists body,
          rest = [Manage.TasklistsGet x; Manage.TasklistsUpdate x body;
                  Manage.TasklistsDelete x]).
Proof.
  intros P Len C Id Tr run. unfold run.
  unfold Manage.test_list_operations, Manage.clean_up,
    Manage.list_tasklists, Manage.create_tasklist, Manage.update_tasklist,
    Manage.delete_tasklist, Manage.try_except, Manage.bind, Manage.execute,
    Manage.lift, Manage.ret.
  rewrite P, Len, C. cbn [getitem]. rewrite Id, Tr.
  set (body := fun tl : dict json =>
                 dict_set tl (lit "title") (JStr (title ++ lit " - Updated"))).
  destruct (dict_get new_list (lit "title")) as [t|];
    [destruct (respond s2 (Manage.TasklistsGet x)) as [s3 [e|tl]];
     [|destruct (respond s3 (Manage.TasklistsUpdate x _)) as [s4 [e|updated]];
       [|destruct (dict_get updated (lit "title")) as [t'|];
         [destruct (respond s4 (Manage.TasklistsDelete x)) as [s5 [e|r]]|]]]|];
    cbv beta iota zeta;
    match goal with
    | |- context [respond ?s (Manage.TasklistsDelete x)] =>
        destruct (respond s (Manage.TasklistsDelete x)) as [sn [e'|r']]
    | _ => idtac
    end;
    cbv beta iota zeta; cbn [fst snd];
    eexists; eexists;
    (split; [rewrite <- ?app_assoc; cbn [app]; reflexivity|]);
    (split; [reflexivity|]);
    (split; [cbn [In]; auto 6|]);
    (split;
     [intros c Hc; cbn [In] in Hc;
      repeat (destruct Hc as [<- | Hc]; [eauto|]); destruct Hc
     | first [discriminate | intros _; eexists; reflexivity]]).
Qed.

End ManageFacts.

Lemma update_task_list_keeps_other_fields_witness :
  exists body,
    snd (fst (Manage.update_task_list (fun _ => []) (office (lit "L1"))
                rename_errands (0%nat, [])))
    = [] ++ [Manage.TasklistsGet (JStr (lit "A"));
             Manage.TasklistsUpdate (JStr (lit "A")) body]
    /\ dict_get body (lit "title") = Some (JStr (lit "Chores"))
    /\ (forall k, k <> lit "title" ->
        dict_get body k
        = dict_get [(lit "id", JStr (lit "A")); (lit "title", JStr (lit "Errands"));
                    (lit "updated", JStr (lit "2024-02-28T09:00:00.000Z"))] k).
Proof.
  apply (update_task_list_keeps_other_fields (fun _ => []) nat
           (office (lit "L1")) rename_errands 0%nat 1%nat []).
  reflexivity.
Defined.

Lemma create_task_list_answer_omits_id_witness :
  snd (Manage.create_task_list (fun _ => []) (office (lit "L1"))
         {| Manage.cl_title := lit "Errands" |} (0%nat, []))
  = snd (Manage.create_task_list (fun _ => []) (office (lit "L2"))
           {| Manage.cl_title := lit "Errands" |} (0%nat, [])).
Proof.
  apply (create_task_list_answer_omits_id (fun _ => []) nat
           (office (lit "L1")) (office (lit "L2"))
           {| Manage.cl_title := lit "Errands" |} 0%nat 1%nat 1%nat []
           [(lit "title", JStr (lit "Errands")); (lit "id", JStr (lit "L1"))]
           [(lit "title", JStr (lit "Errands")); (lit "id", JStr (lit "L2"))]);
    reflexivity.
Defined.

Lemma test_list_operations_removes_its_list_witness :
  exists rest b,
    snd (fst (Manage.test_list_operations (office (lit "L1")) (lit "MCP Test List")
                (0%nat, [])))
    = [] ++ [Manage.TasklistsPage 5 None;
             Manage.TasklistsInsert [(lit "title", JStr (lit "MCP Test List"))]]
         ++ rest
    /\ snd (Manage.test_list_operations (office (lit "L1")) (lit "MCP Test List")
              (0%nat, [])) = inr b
    /\ In (Manage.TasklistsDelete (JStr (lit "L1"))) rest
    /\ (forall c, In c rest ->
          c = Manage.TasklistsGet (JStr (lit "L1"))
          \/ (exists body, c = Manage.TasklistsUpdate (JStr (lit "L1")) body)
          \/ c = Manage.TasklistsDelete (JStr (lit "L1")))
    /\ (b = true ->
        exists body,
          rest = [Manage.TasklistsGet (JStr (lit "L1"));
                  Manage.TasklistsUpdate (JStr (lit "L1")) body;
                  Manage.TasklistsDelete (JStr (lit "L1"))]).
Proof.
  apply (test_list_operations_removes_its_list nat (office (lit "L1"))
           (lit "MCP Test List") 0%nat 1%nat 2%nat []
           [(lit "items", JList account_lists)]
           [(lit "title", JStr (lit "MCP Test List")); (lit "id", JStr (lit "L1"))]
           3%Z (JStr (lit "L1"))); reflexivity.
Defined.

(* ================================================================== *)
(** * Further properties: the json format *)
(* ================================================================== *)

Lemma json_nested_ind (P : json -> Prop) :
  P JNull ->
  (forall b, P (JBool b)) ->
  (forall z, P (JInt z)) ->
  (forall s, P (JStr s)) ->
  (forall l, Forall P l -> P (JList l)) ->
  (forall d, Forall (fun kv => P (snd kv)) d -> P (JDict d)) ->
  forall v, P v.
Proof.
  intros HN HB HI HS HL HD.
  fix IH 1. intros [ | b | z | s | l | d].
  - exact HN.
  - apply HB.
  - apply HI.
  - apply HS.
  - apply HL. induction l as [|x l IHl]; constructor; [apply IH | exact IHl].
  - apply HD. induction d as [|[k x] d IHd]; constructor; [apply IH | exact IHd].
Qed.

Lemma ascii_only_app (a b : str) :
  ascii_only a -> ascii_only b -> ascii_only (a ++ b).
Proof. intros A B. apply Forall_app. now split. Qed.

Lemma ascii_only_digits (u : Decimal.uint) : ascii_only (digits_of_uint u).
Proof. induction u; cbn [digits_of_uint]; constructor; auto. Qed.

Lemma ascii_only_str_of_Z (z : Z) : ascii_only (str_of_Z z).
Proof.
  unfold str_of_Z, str_of_N.
  destruct (z <? 0)%Z; [constructor; [reflexivity|]|]; apply ascii_only_digits.
Qed.

Lemma hex_digit_ascii (n : N) : (n < 16)%N -> is_ascii (hex_digit n) = true.
Proof.
  intro H. unfold is_ascii, hex_digit.
  destruct (N.ltb_spec n 10); apply N.ltb_lt; lia.
Qed.

Lemma ascii_only_u_escape (c : N) : ascii_only (u_escape c).
Proof.
  unfold u_escape.
  repeat (constructor;
          [first [reflexivity
                 | apply hex_digit_ascii, N.mod_upper_bound; discriminate]|]).
  constructor.
Qed.

Lemma ascii_only_escape_char (c : N) : ascii_only (escape_char c).
Proof.
  unfold escape_char.
  repeat match goal with
         | |- context [if (c =? ?k)%N then _ else _] =>
             destruct (c =? k)%N; [repeat constructor|]
         end.
  destruct ((32 <=? c) && (c <=? 126))%N eqn:E.
  - apply andb_true_iff in E as [_ E]. apply N.leb_le in E.
    constructor; [|constructor]. apply N.ltb_lt. lia.
  - destruct (c <? 65536)%N.
    + apply ascii_only_u_escape.
    + apply ascii_only_app; apply ascii_only_u_escape.
Qed.

Lemma ascii_only_encode_string (s : str) : ascii_only (encode_string s).
Proof.
  unfold encode_string. apply ascii_only_app; [repeat constructor|].
  apply ascii_only_app; [|repeat constructor].
  induction s as [|c r IH]; [constructor|].
  cbn [flat_map]. apply ascii_only_app; [apply ascii_only_escape_char | exact IH].
Qed.

Lemma ascii_only_indent (level : nat) : ascii_only (indent_of level).
Proof.
  unfold indent_of. induction (2 * level)%nat; cbn [repeat]; constructor; auto.
Qed.

Lemma ascii_only_join (sep : str) (l : list str) :
  ascii_only sep -> Forall ascii_only l -> ascii_only (join sep l).
Proof.
  intros S H. induction H as [|x r Hx Hr IH]; [constructor|].
  destruct r as [|y r]; [exact Hx|].
  change (join sep (x :: y :: r)) with (x ++ sep ++ join sep (y :: r)).
  apply ascii_only_app; [exact Hx|]. apply ascii_only_app; [exact S | exact IH].
Qed.

Lemma ascii_only_dumps (v : json) :
  forall level, ascii_only (dumps_at level v).
Proof.
  induction v as [ | b | z | s | l IH | d IH] using json_nested_ind;
    intro level; cbn [dumps_at].
  - repeat constructor.
  - destruct b; repeat constructor.
  - apply ascii_only_str_of_Z.
  - apply ascii_only_encode_string.
  - destruct l as [|x l]; [repeat constructor|].
    repeat apply ascii_only_app;
      try apply ascii_only_indent; try (repeat constructor; fail).
    apply ascii_only_join.
    + apply ascii_only_app; [repeat constructor|].
      apply ascii_only_app; [repeat constructor | apply ascii_only_indent].
    + apply Forall_map. revert IH. apply Forall_impl. intros a Ha. apply Ha.
  - destruct d as [|kx d]; [repeat constructor|].
    repeat apply ascii_only_app;
      try apply ascii_only_indent; try (repeat constructor; fail).
    apply ascii_only_join.
    + apply ascii_only_app; [repeat constructor|].
      apply ascii_only_app; [repeat constructor | apply ascii_only_indent].
    + apply Forall_map. revert IH. apply Forall_impl. intros [k a] Ha.
      apply ascii_only_app; [apply ascii_only_encode_string|].
      apply ascii_only_app; [repeat constructor | apply Ha].
Qed.

(** X20.  In the json format every answer of the formatter is plain
    ASCII: [json.dumps] is called with its default [ensure_ascii], so a
    character of a title or of notes outside ASCII appears only as a
    [\u] escape.  This holds for one task, for one task list and for a
    list of tasks. *)
Theorem json_format_is_ascii (repr : json -> str) (task : dict json)
    (tasks : list (dict json)) (title : str) :
  ascii_only (format_task repr task JSON)
  /\ ascii_only (format_task_list repr task JSON)
  /\ ascii_only (format_multiple_tasks repr tasks JSON title).
Proof.
  split; [|split].
  - apply ascii_only_dumps.
  - apply ascii_only_dumps.
  - destruct tasks as [|t r]; [repeat constructor | apply ascii_only_dumps].
Qed.

(* ================================================================== *)
(** * Further properties: the warning inside search_tasks *)
(* ================================================================== *)

Section WarningFacts.

Variable ucd_lower : str -> str.
Variable repr : json -> str.
Variable St : Type.
Variable respond : St -> call -> St * (exn + dict json).
Variable input : SearchTasksInput.

Lemma search_lists_warning_agree (task_lists : list json) :
  Forall (fun task_list => has_id task_list = true) task_lists ->
  forall (acc : list (dict json)) (w : world St),
    Tools.search_lists ucd_lower respond input
      (lower ucd_lower (st_query input)) task_lists acc w
    = NoWarning.search_lists ucd_lower respond input
        (lower ucd_lower (st_query input)) task_lists acc w.
Proof.
  induction 1 as [|task_list rest Id Ids IH]; intros acc w; [reflexivity|].
  cbn [Tools.search_lists NoWarning.search_lists]. unfold bind at 1 3.
  destruct (try_except _ _ w) as [w' [e|[m [e|]]]]; [reflexivity| |].
  - unfold Tools.warning, bind, lift, ret. unfold has_id in Id.
    destruct (getitem task_list (lit "id")); [discriminate|]. apply IH.
  - destruct (st_max_results input <=? Z.of_nat (length m))%Z;
      [reflexivity | apply IH].
Qed.

(** X21.  The warning that [search_tasks] logs for a list it could not
    search reads the id of the list again.  As long as every list record
    of the account carries an id, this changes nothing: the tool with the
    warning and the tool without it give the same answer and send the same
    requests. *)
Theorem search_tasks_warning_is_silent (st st1 : St) (log : list call)
    (lists_result : dict json) (task_lists : list json) :
  respond st (TasklistsList 50 None) = (st1, inr lists_result) ->
  py_iter (get_default lists_result (lit "items") (JList [])) = inr task_lists ->
  Forall (fun task_list => has_id task_list = true) task_lists ->
  Tools.search_tasks ucd_lower repr respond input (st, log)
  = NoWarning.search_tasks ucd_lower repr respond input (st, log).
Proof.
  intros R I Ids.
  unfold Tools.search_tasks, NoWarning.search_tasks, tool,
    Tools.search_matches, NoWarning.search_matches, bind, list_tasklists,
    execute, lift.
  rewrite R, I. now rewrite (search_lists_warning_agree task_lists Ids).
Qed.

(** X22.  A list record without an id ends the search: reading the id
    fails, the handler fails on the same read while it builds its
    warning, and the tool answers with that error - here for the first
    record of the account, where nothing but the request for the lists has
    been sent.  Other failures inside a list are passed over. *)
Theorem search_tasks_list_without_id (st st1 : St) (log : list call)
    (lists_result : dict json) (task_list : json) (rest : list json)
    (e : exn) :
  respond st (TasklistsList 50 None) = (st1, inr lists_result) ->
  py_iter (get_default lists_result (lit "items") (JList []))
  = inr (task_list :: rest) ->
  getitem task_list (lit "id") = inl e ->
  Tools.search_tasks ucd_lower repr respond input (st, log)
  = ((st1, log ++ [TasklistsList 50 None]),
     lit "Error searching tasks: " ++ exn_str e).
Proof.
  intros R I G.
  unfold Tools.search_tasks, tool, Tools.search_matches, bind,
    list_tasklists, execute, lift.
  rewrite R, I. cbn [Tools.search_lists].
  unfold bind, try_except, search_one_list, bind, lift, Tools.warning,
    bind, lift.
  rewrite G. reflexivity.
Qed.

Lemma search_lists_outage (task_lists : list json) :
  (forall s p, exists s' e, respond s (TasksList p) = (s', inl e)) ->
  Forall (fun task_list => has_id task_list = true) task_lists ->
  forall w : world St,
    exists w',
      Tools.search_lists ucd_lower respond input
        (lower ucd_lower (st_query input)) task_lists [] w
      = (w', inr []).
Proof.
  intros Down. induction 1 as [|task_list rest Id Ids IH]; intros [s log].
  - now exists (s, log).
  - cbn [Tools.search_lists].
    unfold bind at 1. unfold try_except, search_one_list.
    unfold bind at 1. unfold lift at 1. unfold has_id in Id.
    destruct (getitem task_list (lit "id")) as [|id] eqn:G; [discriminate|].
    unfold bind at 1. unfold Gateway.list_tasks, execute.
    destruct (Down s (build_params id (search_kwargs input))) as (s' & e & R).
    rewrite R. unfold ret at 1. cbv beta iota.
    unfold bind at 1. unfold Tools.warning, bind, lift, ret. rewrite G.
    apply IH.
Qed.

(** X23.  When the lists can be fetched but every request for tasks
    fails, the search answers that no task matches the query: the failures
    are logged list by list and do not reach the answer. *)
Theorem search_tasks_reports_outage_as_no_match (st st1 : St)
    (log : list call) (lists_result : dict json) (task_lists : list json) :
  respond st (TasklistsList 50 None) = (st1, inr lists_result) ->
  py_iter (get_default lists_result (lit "items") (JList [])) = inr task_lists ->
  Forall (fun task_list => has_id task_list = true) task_lists ->
  (forall s p, exists s' e, respond s (TasksList p) = (s', inl e)) ->
  snd (Tools.search_tasks ucd_lower repr respond input (st, log))
  = lit "No tasks found matching '" ++ st_query input ++ lit "'.".
Proof.
  intros R I Ids Down.
  unfold Tools.search_tasks, tool, Tools.search_matches, bind,
    list_tasklists, execute, lift.
  rewrite R, I.
  destruct (search_lists_outage task_lists Down Ids
              (st1, log ++ [TasklistsList 50 None])) as (w' & E).
  rewrite E. reflexivity.
Qed.

End WarningFacts.

Lemma search_tasks_warning_is_silent_witness :
  Tools.search_tasks (fun s => s) (fun _ => []) Demo.respond
    (search_for (lit "milk") JSON) start
  = NoWarning.search_tasks (fun s => s) (fun _ => []) Demo.respond
      (search_for (lit "milk") JSON) start.
Proof.
  apply (search_tasks_warning_is_silent (fun s => s) (fun _ => []) nat
           Demo.respond (search_for (lit "milk") JSON) 0%nat 1%nat []
           [(lit "items", JList account_lists)] account_lists).
  - reflexivity.
  - reflexivity.
  - repeat constructor.
Defined.

Lemma search_tasks_list_without_id_witness :
  Tools.search_tasks (fun s => s) (fun _ => []) nameless
    (search_for (lit "rent") CONCISE) start
  = ((1%nat, [] ++ [TasklistsList 50 None]),
     lit "Error searching tasks: "
     ++ exn_str (mk_exn (lit "KeyError") (lit "'" ++ lit "id" ++ lit "'"))).
Proof.
  apply (search_tasks_list_without_id (fun s => s) (fun _ => []) nat
           nameless (search_for (lit "rent") CONCISE) 0%nat 1%nat []
           [(lit "items", JList [JDict [(lit "title", JStr (lit "Inbox"))]])]
           (JDict [(lit "title", JStr (lit "Inbox"))]) []);
    reflexivity.
Defined.

Lemma search_tasks_reports_outage_as_no_match_witness :
  snd (Tools.search_tasks (fun s => s) (fun _ => []) outage
         (search_for (lit "rent") CONCISE) start)
  = lit "No tasks found matching '" ++ lit "rent" ++ lit "'.".
Proof.
  apply (search_tasks_reports_outage_as_no_match (fun s => s) (fun _ => [])
           nat outage (search_for (lit "rent") CONCISE) 0%nat 1%nat []
           [(lit "items", JList account_lists)] account_lists).
  - reflexivity.
  - reflexivity.
  - repeat constructor.
  - intros s p. exists (S s), unavailable. reflexivity.
Defined.

(* ================================================================== *)
(** * Further properties: quick_add_task *)
(* ================================================================== *)

Lemma strip_trimmed (s : str) :
  no_leading_space (strip s) /\ no_trailing_space (strip s).
Proof.
  split.
  - apply rstrip_no_leading_space, lstrip_no_leading_space.
  - unfold no_trailing_space, strip, rstrip. rewrite rev_involutive.
    apply lstrip_no_leading_space.
Qed.

(** X24.  Whatever the text, [quick_add_task] either sends nothing -
    the date it computed lies outside the calendar - or sends exactly one
    request, to create a task whose title neither begins nor ends with
    whitespace. *)
Theorem quick_add_task_sends_trimmed_title (ucd_lower : str -> str)
    (repr : json -> str) (St : Type)
    (respond : St -> call -> St * (exn + dict json))
    (input : QuickAddTaskInput) (today : date) (st : St) (log : list call) :
  let sent :=
    snd (fst (quick_add_task ucd_lower repr respond input today (st, log))) in
  (exists e, quick_add_parse ucd_lower (qa_text input) today = inl e
             /\ sent = log)
  \/ (exists title due,
         sent = log ++ [TasksInsert (qa_tasklist_id input)
                          (create_body title None due) None None]
         /\ no_leading_space title /\ no_trailing_space title).
Proof.
  intro sent. unfold sent.
  destruct (quick_add_parse ucd_lower (qa_text input) today) as [e|[t due]] eqn:P.
  - left. exists e. split; [reflexivity|].
    unfold quick_add_task, tool, bind, lift. now rewrite P.
  - right. exists (strip t), due.
    rewrite (quick_add_task_log ucd_lower repr St respond input today st log
               t due P).
    split; [reflexivity | apply strip_trimmed].
Qed.

(* ================================================================== *)
(** * Further properties: the calendar behind the due dates *)
(* ================================================================== *)

Section CalendarFacts.

Local Open Scope Z_scope.

Lemma month_day_checked :
  all_from (fun n => month_day_ok false n && month_day_ok true n)
    (Z.to_nat 365) 0 = true.
Proof. vm_compute. reflexivity. Qed.

Lemma month_day_spec (leapyear : bool) (n : Z) :
  0 <= n < 365 -> month_day_ok leapyear n = true.
Proof.
  intro H.
  pose proof (all_from_spec _ _ _ month_day_checked n ltac:(lia)) as I.
  cbv beta in I.
  apply andb_true_iff in I as [F T]. destruct leapyear; assumption.
Qed.

Lemma ord2ymd_unfold (n : Z) :
  ord2ymd n =
  let n0 := n - 1 in
  let n400 := n0 / 146097 in
  let r400 := n0 mod 146097 in
  let n100 := r400 / 36524 in
  let r100 := r400 mod 36524 in
  let n4 := r100 / 1461 in
  let r4 := r100 mod 1461 in
  let n1 := r4 / 365 in
  let r := r4 mod 365 in
  let y := n400 * 400 + 1 + (n100 * 100 + n4 * 4 + n1) in
  if (n1 =? 4) || (n100 =? 4) then mk_date (y - 1) 12 31
  else
    let leapyear := (n1 =? 3) && (negb (n4 =? 24) || (n100 =? 3)) in
    mk_date y (fst (month_day leapyear r)) (snd (month_day leapyear r)).
Proof.
  unfold ord2ymd, month_day, DI400Y, DI100Y, DI4Y. cbv zeta.
  destruct ((_ =? 4) || (_ =? 4)); [reflexivity|].
  destruct (_ <? _); reflexivity.
Qed.

Lemma is_leap_spec (a b c e : Z) :
  0 <= a -> 0 <= b <= 3 -> 0 <= c <= 24 -> 0 <= e <= 3 ->
  is_leap (a * 400 + 1 + (b * 100 + c * 4 + e))
  = (e =? 3) && (negb (c =? 24) || (b =? 3)).
Proof.
  intros Ha Hb Hc He. unfold is_leap.
  set (y := a * 400 + 1 + (b * 100 + c * 4 + e)).
  destruct (Z.eqb_spec (y mod 4) 0) as [M4|M4];
  destruct (Z.eqb_spec (y mod 100) 0) as [M100|M100];
  destruct (Z.eqb_spec (y mod 400) 0) as [M400|M400];
  destruct (Z.eqb_spec e 3) as [E|E];
  destruct (Z.eqb_spec c 24) as [C|C];
  destruct (Z.eqb_spec b 3) as [B|B];
  try reflexivity; exfalso; subst y;
  Z.div_mod_to_equations; lia.
Qed.

Lemma days_before_year_spec (a b c e : Z) :
  0 <= a -> 0 <= b <= 3 -> 0 <= c <= 24 -> 0 <= e <= 3 ->
  days_before_year (a * 400 + 1 + (b * 100 + c * 4 + e))
  = 146097 * a + 36524 * b + 1461 * c + 365 * e.
Proof.
  intros Ha Hb Hc He. unfold days_before_year.
  Z.div_mod_to_equations. lia.
Qed.

Lemma last_day_of_year (a b c e : Z) :
  0 <= a ->
  (e = 4 /\ 0 <= b <= 3 /\ 0 <= c <= 23) \/ (b = 4 /\ c = 0 /\ e = 0) ->
  is_leap (a * 400 + 1 + (b * 100 + c * 4 + e) - 1) = true
  /\ days_before_year (a * 400 + 1 + (b * 100 + c * 4 + e) - 1)
     = 146097 * a + 36524 * b + 1461 * c + 365 * e - 365.
Proof.
  intros Ha H. unfold is_leap, days_before_year.
  set (y := a * 400 + 1 + (b * 100 + c * 4 + e) - 1).
  split.
  - destruct (Z.eqb_spec (y mod 4) 0) as [M4|M4];
    destruct (Z.eqb_spec (y mod 100) 0) as [M100|M100];
    destruct (Z.eqb_spec (y mod 400) 0) as [M400|M400];
    try reflexivity; exfalso; subst y; Z.div_mod_to_equations; lia.
  - subst y. Z.div_mod_to_equations. lia.
Qed.

Lemma ord2ymd_correct (n : Z) :
  1 <= n <= MAXORDINAL ->
  check_date_fields (year (ord2ymd n)) (month (ord2ymd n)) (day (ord2ymd n))
  = true
  /\ toordinal (ord2ymd n) = n.
Proof.
  intro Hn. unfold MAXORDINAL in Hn.
  rewrite ord2ymd_unfold. cbv zeta.
  set (n0 := n - 1).
  pose proof (Z.div_mod n0 146097 ltac:(lia)) as D400.
  pose proof (Z.mod_pos_bound n0 146097 ltac:(lia)) as B400.
  set (a := n0 / 146097) in *. set (r400 := n0 mod 146097) in *.
  pose proof (Z.div_mod r400 36524 ltac:(lia)) as D100.
  pose proof (Z.mod_pos_bound r400 36524 ltac:(lia)) as B100.
  set (b := r400 / 36524) in *. set (r100 := r400 mod 36524) in *.
  pose proof (Z.div_mod r100 1461 ltac:(lia)) as D4.
  pose proof (Z.mod_pos_bound r100 1461 ltac:(lia)) as B4.
  set (c := r100 / 1461) in *. set (r4 := r100 mod 1461) in *.
  pose proof (Z.div_mod r4 365 ltac:(lia)) as D1.
  pose proof (Z.mod_pos_bound r4 365 ltac:(lia)) as B1.
  set (e := r4 / 365) in *. set (r := r4 mod 365) in *.
  assert (Ha : 0 <= a <= 24) by (subst n0; lia).
  assert (Hb : 0 <= b <= 4) by lia.
  assert (Hc : 0 <= c <= 24) by lia.
  assert (He : 0 <= e <= 4) by lia.
  clearbody a r400 b r100 c r4 e r.
  assert (Last : (e =? 4) || (b =? 4) = true ->
                 (e = 4 /\ 0 <= b <= 3 /\ 0 <= c <= 23)
                 \/ (b = 4 /\ c = 0 /\ e = 0)).
  { intro L. apply orb_true_iff in L as [L|L]; apply Z.eqb_eq in L; lia. }
  destruct ((e =? 4) || (b =? 4)) eqn:Sp; cbn [year month day].
  - destruct (last_day_of_year a b c e ltac:(lia) (Last eq_refl)) as [Leap Dby].
    split.
    + unfold check_date_fields, days_in_month, MINYEAR, MAXYEAR.
      change (12 =? 2) with false. cbn [andb].
      change (nth (Z.to_nat 12) DAYS_IN_MONTH (-1)) with 31.
      repeat (apply andb_true_iff; split); apply Z.leb_le; subst n0; lia.
    + unfold toordinal, ymd2ord, days_before_month. cbn [year month day].
      rewrite Leap, Dby.
      change (nth (Z.to_nat 12) DAYS_BEFORE_MONTH (-1)) with 334.
      change (2 <? 12) with true. cbn [andb]. subst n0. lia.
  - apply orb_false_iff in Sp as [E4 B4'].
    apply Z.eqb_neq in E4, B4'.
    rewrite <- (is_leap_spec a b c e) by lia.
    pose proof (days_before_year_spec a b c e ltac:(lia) ltac:(lia) ltac:(lia)
                  ltac:(lia)) as Dby.
    set (y := a * 400 + 1 + (b * 100 + c * 4 + e)) in *.
    pose proof (month_day_spec (is_leap y) r B1) as M.
    unfold month_day_ok in M.
    destruct (month_day (is_leap y) r) as [m d]. cbn [fst snd].
    repeat (apply andb_true_iff in M as [M ?]).
    split.
    + unfold check_date_fields, days_in_month, MINYEAR, MAXYEAR.
      repeat (apply andb_true_iff; split); try assumption;
        apply Z.leb_le; subst y n0; lia.
    + unfold toordinal, ymd2ord, days_before_month. cbn [year month day].
      rewrite Dby.
      match goal with K : (_ =? r + 1) = true |- _ => apply Z.eqb_eq in K end.
      subst n0. lia.
Qed.

Lemma pad_checked :
  all_from (pad_ok 4) (Z.to_nat 9999) 1 = true
  /\ all_from (pad_ok 2) (Z.to_nat 31) 1 = true.
Proof. split; vm_compute; reflexivity. Qed.

Lemma zero_pad_4 (y : Z) :
  1 <= y <= 9999 ->
  exists a b c d, zero_pad 4 y = [a; b; c; d] /\ parse_int [a; b; c; d] = Some y.
Proof.
  intro H. destruct pad_checked as [C _].
  pose proof (all_from_spec _ _ _ C y ltac:(lia)) as I. clear C.
  unfold pad_ok in I.
  destruct (parse_int (zero_pad 4 y)) as [v|] eqn:P; [|discriminate].
  apply andb_true_iff in I as [V L].
  apply Z.eqb_eq in V. apply Nat.eqb_eq in L. subst v.
  destruct (zero_pad 4 y) as [|a [|b [|c [|d [|]]]]]; try discriminate L.
  exists a, b, c, d. split; [reflexivity | exact P].
Qed.

Lemma zero_pad_2 (z : Z) :
  1 <= z <= 31 ->
  exists a b, zero_pad 2 z = [a; b] /\ parse_int [a; b] = Some z.
Proof.
  intro H. destruct pad_checked as [_ C].
  pose proof (all_from_spec _ _ _ C z ltac:(lia)) as I. clear C.
  unfold pad_ok in I.
  destruct (parse_int (zero_pad 2 z)) as [v|] eqn:P; [|discriminate].
  apply andb_true_iff in I as [V L].
  apply Z.eqb_eq in V. apply Nat.eqb_eq in L. subst v.
  destruct (zero_pad 2 z) as [|a [|b [|]]]; try discriminate L.
  exists a, b. split; [reflexivity | exact P].
Qed.

Lemma days_in_month_le_31 (y m : Z) : 1 <= m <= 12 -> days_in_month y m <= 31.
Proof.
  intro H. unfold days_in_month.
  destruct ((m =? 2) && is_leap y); [lia|].
  assert (K : m = 1 \/ m = 2 \/ m = 3 \/ m = 4 \/ m = 5 \/ m = 6 \/ m = 7
              \/ m = 8 \/ m = 9 \/ m = 10 \/ m = 11 \/ m = 12) by lia.
  repeat (destruct K as [K|K]); subst m; apply Z.leb_le; reflexivity.
Qed.

Lemma parse_format_ymd (y m d : Z) :
  check_date_fields y m d = true ->
  parse_isoformat_date (format_ymd y m d) = Some (y, m, d).
Proof.
  intro C. pose proof C as C'. unfold check_date_fields, MINYEAR, MAXYEAR in C'.
  repeat (apply andb_true_iff in C' as [C' ?]).
  repeat match goal with K : (_ <=? _) = true |- _ => apply Z.leb_le in K end.
  pose proof (days_in_month_le_31 y m ltac:(lia)) as D31.
  destruct (zero_pad_4 y ltac:(lia)) as (a & b & c & e & Py & Vy).
  destruct (zero_pad_2 m ltac:(lia)) as (f & g & Pm & Vm).
  destruct (zero_pad_2 d ltac:(lia)) as (h & i & Pd & Vd).
  unfold format_ymd. rewrite Py, Pm, Pd.
  unfold parse_isoformat_date, slice.
  cbn [app lit length Nat.eqb negb Nat.sub skipn firstn].
  change (firstn 4 [a; b; c; e; 45%N; f; g; 45%N; h; i]) with [a; b; c; e].
  rewrite Vy, Vm, Vd.
  change (str_eqb [45%N] (lit "-")) with true. reflexivity.
Qed.

Lemma isoformat_is_date_string (y m d : Z) :
  check_date_fields y m d = true ->
  is_date_string (format_ymd y m d) = true.
Proof.
  intro C. unfold is_date_string. now rewrite (parse_format_ymd y m d C).
Qed.

Lemma isoformat_from_year_1000 (y m d : Z) :
  check_date_fields y m d = true ->
  1000 <= y ->
  from_year_1000 (format_ymd y m d) = true.
Proof.
  intros C Y. unfold from_year_1000. rewrite (parse_format_ymd y m d C).
  now apply Z.leb_le.
Qed.

Lemma days_before_year_mono (y y' : Z) :
  y <= y' -> days_before_year y <= days_before_year y'.
Proof.
  intro H. unfold days_before_year. Z.div_mod_to_equations. lia.
Qed.

Lemma days_before_next_year (y : Z) :
  days_before_year (y + 1)
  = days_before_year y + 365 + (if is_leap y then 1 else 0).
Proof.
  unfold days_before_year, is_leap.
  replace (y + 1 - 1) with y by lia.
  destruct (Z.eqb_spec (y mod 4) 0) as [M4|M4];
  destruct (Z.eqb_spec (y mod 100) 0) as [M100|M100];
  destruct (Z.eqb_spec (y mod 400) 0) as [M400|M400];
  cbn [andb orb negb]; Z.div_mod_to_equations; lia.
Qed.

Lemma ymd2ord_within_year (y m d : Z) :
  check_date_fields y m d = true ->
  days_before_year y < ymd2ord y m d <= days_before_year (y + 1).
Proof.
  intro C. unfold check_date_fields in C.
  repeat (apply andb_true_iff in C as [C ?]).
  repeat match goal with K : (_ <=? _) = true |- _ => apply Z.leb_le in K end.
  rewrite days_before_next_year. unfold ymd2ord, days_before_month.
  unfold days_in_month in *.
  assert (K : m = 1 \/ m = 2 \/ m = 3 \/ m = 4 \/ m = 5 \/ m = 6 \/ m = 7
              \/ m = 8 \/ m = 9 \/ m = 10 \/ m = 11 \/ m = 12) by lia.
  repeat (destruct K as [K|K]); subst m; destruct (is_leap y);
    repeat match goal with
           | H : context [nth ?n ?l ?d] |- _ =>
               let v := eval vm_compute in (nth n l d) in
               change (nth n l d) with v in H
           | |- context [nth ?n ?l ?d] =>
               let v := eval vm_compute in (nth n l d) in
               change (nth n l d) with v
           end;
    cbn [Z.eqb Z.ltb Z.compare Pos.compare Pos.compare_cont Pos.eqb andb] in *;
    lia.
Qed.

Lemma later_date_later_year (a b : date) :
  check_date_fields (year a) (month a) (day a) = true ->
  check_date_fields (year b) (month b) (day b) = true ->
  toordinal a <= toordinal b -> year a <= year b.
Proof.
  intros Ca Cb H. unfold toordinal in H.
  pose proof (ymd2ord_within_year _ _ _ Ca) as Ba.
  pose proof (ymd2ord_within_year _ _ _ Cb) as Bb.
  destruct (Z.le_gt_cases (year a) (year b)) as [|G]; [assumption|].
  pose proof (days_before_year_mono (year b + 1) (year a) ltac:(lia)). lia.
Qed.

End CalendarFacts.

Lemma date_add_days_in_calendar (today d : date) (n : Z) :
  date_add_days today n = Some d ->
  check_date_fields (year d) (month d) (day d) = true
  /\ toordinal d = (toordinal today + n)%Z.
Proof.
  unfold date_add_days.
  destruct ((0 <? toordinal today + n)%Z
            && (toordinal today + n <=? MAXORDINAL)%Z) eqn:R; [|discriminate].
  intro E. injection E as <-.
  apply andb_true_iff in R as [Lo Hi].
  apply Z.ltb_lt in Lo. apply Z.leb_le in Hi.
  destruct (ord2ymd_correct (toordinal today + n)%Z ltac:(lia)) as [C T].
  split; [exact C | exact T].
Qed.

(** A date reached by going forward from a date of the year 1000 or
    later is written with a four-digit year. *)
Lemma later_date_is_modern (today d : date) (n : Z) :
  check_date_fields (year today) (month today) (day today) = true ->
  (1000 <= year today)%Z ->
  (0 <= n)%Z ->
  date_add_days today n = Some d ->
  is_date_string (isoformat d) = true /\ from_year_1000 (isoformat d) = true.
Proof.
  intros Today Y N A.
  destruct (date_add_days_in_calendar today d n A) as [C T].
  pose proof (later_date_later_year today d Today C ltac:(lia)) as L.
  split.
  - now apply isoformat_is_date_string.
  - apply isoformat_from_year_1000; [exact C | lia].
Qed.

(** X25.  [today + timedelta(days=n)], when it does not overflow, is a
    date of the calendar that lies exactly [n] days after [today], and its
    ISO format is a date string YYYY-MM-DD: the conversion from the day
    number back to year, month and day inverts the conversion to the day
    number, over the whole range of the [datetime] module. *)
Theorem date_add_days_is_calendar_step (today d : date) (n : Z) :
  date_add_days today n = Some d ->
  toordinal d = (toordinal today + n)%Z
  /\ check_date_fields (year d) (month d) (day d) = true
  /\ is_date_string (isoformat d) = true.
Proof.
  unfold date_add_days.
  destruct ((0 <? toordinal today + n)%Z
            && (toordinal today + n <=? MAXORDINAL)%Z) eqn:R; [|discriminate].
  intro E. injection E as <-.
  apply andb_true_iff in R as [Lo Hi].
  apply Z.ltb_lt in Lo. apply Z.leb_le in Hi.
  destruct (ord2ymd_correct (toordinal today + n)%Z ltac:(lia)) as [C T].
  split; [exact T|]. split; [exact C|].
  now apply isoformat_is_date_string.
Qed.

Lemma date_add_days_is_calendar_step_witness :
  is_date_string (isoformat (mk_date 2024 2 29)) = true.
Proof.
  apply (date_add_days_is_calendar_step feb_28 (mk_date 2024 2 29) 1).
  reflexivity.
Defined.

(** X26.  A due date that [quick_add_task] works out - for a current
    date of the calendar, in the year 1000 or later - is a date string
    YYYY-MM-DD: the validator of [create_task] would accept it, and once
    stored with the midnight suffix the formatter shows it as the same
    date. *)
Theorem quick_add_due_date_is_a_date (ucd_lower : str -> str)
    (text title due : str) (today : date) :
  check_date_fields (year today) (month today) (day today) = true ->
  (1000 <= year today)%Z ->
  quick_add_parse ucd_lower text today = inr (title, Some due) ->
  is_date_string due = true
  /\ validate_due_date (Some due) = inr (Some due)
  /\ due_display (JStr (due ++ lit "T00:00:00.000Z")) = JStr due.
Proof.
  intros Today Y P.
  assert (D : is_date_string due = true /\ from_year_1000 due = true).
  { unfold quick_add_parse, plus_days in P.
    destruct (contains (lit "tomorrow") _).
    - destruct (date_add_days today 1) as [d|] eqn:A; [|discriminate].
      injection P as _ <-.
      apply (later_date_is_modern today d 1 Today Y ltac:(lia) A).
    - destruct (contains (lit "today") _).
      + injection P as _ <-. split.
        * now apply isoformat_is_date_string.
        * now apply isoformat_from_year_1000.
      + destruct (contains (lit "next week") _); [|discriminate].
        destruct (date_add_days today 7) as [d|] eqn:A; [|discriminate].
        injection P as _ <-.
        apply (later_date_is_modern today d 7 Today Y ltac:(lia) A). }
  destruct D as [D M].
  split; [exact D|]. split.
  - destruct (fromisoformat_date_string due D) as (y & m & dd & F & _).
    unfold validate_due_date. destruct due as [|c r]; [reflexivity|].
    now rewrite F.
  - now apply due_display_date_string.
Qed.

Lemma quick_add_due_date_is_a_date_witness :
  is_date_string (lit "2024-02-29") = true.
Proof.
  apply (quick_add_due_date_is_a_date (fun s => s) (lit "Buy milk tomorrow")
           (lit "buy milk") (lit "2024-02-29") feb_28).
  - reflexivity.
  - discriminate.
  - reflexivity.
Defined.

(* ================================================================== *)
(** * Further properties: the create_task tool *)
(* ================================================================== *)

(** X27.  The [create_task] tool from end to end, for a due date
    YYYY-MM-DD of the year 1000 or later and a service that stores the
    body it is sent and gives the task an id: the answer shows the title
    and the notes as entered, the due date as entered (not the stored
    timestamp), the status [needsAction] and the new id, in this order. *)
Theorem create_task_answer_echoes_input (repr : json -> str) (St : Type)
    (respond : St -> call -> St * (exn + dict json))
    (input : CreateTaskInput) (st st1 : St) (log : list call) (d id : str) :
  ct_due_date input = Some d ->
  is_date_string d = true ->
  from_year_1000 d = true ->
  let body := create_body (ct_title input) (ct_notes input) (Some d) in
  respond st (TasksInsert (ct_tasklist_id input) body
                (ct_parent_task_id input) None)
  = (st1, inr (dict_set body (lit "id") (JStr id))) ->
  snd (Plain.create_task repr respond input (st, log))
  = CHECK_MARK ++ lit " Task created successfully!" ++ nl ++ nl
    ++ lit "### " ++ HOURGLASS ++ lit " " ++ ct_title input ++ nl
    ++ match nonempty (ct_notes input) with
       | Some n => lit "**Notes:** " ++ n ++ nl
       | None => []
       end
    ++ lit "**Due:** " ++ d ++ nl
    ++ lit "**Status:** needsAction" ++ nl
    ++ lit "**ID:** " ++ id ++ nl.
Proof.
  intros Due D Y body R.
  assert (Hd : d <> []).
  { destruct (date_string_shape d D) as (_ & _ & _ & _ & _ & L & _).
    destruct d; [discriminate L | congruence]. }
  assert (T : truthy (JStr d) = true) by (destruct d; [congruence | reflexivity]).
  unfold Plain.create_task, tool, bind, Gateway.create_task, execute, ret.
  rewrite Due. fold body. rewrite R. cbn [snd].
  do 4 f_equal.
  unfold format_task, get_default. rewrite !dict_get_set.
  change (str_eqb (lit "id") (lit "title")) with false.
  change (str_eqb (lit "id") (lit "notes")) with false.
  change (str_eqb (lit "id") (lit "status")) with false.
  change (str_eqb (lit "id") (lit "due")) with false.
  change (str_eqb (lit "id") (lit "id")) with true.
  cbv iota. unfold body.
  rewrite (create_body_due (ct_title input) (ct_notes input) d Hd).
  rewrite !dict_get_set.
  change (str_eqb (lit "due") (lit "title")) with false.
  change (str_eqb (lit "due") (lit "notes")) with false.
  change (str_eqb (lit "due") (lit "status")) with false.
  change (str_eqb (lit "due") (lit "due")) with true.
  cbv iota.
  rewrite (due_display_date_string d D Y), T.
  rewrite (create_body_get (ct_title input) (ct_notes input) (lit "title"))
    by reflexivity.
  rewrite (create_body_get (ct_title input) (ct_notes input) (lit "status"))
    by reflexivity.
  change (str_eqb (lit "title") (lit "title")) with true.
  change (str_eqb (lit "title") (lit "status")) with false.
  cbv iota.
  change (eq_str (JStr (lit "needsAction")) (lit "completed")) with false.
  cbv iota. unfold py_str.
  unfold create_body. cbn [nonempty].
  destruct (nonempty (ct_notes input)) as [n|] eqn:N.
  - rewrite dict_get_set.
    change (str_eqb (lit "notes") (lit "notes")) with true. cbv iota.
    assert (Tn : truthy (JStr n) = true).
    { destruct (ct_notes input) as [[|c r]|]; try discriminate N.
      injection N as <-. reflexivity. }
    rewrite Tn. now rewrite <- !app_assoc.
  - cbn [dict_get]. change (str_eqb (lit "title") (lit "notes")) with false.
    cbv iota. change (truthy (JStr [])) with false. cbv iota.
    now rewrite <- !app_assoc.
Qed.

Lemma create_task_answer_echoes_input_witness :
  snd (Plain.create_task (fun _ => []) Demo.respond
         {| ct_title := lit "Report"; ct_notes := None;
            ct_due_date := Some (lit "2024-02-29");
            ct_tasklist_id := lit "@default"; ct_parent_task_id := None |}
         start)
  = CHECK_MARK ++ lit " Task created successfully!" ++ nl ++ nl
    ++ lit "### " ++ HOURGLASS ++ lit " " ++ lit "Report" ++ nl
    ++ [] ++ lit "**Due:** " ++ lit "2024-02-29" ++ nl
    ++ lit "**Status:** needsAction" ++ nl
    ++ lit "**ID:** " ++ lit "n1" ++ nl.
Proof.
  apply (create_task_answer_echoes_input (fun _ => []) nat Demo.respond
           {| ct_title := lit "Report"; ct_notes := None;
              ct_due_date := Some (lit "2024-02-29");
              ct_tasklist_id := lit "@default"; ct_parent_task_id := None |}
           0%nat 1%nat [] (lit "2024-02-29") (lit "n1"));
    reflexivity.
Defined.
